(** * CodeLens: the text-processing and classification core

    A shallow embedding of the pure parts of [github.py],
    [tools/packages.py], [tools/combined.py] and [tools/codebase.py],
    the properties the specification states about them, and properties
    read off the code.

    Conventions of the embedding.
    - A Python [str] is a [list ascii]; a character stands for the code
      point of the same number, so the model covers the code points below
      U+0100.  On that range [isspace] and [lower] are Python's tables.
      Report templates that contain a character above that range (the
      dash of the report lines) carry it as its UTF-8 bytes.
    - A Python exception is an absent result ([None] of [option]); a
      function whose body is wrapped in [try ... except] is total.
    - The network, the clock and the library decoders ([json.loads],
      [datetime.fromisoformat], [base64.b64decode]) are arguments of the
      functions that use them.
    - Registry and hosting records are decoded field by field: a field is
      [None] when its key is absent, and [dict.get]'s default is applied
      where the source applies it.  A registry record also tells whether
      it holds other keys, so that the empty dict is told from the
      others, and its description can be [null]. *)

From Stdlib Require Import String Ascii ZArith List Bool Lia Arith.
From Stdlib Require Import Sorting.Sorted Sorting.Permutation.
From Stdlib Require Import Numbers.DecimalString.
Import ListNotations.

Local Open Scope list_scope.

(** ** Python's [str] primitives *)

Module Py.

Definition str := list ascii.

Definition py (s : string) : str := list_ascii_of_string s.

Definition str_eqb (a b : str) : bool :=
  if list_eq_dec ascii_dec a b then true else false.

(** [str.isspace] of one character, code points below U+0100. *)
Definition isspace (c : ascii) : bool :=
  let n := nat_of_ascii c in
  ((9 <=? n) && (n <=? 13)) || ((28 <=? n) && (n <=? 32))
  || (n =? 133) || (n =? 160).

(** [str.lower] of one character, code points below U+0100. *)
Definition lower_char (c : ascii) : ascii :=
  let n := nat_of_ascii c in
  if ((65 <=? n) && (n <=? 90))
     || ((192 <=? n) && (n <=? 222) && negb (n =? 215))
  then ascii_of_nat (n + 32) else c.

Definition lower (s : str) : str := map lower_char s.

Fixpoint dropwhile (p : ascii -> bool) (s : str) : str :=
  match s with
  | [] => []
  | c :: t => if p c then dropwhile p t else s
  end.

(** [x == c] on characters. *)
Definition is_char (c x : ascii) : bool :=
  if ascii_dec x c then true else false.

(** [s] is empty or its first character fails [p]. *)
Definition head_kept (p : ascii -> bool) (s : str) : Prop :=
  match s with
  | [] => True
  | c :: _ => p c = false
  end.

(** [s.strip(chars)], the characters to remove given by a test. *)
Definition strip_with (p : ascii -> bool) (s : str) : str :=
  rev (dropwhile p (rev (dropwhile p s))).

(** [s.strip()]. *)
Definition strip (s : str) : str := strip_with isspace s.

Fixpoint startswith (p s : str) : bool :=
  match p, s with
  | [], _ => true
  | _ :: _, [] => false
  | a :: p', b :: s' => if ascii_dec a b then startswith p' s' else false
  end.

(** Index of the first occurrence of [sub] in [s]. *)
Fixpoint index_of (sub s : str) : option nat :=
  if startswith sub s then Some 0
  else match s with
       | [] => None
       | _ :: t => option_map S (index_of sub t)
       end.

(** [s.find(sub)]: the index of the first occurrence, [-1] without one. *)
Definition find (sub s : str) : Z :=
  match index_of sub s with
  | Some i => Z.of_nat i
  | None => (-1)%Z
  end.

(** [sub in s]. *)
Definition contains (sub s : str) : bool :=
  match index_of sub s with Some _ => true | None => false end.

(** [s.split(sep, maxsplit)] for a non-empty [sep]: at most [maxsplit]
    cuts, each at the first occurrence of [sep] in what is left. *)
Fixpoint split_max (maxsplit : nat) (sep s : str) : list str :=
  match maxsplit with
  | 0 => [s]
  | S n =>
      match index_of sep s with
      | None => [s]
      | Some i => firstn i s :: split_max n sep (skipn (i + length sep) s)
      end
  end.

(** [s.split(sep)]: no more than [len(s)] cuts can be made. *)
Definition split (sep s : str) : list str := split_max (length s) sep s.

(** [s.split()]: maximal runs of characters that are not whitespace.
    [cur] is the run being read, last character first. *)
Fixpoint split_ws_go (cur s : str) : list str :=
  match s with
  | [] => match cur with [] => [] | _ :: _ => [rev cur] end
  | c :: t =>
      if isspace c
      then match cur with
           | [] => split_ws_go [] t
           | _ :: _ => rev cur :: split_ws_go [] t
           end
      else split_ws_go (c :: cur) t
  end.

Definition split_ws (s : str) : list str := split_ws_go [] s.

(** [sep.join(l)]. *)
Fixpoint join (sep : str) (l : list str) : str :=
  match l with
  | [] => []
  | [x] => x
  | x :: rest => x ++ sep ++ join sep rest
  end.

(** [s.replace(old, new)] for a non-empty [old]. *)
Definition replace (old new s : str) : str := join new (split old s).

Definition newline : str := ["010"%char].

(** [x in l] for a list or set of strings. *)
Definition mem (x : str) (l : list str) : bool := existsb (str_eqb x) l.

(** [str(n)] of an integer. *)
Definition str_of_Z (n : Z) : str :=
  py (NilZero.string_of_int (Z.to_int n)).

(** Digits, least significant first, with a comma after every third one
    that has a digit after it. *)
Fixpoint commas_rev (d : str) : str :=
  match d with
  | a :: b :: c :: ((_ :: _) as rest) =>
      a :: b :: c :: ","%char :: commas_rev rest
  | _ => d
  end.

(** [format(n, ",")]. *)
Definition format_commas (n : Z) : str :=
  let digits := rev (commas_rev (rev (str_of_Z (Z.abs n)))) in
  if (n <? 0)%Z then "-"%char :: digits else digits.

(** [s * n]. *)
Fixpoint repeat_str (s : str) (n : nat) : str :=
  match n with
  | 0 => []
  | S k => s ++ repeat_str s k
  end.

(** [x if x is not None else d]. *)
Definition default {A : Type} (d : A) (o : option A) : A :=
  match o with Some x => x | None => d end.

(** [format] of an optional text: [None] prints as its name. *)
Definition opt_str (o : option str) : str := default (py "None") o.

End Py.

Import Py.

(** ** The values the library decoders produce *)

(** What [json.loads] returns.  A [JObj] is a Python [dict]: its keys are
    in insertion order and pairwise different. *)
#[local] Unset Elimination Schemes.
Inductive json : Type :=
| JNull
| JBool (b : bool)
| JNum (n : Z)
| JStr (s : str)
| JArr (l : list json)
| JObj (items : list (str * json)).
#[local] Set Elimination Schemes.

(** [d.get(k)] on a dict kept as its item list. *)
Fixpoint dict_get {A : Type} (k : str) (d : list (str * A)) : option A :=
  match d with
  | [] => None
  | (k', v) :: rest => if str_eqb k k' then Some v else dict_get k rest
  end.

(** [d[k] = v]: the value is replaced in place when the key is there, the
    item is added at the end when it is not. *)
Fixpoint dict_set {A : Type} (k : str) (v : A) (d : list (str * A))
  : list (str * A) :=
  match d with
  | [] => [(k, v)]
  | (k', v') :: rest =>
      if str_eqb k k' then (k', v) :: rest else (k', v') :: dict_set k v rest
  end.

(** A [datetime]: its calendar fields, and the UTC offset in microseconds
    when it is aware ([tzinfo] is [None] on a naive one). *)
Record datetime : Type := {
  year : Z; month : Z; day : Z;
  hour : Z; minute : Z; second : Z; microsecond : Z;
  tzinfo : option Z
}.

Module Calendar.

Local Open Scope Z_scope.

Definition is_leap (y : Z) : bool :=
  (y mod 4 =? 0) && (negb (y mod 100 =? 0) || (y mod 400 =? 0)).

Definition days_in_month (y m : Z) : Z :=
  if m =? 2 then (if is_leap y then 29 else 28)
  else if (m =? 4) || (m =? 6) || (m =? 9) || (m =? 11) then 30 else 31.

Definition days_before_year (y : Z) : Z :=
  let p := y - 1 in p * 365 + p / 4 - p / 100 + p / 400.

Fixpoint days_before_month_go (y : Z) (k : nat) : Z :=
  match k with
  | O => 0
  | S k' => days_before_month_go y k' + days_in_month y (Z.of_nat k)
  end.

(** Days of the year [y] before the first of month [m]. *)
Definition days_before_month (y m : Z) : Z :=
  days_before_month_go y (Z.to_nat (m - 1)).

(** [date.toordinal]: 0001-01-01 is day 1. *)
Definition ymd2ord (y m d : Z) : Z :=
  days_before_year y + days_before_month y m + d.

Definition us_per_day : Z := 86400 * 1000000.

(** The wall-clock reading of a datetime, in microseconds since
    0001-01-01T00:00:00, its offset not applied. *)
Definition wall_us (dt : datetime) : Z :=
  ((ymd2ord (year dt) (month dt) (day dt) - 1) * 86400
   + hour dt * 3600 + minute dt * 60 + second dt) * 1000000
  + microsecond dt.

(** The instant of an aware datetime with offset [off], on the UTC axis. *)
Definition utc_us (dt : datetime) (off : Z) : Z := wall_us dt - off.

(** [timedelta.days] of a difference of [us] microseconds: timedelta
    keeps its seconds and microseconds non-negative, so the day count is
    the floor. *)
Definition timedelta_days (us : Z) : Z := us / us_per_day.

(** [int(days / 30)]: the float quotient, truncated toward zero. *)
Definition int_div30 (days : Z) : Z := Z.quot days 30.

End Calendar.

(** The external collaborators of one tool invocation. *)

(** What [_api_get] returns: the error dict, a dict (one package), or a
    list (a search result).

    A dict of the registry: a field is [None] when its key is absent.
    The description, which the registry sends as [null] for a package
    without one, has three states: absent, [null] ([Some None]) or a
    text.  [pd_other_keys] tells whether the dict holds a key that no
    field stands for. *)
Record package_data : Type := {
  pd_name : option str;
  pd_platform : option str;
  pd_description : option (option str);
  pd_stars : option Z;
  pd_forks : option Z;
  pd_open_issues : option Z;
  pd_latest_release_number : option str;
  pd_latest_release_published_at : option str;
  pd_deprecated : option bool;
  pd_contributions_count : option Z;
  pd_homepage : option str;
  pd_repository_url : option str;
  pd_other_keys : bool
}.

Definition is_none {A : Type} (o : option A) : bool :=
  match o with None => true | Some _ => false end.

(** [not data] on a dict: it has no key. *)
Definition dict_empty (d : package_data) : bool :=
  is_none (pd_name d) && is_none (pd_platform d)
  && is_none (pd_description d) && is_none (pd_stars d)
  && is_none (pd_forks d) && is_none (pd_open_issues d)
  && is_none (pd_latest_release_number d)
  && is_none (pd_latest_release_published_at d)
  && is_none (pd_deprecated d) && is_none (pd_contributions_count d)
  && is_none (pd_homepage d) && is_none (pd_repository_url d)
  && negb (pd_other_keys d).

Inductive api_result : Type :=
| ApiError (msg : str)
| ApiDict (data : package_data)
| ApiList (data : list package_data).

(** What [_get] returns for a contents or repository request: the error
    dict, a dict without an ["error"] key, or something that is not a
    dict (a directory listing). *)
Record repo_data : Type := {
  rd_encoding : option str;
  rd_content : option str;
  rd_name : option str;
  rd_description : option str;
  rd_stars : option Z;
  rd_forks : option Z;
  rd_open_issues : option Z;
  rd_language : option str;
  rd_default_branch : option str;
  rd_license : option str;
  rd_topics : list str
}.

Inductive response : Type :=
| RespError (msg : str)
| RespDict (data : repo_data)
| RespOther.

Record world : Type := {
  (** [datetime.now(timezone.utc)], microseconds since 0001-01-01T00:00Z *)
  now : Z;
  (** [datetime.fromisoformat]; [None] is its [ValueError] *)
  fromisoformat : str -> option datetime;
  (** [json.loads]; [None] is its [JSONDecodeError] *)
  json_loads : str -> option json;
  (** [repr] of a value that is not a [str] *)
  repr : json -> str;
  (** [base64.b64decode(c).decode("utf-8", errors="ignore")]; [None] is
      the decoder's [binascii.Error] *)
  b64decode_utf8 : str -> option str;
  (** the registry, by endpoint and query *)
  _api_get : str -> list (str * str) -> api_result;
  (** the hosting API, by endpoint *)
  _get : str -> response
}.

(** The world [w] with another registry. *)
Definition with_registry (w : world)
    (registry : str -> list (str * str) -> api_result) : world :=
  {| now := now w;
     fromisoformat := fromisoformat w;
     json_loads := json_loads w;
     repr := repr w;
     b64decode_utf8 := b64decode_utf8 w;
     _api_get := registry;
     _get := _get w |}.

(** ** github.py *)

Module Github.

Definition stopwords : list str :=
  map py
    ["how"; "does"; "do"; "what"; "is"; "are"; "where"; "which"; "find";
     "show"; "me"; "the"; "a"; "an"; "in"; "this"; "codebase"; "repo";
     "repository"; "all"; "any"; "give"; "explain"; "tell"; "work"; "works";
     "implemented"; "handled"; "used"; "using"; "code"; "related"]%string.

(** [extract_search_term]; [None] is the [IndexError] of
    [question.split()[0]] on an empty list. *)
Definition extract_search_term (question : str) : option str :=
  let words :=
    split_ws (replace (py ",") [] (replace (py "?") [] (lower question))) in
  let keywords :=
    filter (fun w => negb (mem w stopwords) && (2 <? length w)) words in
  match keywords with
  | _ :: _ => Some (join (py " ") (firstn 3 keywords))
  | [] => hd_error (split_ws question)
  end.

(** [get_file_content]; [None] is the [KeyError] of [data["content"]] or
    the decoder's error, which the function lets through. *)
Definition get_file_content (w : world) (repo file_path : str) : option str :=
  let data := _get w (py "repos/" ++ repo ++ py "/contents/" ++ file_path) in
  match data with
  | RespError msg =>
      Some (py "Error fetching " ++ file_path ++ py ": " ++ msg)
  | RespDict d =>
      match rd_encoding d with
      | Some enc =>
          if str_eqb enc (py "base64")
          then match rd_content d with
               | Some c => b64decode_utf8 w c
               | None => None
               end
          else Some (py "Could not decode " ++ file_path)
      | None => Some (py "Could not decode " ++ file_path)
      end
  | RespOther => Some (py "Could not decode " ++ file_path)
  end.

(** The dict [get_repo_info] builds: every key is present, with [None]
    as the value of a field the hosting API left out. *)
Record repo_info : Type := {
  ri_name : option str;
  ri_description : option str;
  ri_language : option str;
  ri_stars : option Z;
  ri_forks : option Z;
  ri_open_issues : option Z;
  ri_default_branch : option str;
  ri_topics : list str;
  ri_license : option str
}.

(** [get_repo_info]: the error dict ([inl]) or the metadata; [None] is
    the [AttributeError] of [data.get] on a list. *)
Definition get_repo_info (w : world) (repo : str)
  : option (str + repo_info) :=
  match _get w (py "repos/" ++ repo) with
  | RespError msg => Some (inl msg)
  | RespDict d =>
      Some (inr {| ri_name := rd_name d;
                   ri_description := rd_description d;
                   ri_language := rd_language d;
                   ri_stars := rd_stars d;
                   ri_forks := rd_forks d;
                   ri_open_issues := rd_open_issues d;
                   ri_default_branch := rd_default_branch d;
                   ri_topics := rd_topics d;
                   ri_license := rd_license d |})
  | RespOther => None
  end.

Definition package_files : list str :=
  map py ["package.json"; "requirements.txt"; "go.mod";
          "Cargo.toml"; "pom.xml"; "Gemfile"; "composer.json"]%string.

(** The loop of [get_package_files] over the file names still to try;
    [found] is the dict built so far. *)
Fixpoint get_package_files_loop (w : world) (repo : str)
    (files : list str) (found : list (str * str))
  : option (list (str * str)) :=
  match files with
  | [] => Some found
  | filename :: rest =>
      match get_file_content w repo filename with
      | None => None
      | Some content =>
          if negb (startswith (py "Error") content)
          then get_package_files_loop w repo rest
                 (dict_set filename content found)
          else get_package_files_loop w repo rest found
      end
  end.

Definition get_package_files (w : world) (repo : str)
  : option (list (str * str)) :=
  get_package_files_loop w repo package_files [].

End Github.

(** ** tools/packages.py *)

Module Packages.

Import Calendar.
Local Open Scope Z_scope.

Definition PACKAGE_FILES : list (str * str) :=
  [(py "package.json", py "npm");
   (py "requirements.txt", py "pypi");
   (py "go.mod", py "go");
   (py "Cargo.toml", py "cargo");
   (py "pom.xml", py "maven");
   (py "Gemfile", py "rubygems");
   (py "composer.json", py "packagist")].

(** [_months_since].  Both the [ValueError] of the parser and the
    [TypeError] of subtracting a naive datetime from the aware [now] are
    raised inside the [try] and give [None]. *)
Definition _months_since (w : world) (date_str : str) : option Z :=
  match date_str with
  | [] => None
  | _ :: _ =>
      match fromisoformat w (replace (py "Z") (py "+00:00") date_str) with
      | None => None
      | Some dt =>
          match tzinfo dt with
          | None => None
          | Some off =>
              Some (int_div30 (timedelta_days (now w - utc_us dt off)))
          end
      end
  end.

(** A loop whose body may raise inside a [try] that returns the state
    reached so far. *)
Fixpoint try_loop {S A : Type} (body : S -> A -> option S)
    (l : list A) (st : S) : S :=
  match l with
  | [] => st
  | x :: rest =>
      match body st x with
      | Some st' => try_loop body rest st'
      | None => st
      end
  end.

Definition package : Type := (str * json)%type.

(** The items of [data.get(section, {})]; [None] is the
    [AttributeError] of a value without [items]. *)
Definition section_items (data : list (str * json)) (section : str)
  : option (list package) :=
  match dict_get section data with
  | None => Some []
  | Some (JObj items) => Some items
  | Some _ => None
  end.

Definition package_json_body (data : list (str * json))
    (packages : list package) (section : str) : option (list package) :=
  match section_items data section with
  | Some items => Some (packages ++ items)
  | None => None
  end.

Definition requirements_body (packages : list package) (line : str)
  : option (list package) :=
  let line := strip line in
  if negb (length line =? 0)%nat
     && negb (startswith (py "#") line)
     && negb (startswith (py "-") line)
  then
    if contains (py "==") line then
      match split_max 1 (py "==") line with
      | [name; version] =>
          Some (packages ++ [(strip name, JStr (py "==" ++ strip version))])
      | _ => None
      end
    else if contains (py ">=") line then
      match split_max 1 (py ">=") line with
      | [name; version] =>
          Some (packages ++ [(strip name, JStr (py ">=" ++ strip version))])
      | _ => None
      end
    else Some (packages ++ [(strip line, JStr [])])
  else Some packages.

Definition is_quote (c : ascii) : bool :=
  if ascii_dec c "034"%char then true else false.

Definition cargo_body (st : bool * list package) (line : str)
  : option (bool * list package) :=
  let '(in_deps, packages) := st in
  let line := strip line in
  if mem line [py "[dependencies]"; py "[dev-dependencies]"]
  then Some (true, packages)
  else if startswith (py "[") line then Some (false, packages)
  else if in_deps && contains (py "=") line then
    match split_max 1 (py "=") line with
    | [name; version] =>
        Some (in_deps,
              packages
              ++ [(strip name, JStr (strip_with is_quote (strip version)))])
    | _ => None
    end
  else Some (in_deps, packages).

Definition go_mod_body (packages : list package) (line : str)
  : option (list package) :=
  let line := strip line in
  if negb (length line =? 0)%nat
     && negb (startswith (py "//") line)
     && negb (startswith (py "module") line)
     && negb (startswith (py "go ") line)
  then
    match split_ws line with
    | p0 :: p1 :: _ => Some (packages ++ [(p0, JStr p1)])
    | _ => Some packages
    end
  else Some packages.

(** [_extract_packages]: whatever is raised inside is swallowed and the
    packages appended before it are returned. *)
Definition _extract_packages (w : world) (filename content : str)
  : list package :=
  if str_eqb filename (py "package.json") then
    let json_start := find (py "{") content in
    if json_start =? -1 then []
    else
      match json_loads w (skipn (Z.to_nat json_start) content) with
      | Some (JObj data) =>
          try_loop (package_json_body data)
            [py "dependencies"; py "devDependencies"] []
      | _ => []
      end
  else if str_eqb filename (py "requirements.txt") then
    try_loop requirements_body (split newline content) []
  else if str_eqb filename (py "Cargo.toml") then
    snd (try_loop cargo_body (split newline content) (false, []))
  else if str_eqb filename (py "go.mod") then
    try_loop go_mod_body (split newline content) []
  else [].

(** [format] of a value inside an f-string: a [str] is itself, any other
    value prints as its [repr]. *)
Definition format_value (w : world) (v : json) : str :=
  match v with
  | JStr s => s
  | _ => repr w v
  end.

(** [fetch_package], one registry request. *)
Definition fetch_package (w : world) (_platform : str) (pkg_tuple : package)
  : str * json * api_result :=
  let '(pkg_name, version) := pkg_tuple in
  let data := _api_get w (_platform ++ py "/" ++ pkg_name) [] in
  (pkg_name, version, data).

(** The list [issues] of one fetched package. *)
Definition issues_of (w : world) (data : package_data) : list str :=
  let months :=
    _months_since w (default [] (pd_latest_release_published_at data)) in
  let deprecated := default false (pd_deprecated data) in
  let contributors := default 0 (pd_contributions_count data) in
  let issues := [] in
  let issues :=
    if deprecated then issues ++ [py "DEPRECATED"] else issues in
  let issues :=
    match months with
    | Some m =>
        if 12 <? m
        then issues ++ [py "no release in " ++ str_of_Z m ++ py "mo"]
        else issues
    | None => issues
    end in
  let issues :=
    if contributors <? 2 then issues ++ [py "< 2 contributors"] else issues in
  issues.

(** The state of the loop over the fetch results: [all_results], [risky]
    and [healthy]. *)
Definition report_state : Type := (list str * list str * list str)%type.

(** One turn of the loop over [fetch_results]; [None] is the
    [AttributeError] of [data.get] on a list. *)
Definition classify_body (w : world) (st : report_state)
    (r : str * json * api_result) : option report_state :=
  let '(all_results, risky, healthy) := st in
  let '(pkg_name, version, data) := r in
  match data with
  | ApiError _ =>
      Some (all_results
              ++ [py "  ? " ++ pkg_name ++ py " — could not fetch info"],
            risky, healthy)
  | ApiList _ => None
  | ApiDict d =>
      match issues_of w d with
      | (_ :: _) as issues =>
          Some (all_results,
                risky ++ [py "  [!] " ++ pkg_name ++ py " "
                          ++ format_value w version ++ py " — "
                          ++ join (py ", ") issues],
                healthy)
      | [] =>
          Some (all_results, risky,
                healthy ++ [py "  [ok] " ++ pkg_name ++ py " "
                            ++ format_value w version])
      end
  end.

(** A loop whose body may raise with nothing to catch it. *)
Fixpoint raising_loop {S A : Type} (body : S -> A -> option S)
    (l : list A) (st : S) : option S :=
  match l with
  | [] => Some st
  | x :: rest =>
      match body st x with
      | Some st' => raising_loop body rest st'
      | None => None
      end
  end.

(** One turn of the loop over [package_docs.items()]. *)
Definition manifest_body (w : world) (all_results : list str)
    (item : str * str) : option (list str) :=
  let '(filename, content) := item in
  match dict_get filename PACKAGE_FILES with
  | None => Some all_results
  | Some [] => Some all_results
  | Some platform =>
      match _extract_packages w filename content with
      | [] => Some all_results
      | (_ :: _) as packages =>
          let all_results :=
            all_results
            ++ [newline ++ filename ++ py " (" ++ platform ++ py "):"] in
          let packages := firstn 20 packages in
          let fetch_results := map (fetch_package w platform) packages in
          match raising_loop (classify_body w) fetch_results
                  (all_results, [], []) with
          | Some (all_results, risky, healthy) =>
              Some ((all_results ++ risky) ++ healthy)
          | None => None
          end
      end
  end.

(** What [check_dependencies] returns: a report, or the line of its
    exception handler, whose text is the exception's own. *)
Inductive dependency_report : Type :=
| Report (text : str)
| ErrorChecking.

Definition check_dependencies (w : world) (repo_name : str)
  : dependency_report :=
  match Github.get_package_files w repo_name with
  | None => ErrorChecking
  | Some [] =>
      Report (py "No package files found in '" ++ repo_name ++ py "'."
              ++ newline ++ py "Supported: "
              ++ join (py ", ") (map fst PACKAGE_FILES))
  | Some package_docs =>
      match raising_loop (manifest_body w) package_docs [] with
      | Some all_results =>
          Report (py "Dependency health check for '" ++ repo_name
                  ++ py "':" ++ newline ++ join newline all_results)
      | None => ErrorChecking
      end
  end.

(** [l.sort(key=key, reverse=True)]: by decreasing key, items of equal
    key in their former order. *)
Fixpoint insert_desc {A : Type} (key : A -> Z) (x : A) (l : list A)
  : list A :=
  match l with
  | [] => [x]
  | y :: t => if key x <? key y then y :: insert_desc key x t else x :: l
  end.

Definition sort_desc {A : Type} (key : A -> Z) (l : list A) : list A :=
  fold_right (insert_desc key) [] l.

Definition stars_key (x : package_data) : Z := default 0 (pd_stars x).

(** The list [alternatives] when the loop of [find_alternatives] starts. *)
Definition alternatives_of (package_name : str) (data : list package_data)
  : list package_data :=
  let alternatives :=
    filter (fun p => negb (str_eqb (lower (default [] (pd_name p)))
                                   (lower package_name))) data in
  sort_desc stars_key alternatives.

(** The text appended for one alternative; [None] is the [TypeError] of
    slicing a description that is [null]. *)
Definition alternative_line (w : world) (pkg : package_data)
  : option str :=
  let months :=
    _months_since w (default [] (pd_latest_release_published_at pkg)) in
  let age_str :=
    match months with
    | Some m => str_of_Z m ++ py " months ago"
    | None => py "unknown"
    end in
  let maintained :=
    match months with
    | Some m => if m <? 12 then py "Active" else py "Outdated"
    | None => py "Outdated"
    end in
  match default (Some []) (pd_description pkg) with
  | None => None
  | Some description =>
      Some (py "  " ++ opt_str (pd_name pkg) ++ py " ("
            ++ default (py "?") (pd_platform pkg) ++ py ") — " ++ maintained
            ++ newline
            ++ py "    Stars: " ++ format_commas (stars_key pkg)
            ++ py " | Last release: " ++ age_str ++ newline
            ++ py "    " ++ firstn 100 description)
  end.

(** A loop that appends one text for each item, and whose body may
    raise with nothing to catch it. *)
Fixpoint raising_map {A B : Type} (f : A -> option B) (l : list A)
  : option (list B) :=
  match l with
  | [] => Some []
  | x :: rest =>
      match f x with
      | Some y => option_map (cons y) (raising_map f rest)
      | None => None
      end
  end.

(** The list [lines] of [find_alternatives] on a search result. *)
Definition alternatives_lines (w : world) (package_name : str)
    (data : list package_data) : option (list str) :=
  let alternatives := alternatives_of package_name data in
  option_map
    (app [py "Alternatives to '" ++ package_name ++ py "':" ++ newline])
    (raising_map (alternative_line w) (firstn 6 alternatives)).

(** The dict [params] of a registry search. *)
Definition search_params (query : str) (language : option str)
  : list (str * str) :=
  let params := [(py "q", query)] in
  match language with
  | Some ((_ :: _) as l) => dict_set (py "platforms") l params
  | _ => params
  end.

(** [find_alternatives]; [None] is an exception: the [AttributeError]
    raised when the registry answers a search with a dict that is
    neither an error nor empty, or the one of a line. *)
Definition find_alternatives (w : world) (package_name : str)
    (language : option str) : option str :=
  let params := search_params package_name language in
  let nothing :=
    py "No alternatives found for '" ++ package_name ++ py "'." in
  match _api_get w (py "search") params with
  | ApiError msg => Some (py "Error: " ++ msg)
  | ApiDict data => if dict_empty data then Some nothing else None
  | ApiList [] => Some nothing
  | ApiList data =>
      option_map (join newline) (alternatives_lines w package_name data)
  end.

End Packages.

(** ** tools/combined.py *)

Module Combined.

Local Open Scope Z_scope.

(** [\w] of the [re] module on a [str] pattern: alphanumeric or the
    underscore, code points below U+0100. *)
Definition is_word (c : ascii) : bool :=
  let n := nat_of_ascii c in
  (((48 <=? n) && (n <=? 57)) || ((65 <=? n) && (n <=? 90))
   || ((97 <=? n) && (n <=? 122)) || (n =? 95)
   || (n =? 170) || (n =? 178) || (n =? 179) || (n =? 181)
   || (n =? 185) || (n =? 186) || ((188 <=? n) && (n <=? 190))
   || ((192 <=? n) && (n <=? 255) && negb (n =? 215)
       && negb (n =? 247)))%nat.

(** The class [[\w.-]]. *)
Definition is_slug_char (c : ascii) : bool :=
  is_word c || (if ascii_dec c "."%char then true else false)
  || (if ascii_dec c "-"%char then true else false).

(** [re.match(r"^[\w.-]+/[\w.-]+$", name)] on a name without a final
    newline. *)
Definition match_slug (name : str) : bool :=
  match dropwhile is_slug_char name with
  | c :: rest =>
      (if ascii_dec c "/"%char then true else false)
      && negb (length name =? S (length rest))%nat
      && negb (length rest =? 0)%nat
      && forallb is_slug_char rest
  | [] => false
  end.

Definition _is_repo (name : str) : bool :=
  let name := strip name in
  if contains (py "github.com") name then true else match_slug name.

Definition _guess_platform (w : world) (name : str) : str :=
  match _api_get w (py "search") [(py "q", name); (py "per_page", py "1")] with
  | ApiList (p :: _) => lower (default (py "npm") (pd_platform p))
  | _ => py "npm"
  end.

Record package_snapshot : Type := {
  ps_name : str;
  ps_platform : str;
  ps_description : option str;
  ps_stars : Z;
  ps_forks : Z;
  ps_open_issues : Z;
  ps_contributors : Z;
  ps_latest_version : str;
  ps_months_since_release : option Z;
  ps_deprecated : bool;
  ps_homepage : str
}.

(** The dict [_repo_snapshot] builds from the one of [get_repo_info]:
    every key it reads is present there, so no default applies and a
    field can hold [None]. *)
Record repo_snapshot : Type := {
  rs_name : option str;
  rs_description : option str;
  rs_stars : option Z;
  rs_forks : option Z;
  rs_open_issues : option Z;
  rs_language : option str;
  rs_license : option str;
  rs_topics : list str
}.

Inductive snapshot : Type :=
| SnapError (msg : str)
| SnapPackage (s : package_snapshot)
| SnapRepo (s : repo_snapshot).

(** [_package_snapshot]; [None] is the [AttributeError] of [data.get] on
    a list that is not empty.  The description of the snapshot is the
    one of the registry, [None] when that is [null]. *)
Definition _package_snapshot (w : world) (name platform : str)
  : option snapshot :=
  let could_not :=
    SnapError (py "Could not find '" ++ name ++ py "' on " ++ platform) in
  match _api_get w (platform ++ py "/" ++ name) [] with
  | ApiError _ => Some could_not
  | ApiList [] => Some could_not
  | ApiList (_ :: _) => None
  | ApiDict data =>
      if dict_empty data then Some could_not else
      let months :=
        Packages._months_since w
          (default [] (pd_latest_release_published_at data)) in
      Some (SnapPackage
              {| ps_name := default name (pd_name data);
                 ps_platform := platform;
                 ps_description :=
                   default (Some (py "N/A")) (pd_description data);
                 ps_stars := default 0 (pd_stars data);
                 ps_forks := default 0 (pd_forks data);
                 ps_open_issues := default 0 (pd_open_issues data);
                 ps_contributors := default 0 (pd_contributions_count data);
                 ps_latest_version :=
                   default (py "N/A") (pd_latest_release_number data);
                 ps_months_since_release := months;
                 ps_deprecated := default false (pd_deprecated data);
                 ps_homepage := default (py "N/A") (pd_homepage data) |})
  end.

Definition is_slash (c : ascii) : bool :=
  if ascii_dec c "/"%char then true else false.

Definition _repo_snapshot (w : world) (repo : str) : option snapshot :=
  let repo := strip repo in
  let repo :=
    if contains (py "github.com/") repo
    then strip_with is_slash (last (split (py "github.com/") repo) [])
    else repo in
  match Github.get_repo_info w repo with
  | None => None
  | Some (inl msg) => Some (SnapError msg)
  | Some (inr data) =>
      Some (SnapRepo
              {| rs_name := Github.ri_name data;
                 rs_description := Github.ri_description data;
                 rs_stars := Github.ri_stars data;
                 rs_forks := Github.ri_forks data;
                 rs_open_issues := Github.ri_open_issues data;
                 rs_language := Github.ri_language data;
                 rs_license := Github.ri_license data;
                 rs_topics := Github.ri_topics data |})
  end.

(** [format(n, ",")] of a field that may hold [None], where it raises
    [TypeError]. *)
Definition format_commas_opt (n : option Z) : option str :=
  option_map format_commas n.

(** [_format_snapshot]; [None] is the [TypeError] of formatting [None]
    with a thousands separator. *)
Definition _format_snapshot (snap : snapshot) : option str :=
  match snap with
  | SnapError msg => Some (py "Error: " ++ msg)
  | SnapPackage s =>
      let lines :=
        [ps_name s ++ py " (" ++ ps_platform s ++ py ")";
         py "  Description : " ++ opt_str (ps_description s);
         py "  Stars       : " ++ format_commas (ps_stars s);
         py "  Forks       : " ++ format_commas (ps_forks s);
         py "  Open issues : " ++ format_commas (ps_open_issues s)] in
      let lines :=
        if str_eqb (ps_platform s) (py "github") then
          lines ++ [py "  Language    : N/A"; py "  License     : N/A"]
        else
          let lines :=
            lines
            ++ [py "  Contributors: " ++ format_commas (ps_contributors s);
                py "  Latest ver  : " ++ ps_latest_version s] in
          let lines :=
            match ps_months_since_release s with
            | Some months =>
                let status :=
                  if months <? 12 then py "Active"
                  else py "No release in " ++ str_of_Z months
                       ++ py " months" in
                lines ++ [py "  Maintenance : " ++ status]
            | None => lines
            end in
          let lines :=
            if ps_deprecated s
            then lines ++ [py "  Status      : DEPRECATED"] else lines in
          lines ++ [py "  Homepage    : " ++ ps_homepage s] in
      Some (join newline lines)
  | SnapRepo s =>
      match format_commas_opt (rs_stars s), format_commas_opt (rs_forks s),
            format_commas_opt (rs_open_issues s) with
      | Some stars, Some forks, Some open_issues =>
          let lines :=
            [opt_str (rs_name s) ++ py " (github)";
             py "  Description : " ++ opt_str (rs_description s);
             py "  Stars       : " ++ stars;
             py "  Forks       : " ++ forks;
             py "  Open issues : " ++ open_issues;
             py "  Language    : " ++ opt_str (rs_language s);
             py "  License     : " ++ opt_str (rs_license s)] in
          let lines :=
            match rs_topics s with
            | (_ :: _) as topics =>
                lines ++ [py "  Topics      : " ++ join (py ", ") topics]
            | [] => lines
            end in
          Some (join newline lines)
      | _, _, _ => None
      end
  end.

Inductive mode : Type := ModePackage | ModeRepo | ModeMixed.

Definition bind {A B : Type} (o : option A) (f : A -> option B) : option B :=
  match o with Some x => f x | None => None end.

(** The first part of [compare]: the two snapshots and the mode. *)
Definition resolve (w : world) (item1 item2 : str) (platform : option str)
  : option (snapshot * snapshot * mode) :=
  match platform with
  | Some ((_ :: _) as platform) =>
      bind (_package_snapshot w item1 platform) (fun snap1 =>
      bind (_package_snapshot w item2 platform) (fun snap2 =>
      Some (snap1, snap2, ModePackage)))
  | _ =>
      if _is_repo item1 && _is_repo item2 then
        bind (_repo_snapshot w item1) (fun snap1 =>
        bind (_repo_snapshot w item2) (fun snap2 =>
        Some (snap1, snap2, ModeRepo)))
      else if negb (_is_repo item1) && negb (_is_repo item2) then
        bind (_package_snapshot w item1 (_guess_platform w item1))
          (fun snap1 =>
        bind (_package_snapshot w item2 (_guess_platform w item2))
          (fun snap2 =>
        Some (snap1, snap2, ModePackage)))
      else
        bind (if _is_repo item1 then _repo_snapshot w item1
              else _package_snapshot w item1 (_guess_platform w item1))
          (fun snap1 =>
        bind (if _is_repo item2 then _repo_snapshot w item2
              else _package_snapshot w item2 (_guess_platform w item2))
          (fun snap2 =>
        Some (snap1, snap2, ModeMixed)))
  end.

(** ["error" in snap]. *)
Definition has_error (snap : snapshot) : bool :=
  match snap with SnapError _ => true | _ => false end.

(** [snap.get("stars", 0)]; the inner [None] is Python's. *)
Definition snap_stars (snap : snapshot) : option Z :=
  match snap with
  | SnapError _ => Some 0
  | SnapPackage s => Some (ps_stars s)
  | SnapRepo s => rs_stars s
  end.

(** [snap.get("months_since_release")]. *)
Definition snap_months (snap : snapshot) : option Z :=
  match snap with
  | SnapPackage s => ps_months_since_release s
  | _ => None
  end.

(** The last part of [compare]: the verdicts appended to [out]; [None]
    is the [TypeError] of comparing with [None]. *)
Definition append_verdicts (item1 item2 : str) (snap1 snap2 : snapshot)
    (m : mode) (out : list str) : option (list str) :=
  if negb (has_error snap1) && negb (has_error snap2) then
    match snap_stars snap1, snap_stars snap2 with
    | Some stars1, Some stars2 =>
        let winner_stars := if stars2 <=? stars1 then item1 else item2 in
        let out := out ++ [py "More popular        : " ++ winner_stars] in
        match m with
        | ModePackage =>
            match snap_months snap1, snap_months snap2 with
            | Some m1, Some m2 =>
                Some (out ++ [py "More recently updated: "
                              ++ (if m1 <=? m2 then item1 else item2)])
            | _, _ => Some out
            end
        | _ => Some out
        end
    | _, _ => None
    end
  else Some out.

(** The list [out] when [compare] returns. *)
Definition compare_out (w : world) (item1 item2 : str)
    (platform : option str) : option (list str) :=
  bind (resolve w item1 item2 platform) (fun '(snap1, snap2, m) =>
  bind (_format_snapshot snap1) (fun block1 =>
  bind (_format_snapshot snap2) (fun block2 =>
  let out :=
    [py "Comparing: " ++ item1 ++ py " vs " ++ item2 ++ newline
     ++ repeat_str (py "=") 40;
     block1;
     repeat_str (py "─") 40;
     block2;
     repeat_str (py "=") 40] in
  append_verdicts item1 item2 snap1 snap2 m out))).

Definition compare (w : world) (item1 item2 : str) (platform : option str)
  : option str :=
  option_map (join newline) (compare_out w item1 item2 platform).

End Combined.

(** ** A parser for the core of the ISO format

    [YYYY-MM-DD], then optionally one separator character and
    [HH:MM:SS], a fraction of three or six digits, and an offset
    [+HH:MM] or [-HH:MM]: texts that [datetime.fromisoformat] reads, with
    the value it gives them.  The properties below hold for every parser;
    this one gives them concrete timestamps. *)

Module Iso.

Import Calendar.
Local Open Scope Z_scope.

Definition digit (c : ascii) : option Z :=
  let n := nat_of_ascii c in
  if ((48 <=? n) && (n <=? 57))%nat then Some (Z.of_nat (n - 48)) else None.

Fixpoint number_go (acc : Z) (s : str) : option Z :=
  match s with
  | [] => Some acc
  | c :: t =>
      match digit c with
      | Some d => number_go (acc * 10 + d) t
      | None => None
      end
  end.

(** A non-empty run of decimal digits. *)
Definition number (s : str) : option Z :=
  match s with
  | [] => None
  | _ :: _ => number_go 0 s
  end.

Definition in_range (lo hi x : Z) : bool := (lo <=? x) && (x <=? hi).

(** [YYYY-MM-DD] *)
Definition parse_date (s : str) : option (Z * Z * Z) :=
  match s with
  | [y1; y2; y3; y4; "-"%char; m1; m2; "-"%char; d1; d2] =>
      match number [y1; y2; y3; y4], number [m1; m2], number [d1; d2] with
      | Some y, Some m, Some d =>
          if in_range 1 9999 y && in_range 1 12 m
             && in_range 1 (days_in_month y m) d
          then Some (y, m, d) else None
      | _, _, _ => None
      end
  | _ => None
  end.

(** The fraction after the seconds: nothing, [.fff] or [.ffffff]. *)
Definition parse_fraction (s : str) : option Z :=
  match s with
  | [] => Some 0
  | "."%char :: f =>
      match number f with
      | Some v =>
          if (length f =? 3)%nat then Some (v * 1000)
          else if (length f =? 6)%nat then Some v else None
      | None => None
      end
  | _ => None
  end.

(** [HH:MM:SS] and its fraction *)
Definition parse_clock (s : str) : option (Z * Z * Z * Z) :=
  match s with
  | h1 :: h2 :: ":"%char :: m1 :: m2 :: ":"%char :: s1 :: s2 :: f =>
      match number [h1; h2], number [m1; m2], number [s1; s2],
            parse_fraction f with
      | Some h, Some m, Some sec, Some us =>
          if in_range 0 23 h && in_range 0 59 m && in_range 0 59 sec
          then Some (h, m, sec, us) else None
      | _, _, _, _ => None
      end
  | _ => None
  end.

(** [HH:MM] of an offset, in microseconds *)
Definition parse_offset (s : str) : option Z :=
  match s with
  | [h1; h2; ":"%char; m1; m2] =>
      match number [h1; h2], number [m1; m2] with
      | Some h, Some m =>
          if in_range 0 23 h && in_range 0 59 m
          then Some ((h * 3600 + m * 60) * 1000000) else None
      | _, _ => None
      end
  | _ => None
  end.

Definition is_sign (c : ascii) : bool :=
  (if ascii_dec c "+"%char then true else false)
  || (if ascii_dec c "-"%char then true else false).

(** The clock part and the offset of what follows the separator. *)
Definition parse_time (s : str) : option (Z * Z * Z * Z * option Z) :=
  let tail := dropwhile (fun c => negb (is_sign c)) s in
  let clock := firstn (length s - length tail) s in
  match parse_clock clock, tail with
  | Some (h, m, sec, us), [] => Some (h, m, sec, us, None)
  | Some (h, m, sec, us), sign :: tz =>
      match parse_offset tz with
      | Some off =>
          Some (h, m, sec, us,
                Some (if ascii_dec sign "-"%char then - off else off))
      | None => None
      end
  | None, _ => None
  end.

Definition fromisoformat_core (s : str) : option datetime :=
  match parse_date (firstn 10 s), skipn 10 s with
  | Some (y, m, d), [] =>
      Some {| year := y; month := m; day := d; hour := 0; minute := 0;
              second := 0; microsecond := 0; tzinfo := None |}
  | Some (y, m, d), _ :: t =>
      match parse_time t with
      | Some (h, mi, sec, us, tz) =>
          Some {| year := y; month := m; day := d; hour := h; minute := mi;
                  second := sec; microsecond := us; tzinfo := tz |}
      | None => None
      end
  | None, _ => None
  end.

End Iso.

(** ** The specification's own words, as definitions *)

Module Spec.

Local Open Scope Z_scope.

(** [op] occurs in [line]. *)
Definition occurs (op line : str) : Prop :=
  exists pre post, line = pre ++ op ++ post.

(** [line] cut at the first occurrence of [op]. *)
Definition first_cut (op line pre post : str) : Prop :=
  line = pre ++ op ++ post
  /\ forall pre' post', line = pre' ++ op ++ post' ->
                        (length pre <= length pre')%nat.

(** A line of requirements.txt that declares a package: not blank, not a
    comment, not an option. *)
Definition declares (line : str) : bool :=
  match line with
  | [] => false
  | c :: _ =>
      negb (if ascii_dec c "#"%char then true else false)
      && negb (if ascii_dec c "-"%char then true else false)
  end.

(** Section 4.3: the reference a declaring line gives. [==] is looked
    for first, [>=] only in a line without [==]. *)
Definition declared_by (line : str) (ref : str * json) : Prop :=
  (occurs (py "==") line ->
   exists pre post,
     first_cut (py "==") line pre post
     /\ ref = (strip pre, JStr (py "==" ++ strip post)))
  /\ (~ occurs (py "==") line -> occurs (py ">=") line ->
      exists pre post,
        first_cut (py ">=") line pre post
        /\ ref = (strip pre, JStr (py ">=" ++ strip post)))
  /\ (~ occurs (py "==") line -> ~ occurs (py ">=") line ->
      ref = (line, JStr [])).

(** Section 4.3: [items] is the mapping of [section] in the object
    [data], the empty one when the object has no such key. *)
Definition mapping_of (data : list (str * json)) (section : str)
    (items : list (str * json)) : Prop :=
  dict_get section data = Some (JObj items)
  \/ (dict_get section data = None /\ items = []).

(** Section 4.6: the query term extractor. *)
Definition is_punctuation (c : ascii) : bool :=
  (if ascii_dec c "?"%char then true else false)
  || (if ascii_dec c ","%char then true else false).

Definition survives (token : str) : bool :=
  negb (mem token Github.stopwords) && negb (length token <? 3)%nat.

Definition extractSearchTerm (question : str) : option str :=
  let tokens :=
    split_ws (filter (fun c => negb (is_punctuation c)) (lower question)) in
  match filter survives tokens with
  | [] => hd_error (split_ws question)
  | (_ :: _) as kept => Some (join (py " ") (firstn 3 kept))
  end.

(** Section 3: the status of a package. *)
Inductive status : Type := healthy | risky | unknown.

Definition classify (found deprecated : bool) (monthsSinceRelease : option Z)
    (contributorCount : Z) : status :=
  if negb found then unknown
  else if deprecated
          || match monthsSinceRelease with
             | Some m => 12 <? m
             | None => false
             end
          || (contributorCount <? 2)
       then risky
       else healthy.

(** Section 4.4: the kinds of entry line of a report section. *)
Definition is_unknown_line (line : str) : bool := startswith (py "  ? ") line.
Definition is_risky_line (line : str) : bool := startswith (py "  [!] ") line.
Definition is_healthy_line (line : str) : bool :=
  startswith (py "  [ok] ") line.

(** [line] is the entry the checker writes for the fetch result [r]. *)
Definition entry_of (w : world) (r : str * json * api_result) (line : str)
  : Prop :=
  Packages.classify_body w ([], [], []) r = Some ([line], [], [])
  \/ Packages.classify_body w ([], [], []) r = Some ([], [line], [])
  \/ Packages.classify_body w ([], [], []) r = Some ([], [], [line]).

(** The registry answered the request of [r] with a list. *)
Definition answered_by_list (r : str * json * api_result) : Prop :=
  exists l, snd r = ApiList l.

(** [a] comes no later than [b] in the order of decreasing keys. *)
Definition desc_by {A : Type} (key : A -> Z) (a b : A) : Prop :=
  key b <= key a.

(** [a] has at least the stars of [b]. *)
Definition no_fewer_stars : package_data -> package_data -> Prop :=
  desc_by Packages.stars_key.

(** The name of [p] is [package_name], the case of letters apart. *)
Definition same_name (package_name : str) (p : package_data) : Prop :=
  lower (default [] (pd_name p)) = lower package_name.

(** Section 4.2: the request for a file of the repository root. *)
Definition contents_endpoint (repo filename : str) : str :=
  py "repos/" ++ repo ++ py "/contents/" ++ filename.


(** The star, fork and issue counts of a repository snapshot are
    numbers: the hosting API gave them. *)
Definition counted (snap : Combined.snapshot) : Prop :=
  match snap with
  | Combined.SnapRepo s =>
      Combined.rs_stars s <> None /\ Combined.rs_forks s <> None
      /\ Combined.rs_open_issues s <> None
  | _ => True
  end.

(** Section 4.5: the verdicts of a comparison. *)
Definition is_package_snapshot (snap : Combined.snapshot) : Prop :=
  exists s, snap = Combined.SnapPackage s.

Definition stars_of (snap : Combined.snapshot) : Z :=
  default 0 (Combined.snap_stars snap).

Definition more_popular (item1 item2 : str)
    (snap1 snap2 : Combined.snapshot) : str :=
  py "More popular        : "
  ++ (if stars_of snap2 <=? stars_of snap1 then item1 else item2).

Definition more_recent (item1 item2 : str)
    (snap1 snap2 : Combined.snapshot) : list str :=
  match snap1, snap2 with
  | Combined.SnapPackage p1, Combined.SnapPackage p2 =>
      match Combined.ps_months_since_release p1,
            Combined.ps_months_since_release p2 with
      | Some m1, Some m2 =>
          [py "More recently updated: "
           ++ (if m1 <=? m2 then item1 else item2)]
      | _, _ => []
      end
  | _, _ => []
  end.

Definition verdicts (item1 item2 : str)
    (snap1 snap2 : Combined.snapshot) : list str :=
  match snap1, snap2 with
  | Combined.SnapError _, _ => []
  | _, Combined.SnapError _ => []
  | _, _ =>
      more_popular item1 item2 snap1 snap2
      :: more_recent item1 item2 snap1 snap2
  end.

End Spec.

(** ** A repository and a registry to evaluate the functions on *)

Module Sample.

Local Open Scope Z_scope.

Definition dq : str := ["034"%char].

Definition package_json_text : str :=
  py "{" ++ dq ++ py "dependencies" ++ dq ++
  py ": {" ++ dq ++ py "express" ++ dq ++ py ": " ++ dq ++ py "^4.18.2" ++
  dq ++ py ", " ++ dq ++ py "left-pad" ++ dq ++ py ": " ++ dq ++
  py "1.3.0" ++ dq ++ py "}, " ++ dq ++ py "devDependencies" ++ dq ++
  py ": {" ++ dq ++ py "jest" ++ dq ++ py ": " ++ dq ++ py ">=29" ++ dq ++
  py "}}".

Definition package_json : str :=
  py "// manifest" ++ newline ++ package_json_text.

Definition package_json_object : list (str * json) :=
  [(py "dependencies",
    JObj [(py "express", JStr (py "^4.18.2"));
          (py "left-pad", JStr (py "1.3.0"))]);
   (py "devDependencies", JObj [(py "jest", JStr (py ">=29"))])].

Definition requirements_txt : str :=
  py "requests==2.31.0" ++ newline ++ py "flask>=2.0" ++ newline ++
  py "# tools" ++ newline ++ py "-r dev.txt" ++ newline ++ newline ++
  py "six" ++ newline.

Definition package_json_b64 : str :=
  py "Ly8gbWFuaWZlc3QKeyJkZXBlbmRlbmNpZXMiOiB7ImV4cHJlc3MiOiAiXjQuMTguMiIsICJs"
  ++ py "ZWZ0LXBhZCI6ICIxLjMuMCJ9LCAiZGV2RGVwZW5kZW5jaWVzIjogeyJqZXN0IjogIj49Mjki"
  ++ py "fX0=".

Definition requirements_b64 : str :=
  py "cmVxdWVzdHM9PTIuMzEuMApmbGFzaz49Mi4wCiMgdG9vbHMKLXIgZGV2LnR4dAoKc2l4Cg==".

(** The dict [{}]. *)
Definition no_package : package_data :=
  {| pd_name := None; pd_platform := None; pd_description := None;
     pd_stars := None; pd_forks := None; pd_open_issues := None;
     pd_latest_release_number := None;
     pd_latest_release_published_at := None;
     pd_deprecated := None; pd_contributions_count := None;
     pd_homepage := None; pd_repository_url := None;
     pd_other_keys := false |}.

Definition a_package (name platform : string) (stars contributors : Z)
    (released : string) (deprecated : bool) : package_data :=
  {| pd_name := Some (py name); pd_platform := Some (py platform);
     pd_description := Some (Some (py "A package."));
     pd_stars := Some stars; pd_forks := Some 10;
     pd_open_issues := Some 3;
     pd_latest_release_number := Some (py "1.0.0");
     pd_latest_release_published_at := Some (py released);
     pd_deprecated := Some deprecated;
     pd_contributions_count := Some contributors;
     pd_homepage := Some (py "https://example.org");
     pd_repository_url := Some (py "https://example.org/code");
     pd_other_keys := true |}.

Definition express : package_data :=
  a_package "express" "NPM" 60000 300 "2024-11-20T08:00:00.000Z" false.
Definition left_pad : package_data :=
  a_package "left-pad" "NPM" 1200 1 "2018-04-01T00:00:00.000Z" true.
Definition koa : package_data :=
  a_package "koa" "NPM" 34000 200 "2024-06-01T00:00:00.000Z" false.
Definition fastify : package_data :=
  a_package "fastify" "NPM" 30000 500 "2024-12-01T00:00:00.000Z" false.
Definition requests : package_data :=
  a_package "requests" "Pypi" 50000 600 "2023-06-01T00:00:00.000Z" false.
Definition flask : package_data :=
  a_package "flask" "Pypi" 65000 700 "2024-11-20T08:00:00.000Z" false.

Definition table {A : Type} (rows : list (string * A)) (other : A)
    (key : str) : A :=
  default other (dict_get key (map (fun r => (py (fst r), snd r)) rows)).

Definition not_found : str := py "API returned 404: not found".

Definition registry (endpoint : str) (params : list (str * str))
  : api_result :=
  table
    [("npm/express", ApiDict express);
     ("npm/left-pad", ApiDict left_pad);
     ("npm/fastify", ApiDict fastify);
     ("pypi/requests", ApiDict requests);
     ("pypi/flask", ApiDict flask);
     ("search",
      ApiList [koa; a_package "Express" "NPM" 5 1 "" false; express;
               fastify; a_package "hapi" "NPM" 14000 90 "" false;
               a_package "restify" "NPM" 10000 80 "" false;
               a_package "polka" "NPM" 5000 20 "" false;
               a_package "micro" "NPM" 10000 40 "" false;
               a_package "sails" "NPM" 22000 150 "" false])]%string
    (ApiError not_found) endpoint.

Definition a_file (b64 : str) : repo_data :=
  {| rd_encoding := Some (py "base64"); rd_content := Some b64;
     rd_name := None; rd_description := None; rd_stars := None;
     rd_forks := None; rd_open_issues := None; rd_language := None;
     rd_default_branch := None; rd_license := None; rd_topics := [] |}.

Definition a_repo (name : string) (stars : Z) : repo_data :=
  {| rd_encoding := None; rd_content := None;
     rd_name := Some (py name); rd_description := Some (py "A framework.");
     rd_stars := Some stars; rd_forks := Some 100;
     rd_open_issues := Some 12; rd_language := Some (py "JavaScript");
     rd_default_branch := Some (py "main"); rd_license := Some (py "MIT");
     rd_topics := [py "web"; py "http"] |}.

Definition hosting (endpoint : str) : response :=
  table
    [("repos/acme/app/contents/package.json",
      RespDict (a_file package_json_b64));
     ("repos/acme/app/contents/requirements.txt",
      RespDict (a_file requirements_b64));
     ("repos/expressjs/express", RespDict (a_repo "expressjs/express" 60000));
     ("repos/fastify/fastify", RespDict (a_repo "fastify/fastify" 30000))]%string
    (RespError (py "GitHub API 404: Not Found")) endpoint.

Definition scalar_repr (v : json) : str :=
  match v with
  | JNull => py "None"
  | JBool true => py "True"
  | JBool false => py "False"
  | JNum n => str_of_Z n
  | JStr s => py "'" ++ s ++ py "'"
  | JArr _ => py "[...]"
  | JObj _ => py "{...}"
  end.

Definition loads (text : str) : option json :=
  if str_eqb text package_json_text then Some (JObj package_json_object)
  else None.

Definition decode (b64 : str) : option str :=
  if str_eqb b64 package_json_b64 then Some package_json
  else if str_eqb b64 requirements_b64 then Some requirements_txt
  else None.

(** The first of January 2025, 00:00 UTC. *)
Definition new_year_2025 : Z :=
  (Calendar.ymd2ord 2025 1 1 - 1) * Calendar.us_per_day.

Definition w : world :=
  {| now := new_year_2025;
     fromisoformat := Iso.fromisoformat_core;
     json_loads := loads;
     repr := scalar_repr;
     b64decode_utf8 := decode;
     _api_get := registry;
     _get := hosting |}.






Definition express_snapshot : Combined.snapshot :=
  default (Combined.SnapError [])
    (Combined._package_snapshot w (py "express") (py "npm")).

Definition fastify_snapshot : Combined.snapshot :=
  default (Combined.SnapError [])
    (Combined._package_snapshot w (py "fastify") (py "npm")).

End Sample.

(** ** The two HTTP wrappers: [_get] of github.py, [_api_get] of
    tools/packages.py

    [requests.get] is an argument: it answers a URL and its query with a
    response, or raises.  [J] is the type of the decoded body. *)

Module Transport.

Local Open Scope Z_scope.

(** What [requests.get] does: a response with its status, its text and
    what [resp.json()] gives (the decoded body, or the message of the
    exception it raises), or an exception with its message. *)
Inductive http_result (J : Type) : Type :=
| HttpResponse (status_code : Z) (text : str) (body : str + J)
| HttpRaised (message : str).

Arguments HttpResponse {J} status_code text body.
Arguments HttpRaised {J} message.

Definition GITHUB_BASE : str := py "https://api.github.com".
Definition LIBRARIES_IO_BASE : str := py "https://libraries.io/api".

(** [_get] of github.py; [inl] is the dict [{"error": ...}]. *)
Definition _get {J : Type}
    (requests_get : str -> list (str * str) -> http_result J)
    (endpoint : str) (params : list (str * str)) : str + J :=
  match requests_get (GITHUB_BASE ++ py "/" ++ endpoint) params with
  | HttpResponse status_code text body =>
      if status_code =? 200 then body
      else inl (py "GitHub API " ++ str_of_Z status_code ++ py ": "
                ++ firstn 200 text)
  | HttpRaised message => inl message
  end.

(** [_api_get] of tools/packages.py, [LIBRARIES_IO_KEY] an argument. *)
Definition _api_get {J : Type} (LIBRARIES_IO_KEY : str)
    (requests_get : str -> list (str * str) -> http_result J)
    (endpoint : str) (params : list (str * str)) : str + J :=
  match LIBRARIES_IO_KEY with
  | [] => inl (py "LIBRARIES_IO_API_KEY not set")
  | _ :: _ =>
      let params := dict_set (py "api_key") LIBRARIES_IO_KEY params in
      match requests_get (LIBRARIES_IO_BASE ++ py "/" ++ endpoint) params with
      | HttpResponse status_code text body =>
          if status_code =? 200 then body
          else inl (py "API returned " ++ str_of_Z status_code ++ py ": "
                    ++ firstn 200 text)
      | HttpRaised message => inl message
      end
  end.

(** The registry of a world, made of [_api_get]. *)
Definition registry_of (key : str)
    (requests_get : str -> list (str * str) -> http_result api_result)
    (endpoint : str) (params : list (str * str)) : api_result :=
  match _api_get key requests_get endpoint params with
  | inl msg => ApiError msg
  | inr data => data
  end.

(** The hosting API of a world, made of [_get]. *)
Definition hosting_of
    (requests_get : str -> list (str * str) -> http_result response)
    (endpoint : str) : response :=
  match _get requests_get endpoint [] with
  | inl msg => RespError msg
  | inr data => data
  end.

End Transport.

(** The world [w] with another hosting API. *)
Definition with_hosting (w : world) (hosting : str -> response) : world :=
  {| now := now w;
     fromisoformat := fromisoformat w;
     json_loads := json_loads w;
     repr := repr w;
     b64decode_utf8 := b64decode_utf8 w;
     _api_get := _api_get w;
     _get := hosting |}.

(** ** github.py: code search and the file tree

    The two requests of [_get] that carry a query; [_get] is an argument,
    as [Transport._get] gives it. *)

Module Hosting.

(** An item of a code search, and the body of the answer: a dict with
    its items (none when the key is absent), or a list. *)
Record code_item : Type := {
  ci_path : option str;
  ci_repository : option str;
  ci_html_url : option str;
  ci_sha : option str
}.

Inductive code_search : Type :=
| SearchDict (items : list code_item)
| SearchList.

(** A dict of the list [search_code] returns. *)
Record search_hit : Type := {
  file_path : option str;
  hit_repo : option str;
  url : option str;
  sha : option str
}.

(** [search_code] of github.py: the list with the one error dict
    ([inl]), or the hits; [None] is the [AttributeError] of [data.get] on
    a list. *)
Definition search_code
    (_get : str -> list (str * str) -> str + code_search)
    (repo query : str) (language : option str)
  : option (list (str + search_hit)) :=
  let q := query ++ py " repo:" ++ repo in
  let q :=
    match language with
    | Some ((_ :: _) as l) => q ++ py " language:" ++ l
    | _ => q
    end in
  match _get (py "search/code") [(py "q", q); (py "per_page", py "8")] with
  | inl error => Some [inl error]
  | inr SearchList => None
  | inr (SearchDict items) =>
      Some (map (fun item =>
                   inr {| file_path := ci_path item;
                          hit_repo := ci_repository item;
                          url := ci_html_url item;
                          sha := ci_sha item |}) items)
  end.

(** An entry of a tree, and the body of the answer. *)
Record tree_item : Type := {
  ti_path : option str;
  ti_type : option str
}.

Inductive tree_data : Type :=
| TreeDict (tree : list tree_item)
| TreeList.

(** The list comprehension of [get_repo_tree]; [None] is the [KeyError]
    of [item["type"]] or [item["path"]]. *)
Fixpoint blob_paths (tree : list tree_item) : option (list str) :=
  match tree with
  | [] => Some []
  | item :: rest =>
      match ti_type item with
      | None => None
      | Some type =>
          if str_eqb type (py "blob") then
            match ti_path item with
            | None => None
            | Some path => option_map (cons path) (blob_paths rest)
            end
          else blob_paths rest
      end
  end.

Definition tree_endpoint (repo branch : str) : str :=
  py "repos/" ++ repo ++ py "/git/trees/" ++ branch.

(** [get_repo_tree]; [None] is an exception it lets through. *)
Definition get_repo_tree
    (_get : str -> list (str * str) -> str + tree_data)
    (repo branch : str) : option (list str) :=
  let data := _get (tree_endpoint repo branch) [(py "recursive", py "1")] in
  let data :=
    match data with
    | inl _ =>
        _get (tree_endpoint repo (py "master")) [(py "recursive", py "1")]
    | inr _ => data
    end in
  match data with
  | inl _ => Some []
  | inr TreeList => None
  | inr (TreeDict tree) => blob_paths tree
  end.

End Hosting.

(** ** tools/packages.py: the two tools that print registry records *)

Module PackageTools.

Local Open Scope Z_scope.

Definition age_str (months : option Z) : str :=
  match months with
  | Some m => str_of_Z m ++ py " months ago"
  | None => py "unknown"
  end.

(** The text appended for one package; [None] is the [TypeError] of
    slicing a description that is [null]. *)
Definition search_line (w : world) (pkg : package_data) : option str :=
  let months :=
    Packages._months_since w
      (default [] (pd_latest_release_published_at pkg)) in
  match default (Some (py "N/A")) (pd_description pkg) with
  | None => None
  | Some description =>
      Some (py "  " ++ opt_str (pd_name pkg) ++ py " ("
            ++ default (py "?") (pd_platform pkg) ++ py ")" ++ newline
            ++ py "    Stars: " ++ format_commas (default 0 (pd_stars pkg))
            ++ py " | Last release: " ++ age_str months ++ newline
            ++ py "    " ++ firstn 80 description)
  end.

(** [search_packages]; [None] is an exception: the one of slicing a
    dict that is neither an error nor empty, or the one of a line. *)
Definition search_packages (w : world) (query : str)
    (language : option str) : option str :=
  let params := Packages.search_params query language in
  let nothing := py "No packages found for '" ++ query ++ py "'." in
  match _api_get w (py "search") params with
  | ApiError msg => Some (py "Error: " ++ msg)
  | ApiDict data => if dict_empty data then Some nothing else None
  | ApiList [] => Some nothing
  | ApiList data =>
      match Packages.raising_map (search_line w) (firstn 8 data) with
      | Some entries =>
          let lines :=
            [py "Package search results for '" ++ query ++ py "':"
             ++ newline] ++ entries in
          Some (join newline lines)
      | None => None
      end
  end.

(** The list [flags] of [get_package_info]. *)
Definition flags_of (w : world) (data : package_data) : list str :=
  let months :=
    Packages._months_since w
      (default [] (pd_latest_release_published_at data)) in
  let deprecated := default false (pd_deprecated data) in
  let flags := [] in
  let flags := if deprecated then flags ++ [py "DEPRECATED"] else flags in
  let flags :=
    match months with
    | Some m =>
        if 12 <? m
        then flags ++ [py "No release in " ++ str_of_Z m ++ py " months"]
        else flags
    | None => flags
    end in
  flags.

(** The last line of the text of [get_package_info]. *)
Definition status_line (w : world) (data : package_data) : str :=
  match flags_of w data with
  | (_ :: _) as flags => py "Flags        : " ++ join (py " | ") flags
  | [] => py "Status       : Maintained"
  end.

(** [get_package_info]; [None] is the [AttributeError] of [data.get]
    on a list. *)
Definition get_package_info (w : world) (name platform : str)
  : option str :=
  let not_found :=
    py "Package '" ++ name ++ py "' not found on " ++ platform ++ py "." in
  match _api_get w (platform ++ py "/" ++ name) [] with
  | ApiError msg => Some (py "Error: " ++ msg)
  | ApiList [] => Some not_found
  | ApiList (_ :: _) => None
  | ApiDict data =>
      if dict_empty data then Some not_found else
      let months :=
        Packages._months_since w
          (default [] (pd_latest_release_published_at data)) in
      Some (py "Package: " ++ opt_str (pd_name data) ++ py " (" ++ platform
            ++ py ")" ++ newline
            ++ py "Description  : "
            ++ opt_str (default (Some (py "N/A")) (pd_description data))
            ++ newline
            ++ py "Latest ver   : "
            ++ default (py "N/A") (pd_latest_release_number data) ++ newline
            ++ py "Last release : " ++ age_str months ++ newline
            ++ py "Stars        : "
            ++ format_commas (default 0 (pd_stars data)) ++ newline
            ++ py "Forks        : "
            ++ format_commas (default 0 (pd_forks data)) ++ newline
            ++ py "Open issues  : "
            ++ format_commas (default 0 (pd_open_issues data)) ++ newline
            ++ py "Contributors : "
            ++ str_of_Z (default 0 (pd_contributions_count data)) ++ newline
            ++ py "Homepage     : "
            ++ default (py "N/A") (pd_homepage data) ++ newline
            ++ py "Repository   : "
            ++ default (py "N/A") (pd_repository_url data) ++ newline
            ++ status_line w data)
  end.

End PackageTools.

(** ** tools/codebase.py *)

Module Codebase.

(** What a tool whose body is in a [try] returns: its text, or the line
    of its handler, "Error: " and the text of the exception. *)
Inductive tool_result : Type :=
| Text (text : str)
| Raised.

Definition rule : str := repeat_str (py "─") 40.

(** [s.endswith(suffix)]. *)
Definition endswith (suffix s : str) : bool :=
  startswith (rev suffix) (rev s).

(** The content of a file as [ask_repo] shows it. *)
Definition truncated (content : str) : str :=
  if (3000 <? length content)%nat
  then firstn 3000 content ++ newline ++ py "... (truncated)"
  else content.

(** The loop of [ask_repo] over the hits; [None] is an exception: the
    [KeyError] of [item["file_path"]] or one that [get_file_content]
    lets through. *)
Fixpoint context_parts (w : world) (repo : str)
    (items : list (str + Hosting.search_hit)) : option (list str) :=
  match items with
  | [] => Some []
  | inl _ :: _ => None
  | inr item :: rest =>
      let file_path := opt_str (Hosting.file_path item) in
      match Github.get_file_content w repo file_path with
      | None => None
      | Some content =>
          option_map
            (cons (py "File: " ++ file_path ++ newline ++ rule ++ newline
                   ++ truncated content))
            (context_parts w repo rest)
      end
  end.

Definition ask_repo (w : world)
    (_get : str -> list (str * str) -> str + Hosting.code_search)
    (question repo : str) : tool_result :=
  match Github.extract_search_term question with
  | None => Raised
  | Some search_term =>
      match Hosting.search_code _get repo search_term None with
      | None => Raised
      | Some [] =>
          Text (py "Could not search repo '" ++ repo ++ py "': No results")
      | Some (inl error :: _) =>
          Text (py "Could not search repo '" ++ repo ++ py "': " ++ error)
      | Some results =>
          match context_parts w repo (firstn 4 results) with
          | None => Raised
          | Some context_parts =>
              let context := join (newline ++ newline) context_parts in
              Text (py "Relevant code from '" ++ repo ++ py "' for: "
                    ++ ["034"%char] ++ question ++ ["034"%char] ++ newline
                    ++ py "Search term used: '" ++ search_term ++ py "'"
                    ++ newline ++ newline
                    ++ context ++ newline ++ newline
                    ++ py "Use the above code to answer the question "
                    ++ py "with exact file citations.")
          end
      end
  end.

(** The lines of [search_code] for the hits, numbered from [i]; [None]
    is the [KeyError] of [item["file_path"]]. *)
Fixpoint numbered (i : nat) (items : list (str + Hosting.search_hit))
  : option (list str) :=
  match items with
  | [] => Some []
  | inl _ :: _ => None
  | inr item :: rest =>
      option_map
        (cons (str_of_Z (Z.of_nat i) ++ py ". "
               ++ opt_str (Hosting.file_path item) ++ newline
               ++ py "   " ++ opt_str (Hosting.url item)))
        (numbered (S i) rest)
  end.

Definition search_code
    (_get : str -> list (str * str) -> str + Hosting.code_search)
    (query repo : str) (language : option str) : tool_result :=
  match Hosting.search_code _get repo query language with
  | None => Raised
  | Some [] =>
      Text (py "Search failed for '" ++ repo ++ py "': No results")
  | Some (inl error :: _) =>
      Text (py "Search failed for '" ++ repo ++ py "': " ++ error)
  | Some results =>
      match numbered 1 results with
      | None => Raised
      | Some lines =>
          Text (join newline
                  ((py "Search results for '" ++ query ++ py "' in '"
                    ++ repo ++ py "':" ++ newline) :: lines))
      end
  end.

Definition get_file (w : world) (repo file_path : str) : tool_result :=
  match Github.get_file_content w repo file_path with
  | None => Raised
  | Some content =>
      if startswith (py "Error") content then Text content
      else Text (repo ++ py "/" ++ file_path ++ newline ++ rule ++ newline
                 ++ content)
  end.

(** [repo_info]; [Raised] is also the [TypeError] of formatting a
    count that is [None] with a thousands separator. *)
Definition repo_info (w : world) (repo : str) : tool_result :=
  match Github.get_repo_info w repo with
  | None => Raised
  | Some (inl error) => Text (py "Error: " ++ error)
  | Some (inr info) =>
      let topics :=
        match Github.ri_topics info with
        | (_ :: _) as topics => join (py ", ") topics
        | [] => py "none"
        end in
      let license :=
        match Github.ri_license info with
        | Some ((_ :: _) as license) => license
        | _ => py "N/A"
        end in
      match option_map format_commas (Github.ri_stars info),
            option_map format_commas (Github.ri_forks info),
            option_map format_commas (Github.ri_open_issues info) with
      | Some stars, Some forks, Some open_issues =>
          Text (opt_str (Github.ri_name info) ++ newline
                ++ py "Description : "
                ++ opt_str (Github.ri_description info) ++ newline
                ++ py "Language    : "
                ++ opt_str (Github.ri_language info) ++ newline
                ++ py "Stars       : " ++ stars ++ newline
                ++ py "Forks       : " ++ forks ++ newline
                ++ py "Open issues : " ++ open_issues ++ newline
                ++ py "License     : " ++ license ++ newline
                ++ py "Topics      : " ++ topics)
      | _, _, _ => Raised
      end
  end.

(** The lines of [list_files] for the files left by the filter. *)
Definition files_lines (repo : str) (files : list str) : list str :=
  let total := length files in
  let shown := firstn 50 files in
  let lines :=
    [py "Files in '" ++ repo ++ py "' (" ++ str_of_Z (Z.of_nat total)
     ++ py " total):" ++ newline] in
  let lines := lines ++ map (fun f => py "  " ++ f) shown in
  if (50 <? total)%nat
  then lines ++ [newline ++ py "  ... and "
                 ++ str_of_Z (Z.of_nat total - 50) ++ py " more"]
  else lines.

(** [ext] of [list_files]. *)
Definition dotted (extension : str) : str :=
  if startswith (py ".") extension then extension
  else py "." ++ extension.

Definition list_files (w : world)
    (_get : str -> list (str * str) -> str + Hosting.tree_data)
    (repo : str) (extension : option str) : tool_result :=
  match Github.get_repo_info w repo with
  | None => Raised
  | Some info =>
      let branch :=
        match info with
        | inr info => opt_str (Github.ri_default_branch info)
        | inl _ => py "main"
        end in
      match Hosting.get_repo_tree _get repo branch with
      | None => Raised
      | Some [] =>
          Text (py "Could not fetch file tree for '" ++ repo ++ py "'")
      | Some files =>
          let files :=
            match extension with
            | Some ((_ :: _) as extension) =>
                filter (endswith (dotted extension)) files
            | _ => files
            end in
          Text (join newline (files_lines repo files))
      end
  end.

End Codebase.

(** ** tools/combined.py: the audit and the summary

    The three tools they call are arguments: each gives the text it
    returns. *)

Module Audit.

(** [s.rstrip(chars)], the characters to remove given by a test. *)
Definition rstrip_with (p : ascii -> bool) (s : str) : str :=
  rev (dropwhile p (rev s)).

(** The repository [audit_repo] works on. *)
Definition audit_target (repo : str) : str :=
  let repo := rstrip_with Combined.is_slash (strip repo) in
  if contains (py "github.com/") repo
  then replace (py ".git") [] (last (split (py "github.com/") repo) [])
  else repo.

Definition audit_repo (repo_info : str -> str)
    (ask_repo : str -> str -> str) (check_dependencies : str -> str)
    (repo : str) : str :=
  let repo := audit_target repo in
  let lines :=
    [py "CodeLens Audit: " ++ repo ++ newline ++ repeat_str (py "=") 40] in
  let lines := lines ++ [newline ++ py "Repo Info:"] in
  let lines := lines ++ [repo_info repo] in
  let lines := lines ++ [newline ++ py "Codebase Overview:"] in
  let lines :=
    lines
    ++ [ask_repo
          (py "What does this codebase do and how is it structured?")
          repo] in
  let lines := lines ++ [newline ++ py "Dependency Health:"] in
  let lines := lines ++ [check_dependencies repo] in
  let lines := lines ++ [newline ++ repeat_str (py "=") 40] in
  let lines := lines ++ [py "Audit complete."] in
  join newline lines.

Definition repo_summary (repo_info : str -> str)
    (ask_repo : str -> str -> str) (check_dependencies : str -> str)
    (repo : str) : str :=
  let info := repo_info repo in
  let purpose :=
    ask_repo
      (py "What is the main purpose and structure of this codebase?")
      repo in
  let deps := check_dependencies repo in
  py "Repo Summary: " ++ repo ++ newline
  ++ repeat_str (py "=") 40 ++ newline ++ newline
  ++ py "Info:" ++ newline ++ info ++ newline ++ newline
  ++ py "Purpose & Structure:" ++ newline ++ purpose ++ newline ++ newline
  ++ py "Dependency Health:" ++ newline ++ deps.

End Audit.

(** ** What the code does beyond the specification's sentences

    Predicates for the properties read off the source. *)

Module Behaviour.

Local Open Scope Z_scope.

(** The file names [_extract_packages] has a branch for. *)
Definition parsed_names : list str :=
  [py "package.json"; py "requirements.txt"; py "Cargo.toml"; py "go.mod"].

(** A JSON value that is not an object. *)
Definition not_object (v : json) : Prop := forall items, v <> JObj items.

(** A token of [str.split()]: not empty, no whitespace in it. *)
Definition token (t : str) : Prop :=
  t <> [] /\ forallb (fun c => negb (isspace c)) t = true.

(** A stripped line of go.mod that gives a package. *)
Definition go_line (line : str) : bool :=
  negb (length line =? 0)%nat
  && negb (startswith (py "//") line)
  && negb (startswith (py "module") line)
  && negb (startswith (py "go ") line)
  && (2 <=? length (split_ws line))%nat.

(** [p] is made of the first two tokens of [line]. *)
Definition first_two (line : str) (p : str * json) : Prop :=
  exists v rest,
    split_ws line = fst p :: v :: rest
    /\ snd p = JStr v /\ token (fst p) /\ token v.

(** A stripped line of Cargo.toml that opens a dependency section. *)
Definition cargo_header (line : str) : bool :=
  mem line [py "[dependencies]"; py "[dev-dependencies]"].

(** [p] is what a Cargo.toml line [name = version] gives. *)
Definition cargo_entry (line : str) (p : str * json) : Prop :=
  exists pre post,
    Spec.first_cut (py "=") line pre post
    /\ p = (strip pre, JStr (strip_with Packages.is_quote (strip post))).

(** The test of [get_package_files] on one file name. *)
Definition kept_file (w : world) (repo filename : str) : bool :=
  match Github.get_file_content w repo filename with
  | Some content => negb (startswith (py "Error") content)
  | None => false
  end.

(** The registry failed on the request of [r]. *)
Definition failed (r : str * json * api_result) : bool :=
  match snd r with
  | ApiError _ => true
  | _ => false
  end.

(** The line written for a failed request. *)
Definition could_not_fetch (r : str * json * api_result) : str :=
  py "  ? " ++ fst (fst r) ++ py " — could not fetch info".

(** [requests.get] answered with the status 200. *)
Definition answered_200 {J : Type} (r : Transport.http_result J) : bool :=
  match r with
  | Transport.HttpResponse status_code _ _ => status_code =? 200
  | Transport.HttpRaised _ => false
  end.

(** An entry of a tree with its type, and its path when it is a blob. *)
Definition well_formed_item (item : Hosting.tree_item) : Prop :=
  exists type,
    Hosting.ti_type item = Some type
    /\ (type = py "blob" -> Hosting.ti_path item <> None).

Definition is_blob (item : Hosting.tree_item) : bool :=
  match Hosting.ti_type item with
  | Some type => str_eqb type (py "blob")
  | None => false
  end.

(** The hit [search_code] of github.py makes of an item. *)
Definition hit_of (item : Hosting.code_item) : Hosting.search_hit :=
  {| Hosting.file_path := Hosting.ci_path item;
     Hosting.hit_repo := Hosting.ci_repository item;
     Hosting.url := Hosting.ci_html_url item;
     Hosting.sha := Hosting.ci_sha item |}.

(** [part] is the part of the context of [ask_repo] for [item]: its
    path, the rule, and what [get_file_content] gives for the path, cut
    after 3000 characters. *)
Definition context_part (w : world) (repo : str) (item : Hosting.code_item)
    (part : str) : Prop :=
  exists content,
    Github.get_file_content w repo (opt_str (Hosting.ci_path item))
    = Some content
    /\ part = py "File: " ++ opt_str (Hosting.ci_path item) ++ newline
              ++ Codebase.rule ++ newline ++ Codebase.truncated content.

(** The query [ask_repo] and [search_code] send for a term. *)
Definition code_query (repo term : str) : list (str * str) :=
  [(py "q", term ++ py " repo:" ++ repo); (py "per_page", py "8")].

(** [sep] has a border of length [k]: its first [k] characters are its
    last [k]. *)
Definition border (sep : str) (k : nat) : bool :=
  str_eqb (firstn k sep) (skipn (length sep - k) sep).

(** No proper border: two occurrences of [sep] never overlap. *)
Definition unbordered (sep : str) : bool :=
  forallb (fun k => negb (border sep k)) (seq 1 (length sep - 1)).

(** The block [compare] prints for a repository; [None] is an
    exception. *)
Definition repo_block (w : world) (repo : str) : option str :=
  Combined.bind (Combined._repo_snapshot w repo) Combined._format_snapshot.

(** The two lines of [search_code] for the hit [item] of number [i]. *)
Definition listed (entry : nat * Hosting.code_item) : str :=
  str_of_Z (Z.of_nat (fst entry)) ++ py ". "
  ++ opt_str (Hosting.ci_path (snd entry)) ++ newline
  ++ py "   " ++ opt_str (Hosting.ci_html_url (snd entry)).

(** The branch [list_files] asks the tree of. *)
Definition branch_of (info : str + Github.repo_info) : str :=
  match info with
  | inr info => opt_str (Github.ri_default_branch info)
  | inl _ => py "main"
  end.

(** The shape [owner/name] of a repository slug. *)
Definition slug_shape (name : str) : Prop :=
  exists owner repo,
    name = owner ++ "/"%char :: repo
    /\ owner <> [] /\ repo <> []
    /\ forallb Combined.is_slug_char owner = true
    /\ forallb Combined.is_slug_char repo = true.

(** A keyword of a search term. *)
Definition keyword (k : str) : Prop :=
  (3 <= length k)%nat
  /\ mem k Github.stopwords = false
  /\ token k
  /\ lower k = k
  /\ ~ In "?"%char k /\ ~ In ","%char k.

End Behaviour.

(** ** More to evaluate the functions on *)

Module Fixtures.

Local Open Scope Z_scope.

(** A package.json whose [devDependencies] is a list. *)
Definition damaged_text : str :=
  py "{" ++ Sample.dq ++ py "dependencies" ++ Sample.dq ++ py ": {" ++
  Sample.dq ++ py "express" ++ Sample.dq ++ py ": " ++ Sample.dq ++
  py "^4.18.2" ++ Sample.dq ++ py "}, " ++ Sample.dq ++
  py "devDependencies" ++ Sample.dq ++ py ": []}".

Definition damaged_object : list (str * json) :=
  [(py "dependencies", JObj [(py "express", JStr (py "^4.18.2"))]);
   (py "devDependencies", JArr [])].

Definition loads (text : str) : option json :=
  if str_eqb text damaged_text then Some (JObj damaged_object)
  else Sample.loads text.

Definition w : world :=
  {| now := Sample.new_year_2025;
     fromisoformat := Iso.fromisoformat_core;
     json_loads := loads;
     repr := Sample.scalar_repr;
     b64decode_utf8 := Sample.decode;
     _api_get := Sample.registry;
     _get := Sample.hosting |}.

Definition cargo_toml : str :=
  py "[package]" ++ newline ++ py "name = " ++ Sample.dq ++ py "demo" ++
  Sample.dq ++ newline ++ newline ++ py "[dependencies]" ++ newline ++
  py "serde = " ++ Sample.dq ++ py "1.0" ++ Sample.dq ++ newline ++
  py "tokio = { version = " ++ Sample.dq ++ py "1" ++ Sample.dq ++
  py " }" ++ newline ++ newline ++ py "[features]" ++ newline ++
  py "default = []" ++ newline.

(** A Cargo.toml without a dependency section. *)
Definition cargo_plain : str :=
  py "[package]" ++ newline ++ py "name = " ++ Sample.dq ++ py "demo" ++
  Sample.dq ++ newline ++ py "version = " ++ Sample.dq ++ py "0.1.0" ++
  Sample.dq ++ newline.

(** A network on which only the package.json of [acme/app] is there. *)
Definition requests_get (url : str) (params : list (str * str))
  : Transport.http_result response :=
  if str_eqb url
       (py "https://api.github.com/repos/acme/app/contents/package.json")
  then Transport.HttpResponse 200 []
         (inr (RespDict (Sample.a_file Sample.package_json_b64)))
  else Transport.HttpResponse 404 (py "Not Found") (inl (py "no body")).

Definition blob (path : string) : Hosting.tree_item :=
  {| Hosting.ti_path := Some (py path);
     Hosting.ti_type := Some (py "blob") |}.

Definition folder (path : string) : Hosting.tree_item :=
  {| Hosting.ti_path := Some (py path);
     Hosting.ti_type := Some (py "tree") |}.

(** The tree of [acme/app]: on [master] only. *)
Definition tree_get (endpoint : str) (params : list (str * str))
  : str + Hosting.tree_data :=
  if str_eqb endpoint (py "repos/acme/app/git/trees/master")
  then inr (Hosting.TreeDict
              [blob "README.md"; folder "src"; blob "src/app.py";
               blob "src/util.py"; blob "src/app.pyc"; blob "setup.cfg"])
  else inl (py "GitHub API 404: Not Found").

Definition hit (path : string) : Hosting.code_item :=
  {| Hosting.ci_path := Some (py path);
     Hosting.ci_repository := Some (py "acme/app");
     Hosting.ci_html_url :=
       Some (py "https://github.com/acme/app/blob/main/" ++ py path);
     Hosting.ci_sha := Some (py "0f3c") |}.

(** A code search that finds five files, whatever the query. *)
Definition search_get (endpoint : str) (params : list (str * str))
  : str + Hosting.code_search :=
  inr (Hosting.SearchDict
         [hit "package.json"; hit "requirements.txt"; hit "src/app.py";
          hit "src/util.py"; hit "README.md"]).

End Fixtures.

(** ** Properties of the [str] primitives *)

#[local] Arguments ascii_dec : simpl never.

(** The character tables, code point by code point. *)

Example isspace_table :
  filter (fun n => isspace (ascii_of_nat n)) (seq 0 256)
  = [9; 10; 11; 12; 13; 28; 29; 30; 31; 32; 133; 160].
Proof. vm_compute. reflexivity. Qed.

Example lower_char_table :
  filter (fun n => negb (nat_of_ascii (lower_char (ascii_of_nat n)) =? n))
    (seq 0 256)
  = seq 65 26 ++ seq 192 23 ++ seq 216 7
  /\ forallb (fun n => nat_of_ascii (lower_char (ascii_of_nat n)) =? n + 32)
       (seq 65 26 ++ seq 192 23 ++ seq 216 7) = true.
Proof. split; vm_compute; reflexivity. Qed.

Example is_word_table :
  filter (fun n => negb (Combined.is_word (ascii_of_nat n))) (seq 48 208)
  = seq 58 7 ++ seq 91 4 ++ [96] ++ seq 123 47 ++ seq 171 7 ++ seq 180 1
    ++ seq 182 3 ++ [187; 191; 215; 247]
  /\ existsb (fun n => Combined.is_word (ascii_of_nat n)) (seq 0 48) = false.
Proof. split; vm_compute; reflexivity. Qed.

Lemma str_eqb_eq (a b : str) : str_eqb a b = true <-> a = b.
Proof.
  unfold str_eqb. destruct (list_eq_dec ascii_dec a b); split; congruence.
Qed.

Lemma str_eqb_refl (a : str) : str_eqb a a = true.
Proof. apply str_eqb_eq. reflexivity. Qed.

Lemma startswith_iff (p s : str) :
  startswith p s = true <-> exists t, s = p ++ t.
Proof.
  revert s. induction p as [|a p IH]; intros s; simpl.
  - split; [intros _; exists s; reflexivity | reflexivity].
  - destruct s as [|b s].
    + split; [discriminate | intros [t H]; discriminate].
    + destruct (ascii_dec a b) as [->|Hab].
      * rewrite IH. split; intros [t H]; exists t; congruence.
      * split; [discriminate | intros [t H]; congruence].
Qed.

Lemma startswith_app (p t : str) : startswith p (p ++ t) = true.
Proof. apply startswith_iff. exists t. reflexivity. Qed.

Lemma index_of_eq (sub s : str) :
  index_of sub s =
  if startswith sub s then Some 0%nat
  else match s with
       | [] => None
       | _ :: t => option_map S (index_of sub t)
       end.
Proof. destruct s; reflexivity. Qed.

Lemma index_of_Some (sub s : str) (i : nat) :
  index_of sub s = Some i ->
  s = firstn i s ++ sub ++ skipn (i + length sub) s
  /\ forall pre post, s = pre ++ sub ++ post -> i <= length pre.
Proof.
  revert i. induction s as [|c t IH]; intros i; rewrite index_of_eq.
  - destruct (startswith sub []) eqn:E; [|discriminate].
    intros [= <-]. apply startswith_iff in E. destruct E as [u E].
    split; [|intros; lia].
    simpl. rewrite E at 2. rewrite skipn_app, Nat.sub_diag, skipn_all.
    simpl. exact E.
  - destruct (startswith sub (c :: t)) eqn:E.
    + intros [= <-]. apply startswith_iff in E. destruct E as [u E].
      split; [|intros; lia].
      simpl firstn. simpl plus. rewrite E at 2.
      rewrite skipn_app, Nat.sub_diag, skipn_all. simpl. exact E.
    + destruct (index_of sub t) as [j|] eqn:Ej; [|discriminate].
      simpl. intros [= <-]. destruct (IH j eq_refl) as [H1 H2]. split.
      * simpl. f_equal. exact H1.
      * intros pre post H. destruct pre as [|a pre].
        -- simpl in H. rewrite H, startswith_app in E. discriminate.
        -- simpl in H. injection H as _ H. apply H2 in H. simpl. lia.
Qed.

Lemma index_of_None (sub s : str) :
  index_of sub s = None -> forall pre post, s <> pre ++ sub ++ post.
Proof.
  induction s as [|c t IH]; rewrite index_of_eq.
  - destruct (startswith sub []) eqn:E; [discriminate|].
    intros _ pre post H. destruct pre; simpl in H.
    + rewrite H, startswith_app in E. discriminate.
    + discriminate.
  - destruct (startswith sub (c :: t)) eqn:E; [discriminate|].
    destruct (index_of sub t) eqn:Ej; [discriminate|].
    intros _ pre post H. destruct pre as [|a pre]; simpl in H.
    + rewrite H, startswith_app in E. discriminate.
    + injection H as _ H. exact (IH eq_refl _ _ H).
Qed.

Lemma contains_iff (sub s : str) :
  contains sub s = true <-> Spec.occurs sub s.
Proof.
  unfold contains, Spec.occurs.
  destruct (index_of sub s) as [i|] eqn:E.
  - split; [intros _|reflexivity].
    apply index_of_Some in E. destruct E as [E _]. eauto.
  - split; [discriminate|].
    intros (pre & post & H). exfalso. eapply index_of_None; eauto.
Qed.


Lemma join_nil (l : list str) : join [] l = concat l.
Proof.
  induction l as [|x [|y r] IH]; simpl in *.
  - reflexivity.
  - rewrite app_nil_r. reflexivity.
  - rewrite IH. reflexivity.
Qed.

Lemma filter_id_notin (c : ascii) (s : str) :
  ~ In c s -> filter (fun x => negb (is_char c x)) s = s.
Proof.
  induction s as [|a s IH]; simpl; intros H; [reflexivity|].
  unfold is_char at 1. destruct (ascii_dec a c) as [->|Hne].
  - exfalso. apply H. left. reflexivity.
  - simpl. f_equal. apply IH. intros Hin. apply H. right. exact Hin.
Qed.

Lemma index_of_char_None (c : ascii) (s : str) :
  index_of [c] s = None -> ~ In c s.
Proof.
  intros E Hin. apply in_split in Hin. destruct Hin as (l1 & l2 & H).
  exact (index_of_None _ _ E l1 l2 H).
Qed.

Lemma index_of_char_Some (c : ascii) (s : str) (i : nat) :
  index_of [c] s = Some i ->
  s = firstn i s ++ c :: skipn (S i) s /\ ~ In c (firstn i s)
  /\ i < length s.
Proof.
  intros E. apply index_of_Some in E. destruct E as [H1 H2].
  simpl in H1. replace (i + 1) with (S i) in H1 by lia.
  assert (Hlen : i < length s).
  { destruct (Nat.lt_ge_cases i (length s)) as [|Hge]; [assumption|].
    exfalso. rewrite firstn_all2 in H1 by assumption.
    apply (f_equal (@length ascii)) in H1.
    rewrite length_app in H1. simpl in H1. lia. }
  split; [exact H1|]. split; [|exact Hlen].
  intros Hin. apply in_split in Hin. destruct Hin as (l1 & l2 & H).
  assert (Hs : s = l1 ++ [c] ++ (l2 ++ c :: skipn (S i) s)).
  { rewrite H1 at 1. rewrite H. rewrite <- app_assoc. reflexivity. }
  apply H2 in Hs.
  apply (f_equal (@length ascii)) in H.
  rewrite length_firstn, length_app in H. simpl in H. lia.
Qed.

Lemma concat_split_char (c : ascii) (n : nat) (s : str) :
  length s <= n ->
  concat (split_max n [c] s) = filter (fun x => negb (is_char c x)) s.
Proof.
  revert s. induction n as [|n IH]; intros s Hn.
  - destruct s; [reflexivity | simpl in Hn; lia].
  - simpl. destruct (index_of [c] s) as [i|] eqn:E.
    + apply index_of_char_Some in E. destruct E as (H1 & H2 & H3).
      simpl. replace (i + 1) with (S i) by lia.
      rewrite IH by (rewrite length_skipn; lia).
      set (f := fun x => negb (is_char c x)).
      assert (Hf : filter f (firstn i s ++ c :: skipn (S i) s)
                   = firstn i s ++ filter f (skipn (S i) s)).
      { rewrite filter_app. simpl. unfold f at 2, is_char.
        destruct (ascii_dec c c); [|congruence]. simpl.
        unfold f. rewrite filter_id_notin by assumption. reflexivity. }
      rewrite <- H1 in Hf. symmetry. exact Hf.
    + simpl. rewrite app_nil_r.
      rewrite filter_id_notin; [reflexivity|].
      apply index_of_char_None. exact E.
Qed.

(** Replacing one character by nothing removes each of its occurrences. *)
Lemma replace_char_nil (c : ascii) (s : str) :
  replace [c] [] s = filter (fun x => negb (is_char c x)) s.
Proof.
  unfold replace, split. rewrite join_nil.
  apply concat_split_char. lia.
Qed.

Lemma filter_filter {A : Type} (f g : A -> bool) (l : list A) :
  filter f (filter g l) = filter (fun x => g x && f x) l.
Proof.
  induction l as [|a l IH]; simpl; [reflexivity|].
  destruct (g a); simpl; [destruct (f a)|]; rewrite IH; reflexivity.
Qed.

(** *** [dropwhile] and [strip] *)

Lemma dropwhile_head_kept (p : ascii -> bool) (s : str) :
  head_kept p (dropwhile p s).
Proof.
  induction s as [|c s IH]; simpl; [exact I|].
  destruct (p c) eqn:E; [exact IH | simpl; exact E].
Qed.

Lemma dropwhile_fixed (p : ascii -> bool) (s : str) :
  head_kept p s -> dropwhile p s = s.
Proof.
  destruct s as [|c s]; simpl; [reflexivity|].
  intros ->. reflexivity.
Qed.

Lemma dropwhile_suffix (p : ascii -> bool) (s : str) :
  exists w, s = w ++ dropwhile p s /\ forallb p w = true.
Proof.
  induction s as [|c s (w & H1 & H2)]; simpl.
  - exists []. split; reflexivity.
  - destruct (p c) eqn:E.
    + exists (c :: w). simpl. rewrite E, H2. split; [congruence|reflexivity].
    + exists []. split; reflexivity.
Qed.

Lemma head_kept_prefix (p : ascii -> bool) (a b : str) :
  head_kept p (a ++ b) -> head_kept p a.
Proof. destruct a; simpl; auto. Qed.

Lemma strip_with_head_kept (p : ascii -> bool) (s : str) :
  head_kept p (strip_with p s) /\ head_kept p (rev (strip_with p s)).
Proof.
  unfold strip_with. rewrite rev_involutive.
  split; [|apply dropwhile_head_kept].
  destruct (dropwhile_suffix p (rev (dropwhile p s))) as (w & H & _).
  apply (f_equal (@rev ascii)) in H.
  rewrite rev_involutive, rev_app_distr in H.
  apply head_kept_prefix with (b := rev w). rewrite <- H.
  apply dropwhile_head_kept.
Qed.

Lemma strip_with_fixed (p : ascii -> bool) (s : str) :
  head_kept p s -> head_kept p (rev s) -> strip_with p s = s.
Proof.
  intros H1 H2. unfold strip_with.
  rewrite (dropwhile_fixed p s H1), (dropwhile_fixed p (rev s) H2).
  apply rev_involutive.
Qed.

Lemma strip_with_idem (p : ascii -> bool) (s : str) :
  strip_with p (strip_with p s) = strip_with p s.
Proof.
  destruct (strip_with_head_kept p s). apply strip_with_fixed; assumption.
Qed.

Lemma strip_idem (s : str) : strip (strip s) = strip s.
Proof. apply strip_with_idem. Qed.

(** *** [split] on whitespace *)

Lemma isspace_lower_char (c : ascii) : isspace (lower_char c) = isspace c.
Proof.
  destruct c as [[] [] [] [] [] [] [] []]; vm_compute; reflexivity.
Qed.

Lemma split_ws_go_nonempty (cur s : str) :
  Forall (fun t => t <> []) (split_ws_go cur s).
Proof.
  assert (Hrev : forall (a : ascii) l, rev (a :: l) <> []).
  { intros a l H. apply (f_equal (@length ascii)) in H.
    rewrite length_rev in H. discriminate. }
  revert cur. induction s as [|c s IH]; intros cur; simpl.
  - destruct cur; constructor; [apply Hrev | constructor].
  - destruct (isspace c); [|apply IH].
    destruct cur; [apply IH|]. constructor; [apply Hrev | apply IH].
Qed.

Lemma split_ws_go_blank (s : str) :
  forallb isspace s = true -> split_ws_go [] s = [].
Proof.
  induction s as [|c s IH]; simpl; [reflexivity|].
  destruct (isspace c); simpl; [exact IH | discriminate].
Qed.

Lemma split_ws_go_cur (cur s : str) :
  cur <> [] -> split_ws_go cur s <> [].
Proof.
  revert cur. induction s as [|c s IH]; intros cur Hc; simpl.
  - destruct cur; [congruence | discriminate].
  - destruct (isspace c).
    + destruct cur; [congruence | discriminate].
    + apply IH. discriminate.
Qed.

Lemma split_ws_go_visible (s : str) :
  existsb (fun c => negb (isspace c)) s = true -> split_ws_go [] s <> [].
Proof.
  induction s as [|c s IH]; simpl; [discriminate|].
  destruct (isspace c); simpl; [exact IH|].
  intros _. apply split_ws_go_cur. discriminate.
Qed.

(** A text of whitespace only has no token. *)
Lemma split_ws_blank (s : str) :
  forallb isspace s = true -> split_ws s = [].
Proof. apply split_ws_go_blank. Qed.

(** A text with a visible character has a first token, and no token is
    empty. *)
Lemma split_ws_visible (s : str) :
  existsb (fun c => negb (isspace c)) s = true ->
  exists t rest, split_ws s = t :: rest /\ t <> [].
Proof.
  intros H. apply split_ws_go_visible in H.
  pose proof (split_ws_go_nonempty [] s) as Hall. unfold split_ws.
  destruct (split_ws_go [] s) as [|t rest]; [congruence|].
  exists t, rest. split; [reflexivity|].
  inversion Hall; assumption.
Qed.

Lemma split_ws_go_token (t cur rest : str) :
  forallb (fun c => negb (isspace c)) t = true ->
  split_ws_go cur (t ++ rest) = split_ws_go (rev t ++ cur) rest.
Proof.
  revert cur. induction t as [|c t IH]; intros cur H; simpl in *.
  - reflexivity.
  - apply andb_true_iff in H. destruct H as [Hc Ht].
    apply negb_true_iff in Hc. rewrite Hc, IH by assumption.
    rewrite <- app_assoc. reflexivity.
Qed.

(** Leading whitespace is skipped. *)
Lemma split_ws_skip (ws s : str) :
  forallb isspace ws = true -> split_ws (ws ++ s) = split_ws s.
Proof.
  unfold split_ws. induction ws as [|c ws IH]; simpl; [reflexivity|].
  destruct (isspace c); simpl; [exact IH | discriminate].
Qed.

(** A run of visible characters followed by a whitespace character is
    the next token. *)
Lemma split_ws_token (t : str) (c : ascii) (rest : str) :
  t <> [] -> forallb (fun c => negb (isspace c)) t = true ->
  isspace c = true ->
  split_ws (t ++ c :: rest) = t :: split_ws rest.
Proof.
  intros Hne Ht Hc. unfold split_ws.
  rewrite split_ws_go_token by assumption. simpl. rewrite Hc.
  rewrite app_nil_r.
  destruct (rev t) eqn:E.
  - apply (f_equal (@rev ascii)) in E. rewrite rev_involutive in E.
    simpl in E. congruence.
  - rewrite <- E, rev_involutive. reflexivity.
Qed.

(** A run of visible characters that ends the text is the last token. *)
Lemma split_ws_last (t : str) :
  t <> [] -> forallb (fun c => negb (isspace c)) t = true ->
  split_ws t = [t].
Proof.
  intros Hne Ht. unfold split_ws.
  rewrite <- (app_nil_r t) at 1.
  rewrite split_ws_go_token by assumption. simpl. rewrite app_nil_r.
  destruct (rev t) eqn:E.
  - apply (f_equal (@rev ascii)) in E. rewrite rev_involutive in E.
    simpl in E. congruence.
  - rewrite <- E, rev_involutive. reflexivity.
Qed.

Lemma join_cons_nonempty (sep x : str) (l : list str) :
  x <> [] -> join sep (x :: l) <> [].
Proof.
  intros Hx. destruct l; simpl; [exact Hx|].
  destruct x; [congruence | discriminate].
Qed.

Lemma filter_ext_eq {A : Type} (f g : A -> bool) (l : list A) :
  (forall x, f x = g x) -> filter f l = filter g l.
Proof.
  intros H. induction l as [|a l IH]; simpl; [reflexivity|].
  rewrite H, IH. reflexivity.
Qed.

(** The two [replace] calls of [extract_search_term] remove the question
    marks and the commas. *)
Lemma strip_punctuation (s : str) :
  replace (py ",") [] (replace (py "?") [] s)
  = filter (fun c => negb (Spec.is_punctuation c)) s.
Proof.
  change (py ",") with [","%char]. change (py "?") with ["?"%char].
  rewrite !replace_char_nil, filter_filter.
  apply filter_ext_eq. intros x. unfold Spec.is_punctuation, is_char.
  destruct (ascii_dec x "?"), (ascii_dec x ","); reflexivity.
Qed.

(** ** The query term extractor *)

(** C3.  [extract_search_term] computes what section 4.6 describes: the
    question is lowercased, its question marks and commas are removed, it
    is split on whitespace, the stopwords and the tokens of fewer than
    three characters are dropped, and the first three tokens left are
    joined by single spaces; when none is left the result is the first
    token of the question as it was given (and there is no result when
    the question has no token).  On "How does authentication work in
    this repo?" the result is "authentication". *)
Theorem extract_search_term_spec :
  (forall question,
      Github.extract_search_term question = Spec.extractSearchTerm question)
  /\ Github.extract_search_term
       (py "How does authentication work in this repo?")
     = Some (py "authentication").
Proof.
  split; [|vm_compute; reflexivity].
  intros question.
  unfold Github.extract_search_term, Spec.extractSearchTerm.
  rewrite strip_punctuation.
  set (tokens := split_ws _).
  rewrite (filter_ext_eq _ Spec.survives).
  - destruct (filter Spec.survives tokens); reflexivity.
  - intros t. unfold Spec.survives. f_equal.
    destruct (length t) as [|[|[|n]]]; reflexivity.
Qed.

(** C9.  A question with a character that is not whitespace has a search
    term, and the term is not empty; a question that is empty or made of
    whitespace has none: [question.split()[0]] raises. *)
Theorem extract_search_term_defined (question : str) :
  (existsb (fun c => negb (isspace c)) question = true ->
   exists term,
     Github.extract_search_term question = Some term /\ term <> [])
  /\ (forallb isspace question = true ->
      Github.extract_search_term question = None).
Proof.
  unfold Github.extract_search_term. rewrite strip_punctuation. split.
  - intros Hvis.
    set (words := split_ws (filter _ _)).
    set (keep := fun w : str => negb (mem w Github.stopwords) && _).
    destruct (filter keep words) as [|k ks] eqn:E.
    + destruct (split_ws_visible question Hvis) as (t & rest & -> & Ht).
      exists t. split; [reflexivity | exact Ht].
    + eexists. split; [reflexivity|]. simpl firstn.
      apply join_cons_nonempty.
      assert (Hin : In k (filter keep words)) by (rewrite E; left; reflexivity).
      apply filter_In in Hin. destruct Hin as [_ Hk]. unfold keep in Hk.
      apply andb_true_iff in Hk. destruct Hk as [_ Hk].
      apply Nat.ltb_lt in Hk. destruct k; [simpl in Hk; lia | discriminate].
  - intros Hblank. rewrite split_ws_blank.
    + simpl. rewrite (split_ws_blank question Hblank). reflexivity.
    + apply forallb_forall. intros c Hc. apply filter_In in Hc.
      destruct Hc as [Hc _]. unfold lower in Hc. apply in_map_iff in Hc.
      destruct Hc as (c0 & <- & Hc0). rewrite isspace_lower_char.
      rewrite forallb_forall in Hblank. apply Hblank. exact Hc0.
Qed.

Lemma extract_search_term_defined_witness :
  (exists term,
      Github.extract_search_term (py "Where is the parser?") = Some term
      /\ term <> [])
  /\ Github.extract_search_term (py "  ") = None.
Proof.
  split.
  - apply (extract_search_term_defined (py "Where is the parser?")).
    reflexivity.
  - apply (extract_search_term_defined (py "  ")). reflexivity.
Defined.

(** ** The manifest parser: requirements.txt *)

Lemma split_once_cut (sep line : str) :
  contains sep line = true ->
  exists pre post,
    split_max 1 sep line = [pre; post] /\ Spec.first_cut sep line pre post.
Proof.
  unfold contains. destruct (index_of sep line) as [i|] eqn:E;
    [intros _ | discriminate].
  simpl. rewrite E. apply index_of_Some in E. destruct E as [H1 H2].
  exists (firstn i line), (skipn (i + length sep) line).
  split; [reflexivity|]. split; [exact H1|].
  intros pre' post' H. apply H2 in H.
  rewrite length_firstn. lia.
Qed.

Lemma declares_eq (line : str) :
  negb (length line =? 0) && negb (startswith (py "#") line)
  && negb (startswith (py "-") line)
  = Spec.declares line.
Proof.
  destruct line as [|c t]; [reflexivity|]. simpl.
  destruct (ascii_dec "#" c), (ascii_dec c "#"); try congruence;
    destruct (ascii_dec "-" c), (ascii_dec c "-"); try congruence;
    try reflexivity.
Qed.

Lemma requirements_body_spec (packages : list Packages.package) (raw : str) :
  exists refs,
    Packages.requirements_body packages raw = Some (packages ++ refs)
    /\ ((Spec.declares (strip raw) = false /\ refs = [])
        \/ (Spec.declares (strip raw) = true
            /\ exists ref, refs = [ref]
                           /\ Spec.declared_by (strip raw) ref)).
Proof.
  unfold Packages.requirements_body. rewrite declares_eq.
  destruct (Spec.declares (strip raw)) eqn:Ed.
  2:{ exists []. rewrite app_nil_r. split; [reflexivity|]. left. auto. }
  destruct (contains (py "==") (strip raw)) eqn:E1.
  - destruct (split_once_cut _ _ E1) as (pre & post & -> & Hcut).
    eexists. split; [reflexivity|]. right. split; [reflexivity|].
    eexists. split; [reflexivity|].
    apply contains_iff in E1. repeat split.
    + intros _. exists pre, post. split; [exact Hcut | reflexivity].
    + intros Hn. contradiction.
    + intros Hn. contradiction.
  - assert (N1 : ~ Spec.occurs (py "==") (strip raw)).
    { intros H. apply contains_iff in H. congruence. }
    destruct (contains (py ">=") (strip raw)) eqn:E2.
    + destruct (split_once_cut _ _ E2) as (pre & post & -> & Hcut).
      eexists. split; [reflexivity|]. right. split; [reflexivity|].
      eexists. split; [reflexivity|].
      apply contains_iff in E2. repeat split.
      * intros H. contradiction.
      * intros _ _. exists pre, post. split; [exact Hcut | reflexivity].
      * intros _ Hn. contradiction.
    + assert (N2 : ~ Spec.occurs (py ">=") (strip raw)).
      { intros H. apply contains_iff in H. congruence. }
      eexists. split; [reflexivity|]. right. split; [reflexivity|].
      eexists. split; [reflexivity|]. repeat split.
      * intros H. contradiction.
      * intros _ H. contradiction.
      * intros _ _. rewrite strip_idem. reflexivity.
Qed.

Lemma requirements_loop_spec (lines : list str)
    (packages : list Packages.package) :
  exists refs,
    Packages.try_loop Packages.requirements_body lines packages
    = packages ++ refs
    /\ Forall2 Spec.declared_by
         (filter Spec.declares (map strip lines)) refs.
Proof.
  revert packages. induction lines as [|raw lines IH]; intros packages.
  - exists []. rewrite app_nil_r. split; [reflexivity | constructor].
  - simpl.
    destruct (requirements_body_spec packages raw) as (r & -> & Hr).
    destruct (IH (packages ++ r)) as (refs & -> & Hrefs).
    exists (r ++ refs). rewrite app_assoc. split; [reflexivity|].
    destruct Hr as [[-> ->] | (-> & ref & -> & Href)]; simpl.
    + exact Hrefs.
    + constructor; assumption.
Qed.

(** C2.  On a requirements.txt the parser gives one reference for each
    line that, once stripped, is not blank, not a comment and not an
    option, in the order of the lines.  The constraint of a reference
    starts with the operator of its line, [==] or [>=], and the line is
    cut at the first occurrence of that operator; the constraint is empty
    and the name is the whole stripped line when the line has neither.
    ([==] is the operator of a line that has both.) *)
Theorem requirements_refs (w : world) (content : str) :
  Forall2 Spec.declared_by
    (filter Spec.declares (map strip (split newline content)))
    (Packages._extract_packages w (py "requirements.txt") content).
Proof.
  unfold Packages._extract_packages.
  replace (str_eqb (py "requirements.txt") (py "package.json")) with false
    by (vm_compute; reflexivity).
  rewrite str_eqb_refl.
  destruct (requirements_loop_spec (split newline content) [])
    as (refs & -> & H).
  exact H.
Qed.

(** ** The manifest parser: package.json *)

Lemma index_of_char_first (c : ascii) (junk rest : str) :
  ~ In c junk -> index_of [c] (junk ++ c :: rest) = Some (length junk).
Proof.
  induction junk as [|a junk IH]; intros Hn; rewrite index_of_eq.
  - simpl. destruct (ascii_dec c c); [reflexivity | congruence].
  - simpl. destruct (ascii_dec c a) as [->|Hne].
    + exfalso. apply Hn. left. reflexivity.
    + rewrite IH; [reflexivity|]. intros H. apply Hn. right. exact H.
Qed.

Lemma index_of_char_absent (c : ascii) (s : str) :
  ~ In c s -> index_of [c] s = None.
Proof.
  intros Hn. destruct (index_of [c] s) as [i|] eqn:E; [|reflexivity].
  apply index_of_char_Some in E. destruct E as (H & _ & _).
  exfalso. apply Hn. rewrite H. apply in_or_app. right. left. reflexivity.
Qed.

Lemma section_items_of (data : list (str * json)) (section : str)
    (items : list (str * json)) :
  Spec.mapping_of data section items ->
  Packages.section_items data section = Some items.
Proof.
  unfold Packages.section_items.
  intros [-> | [-> ->]]; reflexivity.
Qed.

(** C6.  On a package.json whose object has N entries under
    [dependencies] and M under [devDependencies] the parser gives N+M
    references: those of [dependencies] in their order, then those of
    [devDependencies] in theirs.  The object is read from the first
    brace on, whatever comes before it, and a content without a brace
    gives no reference. *)
Theorem package_json_refs (w : world) :
  (forall junk rest data deps devs,
      ~ In "{"%char junk ->
      json_loads w ("{"%char :: rest) = Some (JObj data) ->
      Spec.mapping_of data (py "dependencies") deps ->
      Spec.mapping_of data (py "devDependencies") devs ->
      Packages._extract_packages w (py "package.json")
        (junk ++ "{"%char :: rest) = deps ++ devs
      /\ length (Packages._extract_packages w (py "package.json")
                   (junk ++ "{"%char :: rest))
         = length deps + length devs)
  /\ (forall content,
         ~ In "{"%char content ->
         Packages._extract_packages w (py "package.json") content = []).
Proof.
  split.
  - intros junk rest data deps devs Hjunk Hload Hdeps Hdevs.
    assert (E : Packages._extract_packages w (py "package.json")
                  (junk ++ "{"%char :: rest) = deps ++ devs).
    { unfold Packages._extract_packages. rewrite str_eqb_refl.
      unfold find. change (py "{") with ["{"%char].
      rewrite (index_of_char_first _ _ _ Hjunk).
      destruct (Z.eqb_spec (Z.of_nat (length junk)) (-1)) as [Hneg|_];
        [lia|].
      rewrite Nat2Z.id, skipn_app, Nat.sub_diag, skipn_all. simpl app.
      simpl skipn. rewrite Hload.
      cbn [Packages.try_loop]. unfold Packages.package_json_body.
      rewrite (section_items_of _ _ _ Hdeps). cbn [app].
      rewrite (section_items_of _ _ _ Hdevs). reflexivity. }
    split; [exact E|]. rewrite E. apply length_app.
  - intros content Hn. unfold Packages._extract_packages.
    rewrite str_eqb_refl. unfold find. change (py "{") with ["{"%char].
    rewrite (index_of_char_absent _ _ Hn). reflexivity.
Qed.

Lemma package_json_refs_witness :
  Packages._extract_packages Sample.w (py "package.json") Sample.package_json
  = [(py "express", JStr (py "^4.18.2")); (py "left-pad", JStr (py "1.3.0"))]
    ++ [(py "jest", JStr (py ">=29"))]
  /\ Packages._extract_packages Sample.w (py "package.json")
       (py "no manifest here") = [].
Proof.
  split.
  - apply (proj1 (package_json_refs Sample.w)
             (py "// manifest" ++ newline)
             (tl Sample.package_json_text) Sample.package_json_object).
    + vm_compute. intuition discriminate.
    + reflexivity.
    + left. reflexivity.
    + left. reflexivity.
  - apply (proj2 (package_json_refs Sample.w)).
    vm_compute. intuition discriminate.
Defined.

(** ** Months since a release *)

Lemma timedelta_days_bounds (us : Z) :
  (Calendar.timedelta_days us * 86400000000 <= us
   < (Calendar.timedelta_days us + 1) * 86400000000)%Z.
Proof.
  unfold Calendar.timedelta_days, Calendar.us_per_day.
  change (86400 * 1000000)%Z with 86400000000%Z.
  pose proof (Z.div_mod us 86400000000 ltac:(lia)).
  pose proof (Z.mod_pos_bound us 86400000000 ltac:(lia)).
  lia.
Qed.

Lemma months_monotone (a b : Z) :
  (a <= b)%Z ->
  (Calendar.int_div30 (Calendar.timedelta_days a)
   <= Calendar.int_div30 (Calendar.timedelta_days b))%Z.
Proof.
  intros H. unfold Calendar.int_div30, Calendar.timedelta_days.
  apply Z.quot_le_mono; [lia|].
  apply Z.div_le_mono; [reflexivity | exact H].
Qed.

Lemma months_since_aware_eq (w : world) (s : str) (dt : datetime) (off : Z) :
  s <> [] ->
  fromisoformat w (replace (py "Z") (py "+00:00") s) = Some dt ->
  tzinfo dt = Some off ->
  Packages._months_since w s
  = Some (Calendar.int_div30
            (Calendar.timedelta_days (now w - Calendar.utc_us dt off))).
Proof.
  intros Hs Hp Ht. unfold Packages._months_since.
  destruct s; [congruence|]. rewrite Hp, Ht. reflexivity.
Qed.

(** C7, as the code has it.  [_months_since] gives no value for the
    empty text, for a text the parser rejects, and for a text the parser
    reads as a datetime without an offset.  For a text read as a datetime
    with an offset it gives the number of whole days from that instant
    to now, divided by 30 and truncated toward zero.  Among such texts
    it is monotone: the earlier instant has at least as many months. *)
Theorem months_since_aware (w : world) :
  Packages._months_since w [] = None
  /\ (forall s,
         fromisoformat w (replace (py "Z") (py "+00:00") s) = None ->
         Packages._months_since w s = None)
  /\ (forall s dt,
         fromisoformat w (replace (py "Z") (py "+00:00") s) = Some dt ->
         tzinfo dt = None ->
         Packages._months_since w s = None)
  /\ (forall s dt off,
         s <> [] ->
         fromisoformat w (replace (py "Z") (py "+00:00") s) = Some dt ->
         tzinfo dt = Some off ->
         exists days : Z,
           (days * 86400000000 <= now w - (Calendar.wall_us dt - off)
            < (days + 1) * 86400000000)%Z
           /\ Packages._months_since w s = Some (Z.quot days 30))
  /\ (forall s1 s2 dt1 dt2 off1 off2,
         s1 <> [] -> s2 <> [] ->
         fromisoformat w (replace (py "Z") (py "+00:00") s1) = Some dt1 ->
         fromisoformat w (replace (py "Z") (py "+00:00") s2) = Some dt2 ->
         tzinfo dt1 = Some off1 -> tzinfo dt2 = Some off2 ->
         (Calendar.wall_us dt1 - off1 <= Calendar.wall_us dt2 - off2)%Z ->
         exists m1 m2 : Z,
           Packages._months_since w s1 = Some m1
           /\ Packages._months_since w s2 = Some m2
           /\ (m2 <= m1)%Z).
Proof.
  repeat split.
  - intros s Hp. unfold Packages._months_since.
    destruct s; [reflexivity|]. rewrite Hp. reflexivity.
  - intros s dt Hp Ht. unfold Packages._months_since.
    destruct s; [reflexivity|]. rewrite Hp, Ht. reflexivity.
  - intros s dt off Hs Hp Ht.
    exists (Calendar.timedelta_days (now w - Calendar.utc_us dt off)).
    split.
    + apply timedelta_days_bounds.
    + apply months_since_aware_eq; assumption.
  - intros s1 s2 dt1 dt2 off1 off2 Hs1 Hs2 Hp1 Hp2 Ht1 Ht2 Hle.
    do 2 eexists.
    rewrite (months_since_aware_eq w s1 dt1 off1) by assumption.
    rewrite (months_since_aware_eq w s2 dt2 off2) by assumption.
    split; [reflexivity|]. split; [reflexivity|].
    apply months_monotone. unfold Calendar.utc_us. lia.
Qed.

Lemma months_since_aware_witness :
  (exists days : Z,
      (days * 86400000000
       <= now Sample.w
          - (Calendar.wall_us
               {| year := 2023; month := 6; day := 1; hour := 0;
                  minute := 0; second := 0; microsecond := 0;
                  tzinfo := Some 0%Z |} - 0)
       < (days + 1) * 86400000000)%Z
      /\ Packages._months_since Sample.w (py "2023-06-01T00:00:00.000Z")
         = Some (Z.quot days 30))
  /\ (exists m1 m2 : Z,
         Packages._months_since Sample.w (py "2023-06-01T00:00:00.000Z")
         = Some m1
         /\ Packages._months_since Sample.w (py "2024-11-20T08:00:00+00:00")
            = Some m2
         /\ (m2 <= m1)%Z).
Proof.
  split.
  - apply (proj1 (proj2 (proj2 (proj2 (months_since_aware Sample.w))))
             (py "2023-06-01T00:00:00.000Z")).
    + discriminate.
    + vm_compute. reflexivity.
    + reflexivity.
  - apply (proj2 (proj2 (proj2 (proj2 (months_since_aware Sample.w))))
             (py "2023-06-01T00:00:00.000Z")
             (py "2024-11-20T08:00:00+00:00")
             {| year := 2023; month := 6; day := 1; hour := 0;
                minute := 0; second := 0; microsecond := 0;
                tzinfo := Some 0%Z |}
             {| year := 2024; month := 11; day := 20; hour := 8;
                minute := 0; second := 0; microsecond := 0;
                tzinfo := Some 0%Z |} 0%Z 0%Z).
    + discriminate.
    + discriminate.
    + vm_compute. reflexivity.
    + vm_compute. reflexivity.
    + reflexivity.
    + reflexivity.
    + vm_compute. discriminate.
Defined.

(** C7 as the specification states it fails on a timestamp without an
    offset: the text is read, as the datetime below, and
    [_months_since] has no value for it. *)
Lemma months_since_naive_counterexample :
  fromisoformat Sample.w
    (replace (py "Z") (py "+00:00") (py "2024-01-15T10:30:00"))
  = Some {| year := 2024; month := 1; day := 15; hour := 10;
            minute := 30; second := 0; microsecond := 0;
            tzinfo := None |}
  /\ Packages._months_since Sample.w (py "2024-01-15T10:30:00") = None.
Proof. split; vm_compute; reflexivity. Qed.

(** ** The dependency health checker *)

Lemma classify_iff (deprecated : bool) (months : option Z) (contributors : Z) :
  Spec.classify true deprecated months contributors = Spec.risky
  <-> (deprecated = true
       \/ (exists m, months = Some m /\ (12 < m)%Z)
       \/ (contributors < 2)%Z).
Proof.
  unfold Spec.classify. simpl negb. cbv iota.
  destruct deprecated; simpl.
  - split; [auto | reflexivity].
  - destruct months as [m|].
    + destruct (Z.ltb_spec 12 m); simpl.
      * split; [eauto | reflexivity].
      * destruct (Z.ltb_spec contributors 2).
        -- split; [auto | reflexivity].
        -- split; [discriminate|].
           intros [H1 | [(k & [= <-] & Hk) | H3]]; [discriminate | lia | lia].
    + simpl. destruct (Z.ltb_spec contributors 2).
      * split; [auto | reflexivity].
      * split; [discriminate|].
        intros [H1 | [(k & Hk & _) | H3]]; [discriminate.. | lia].
Qed.

Lemma issues_of_classify (w : world) (data : package_data) :
  (Packages.issues_of w data <> []
   /\ Spec.classify true (default false (pd_deprecated data))
        (Packages._months_since w
           (default [] (pd_latest_release_published_at data)))
        (default 0%Z (pd_contributions_count data)) = Spec.risky)
  \/ (Packages.issues_of w data = []
      /\ Spec.classify true (default false (pd_deprecated data))
           (Packages._months_since w
              (default [] (pd_latest_release_published_at data)))
           (default 0%Z (pd_contributions_count data)) = Spec.healthy).
Proof.
  unfold Packages.issues_of, Spec.classify.
  destruct (default false (pd_deprecated data));
    destruct (Packages._months_since w _) as [m|];
    try destruct (12 <? m)%Z;
    destruct (default 0 (pd_contributions_count data) <? 2)%Z;
    simpl; solve [left; split; [discriminate | reflexivity]
                 | right; split; reflexivity].
Qed.

(** C1.  A package whose record was fetched is written among the risky
    entries exactly when the rule of section 3 makes it risky, and among
    the healthy ones otherwise; the rule makes a record risky if and only
    if it is deprecated, or its months since the last release are known
    and more than 12, or it has fewer than 2 contributors.  So a
    deprecated package is risky whatever its other fields, one
    contributor is enough to be risky, and five contributors with six
    months and no deprecation is healthy. *)
Theorem fetched_package_status (w : world) (all_results risky healthy : list str)
    (pkg_name : str) (version : json) (data : package_data) :
  let deprecated := default false (pd_deprecated data) in
  let months :=
    Packages._months_since w
      (default [] (pd_latest_release_published_at data)) in
  let contributors := default 0%Z (pd_contributions_count data) in
  (exists line,
      (Spec.classify true deprecated months contributors = Spec.risky
       /\ Spec.is_risky_line line = true
       /\ Packages.classify_body w (all_results, risky, healthy)
            (pkg_name, version, ApiDict data)
          = Some (all_results, risky ++ [line], healthy))
      \/ (Spec.classify true deprecated months contributors = Spec.healthy
          /\ Spec.is_healthy_line line = true
          /\ Packages.classify_body w (all_results, risky, healthy)
               (pkg_name, version, ApiDict data)
             = Some (all_results, risky, healthy ++ [line])))
  /\ (Spec.classify true deprecated months contributors = Spec.risky
      <-> (deprecated = true
           \/ (exists m, months = Some m /\ (12 < m)%Z)
           \/ (contributors < 2)%Z))
  /\ (forall m c, Spec.classify true true m c = Spec.risky)
  /\ Spec.classify true false (Some 3%Z) 1 = Spec.risky
  /\ Spec.classify true false (Some 6%Z) 5 = Spec.healthy.
Proof.
  intros deprecated months contributors.
  split; [|split; [apply classify_iff | repeat split]].
  unfold Packages.classify_body.
  destruct (issues_of_classify w data) as [[Hi Hc] | [Hi Hc]].
  - destruct (Packages.issues_of w data) as [|i0 issues] eqn:E;
      [congruence|].
    eexists. left. split; [exact Hc|]. split; [|reflexivity].
    apply startswith_app.
  - rewrite Hi. eexists. right. split; [exact Hc|].
    split; [|reflexivity]. apply startswith_app.
Qed.

Lemma fetched_package_status_witness :
  default false (pd_deprecated Sample.left_pad) = true
  \/ (exists m,
         Packages._months_since Sample.w
           (default [] (pd_latest_release_published_at Sample.left_pad))
         = Some m /\ (12 < m)%Z)
  \/ (default 0%Z (pd_contributions_count Sample.left_pad) < 2)%Z.
Proof.
  apply (proj1 (proj1 (proj2 (fetched_package_status Sample.w [] [] []
                                (py "left-pad") (JStr (py "1.3.0"))
                                Sample.left_pad)))).
  vm_compute. reflexivity.
Defined.

Example fetched_package_sample :
  Packages.classify_body Sample.w ([], [], [])
    (py "left-pad", JStr (py "1.3.0"), ApiDict Sample.left_pad)
  = Some ([],
          [py "  [!] left-pad 1.3.0 — DEPRECATED, no release in 82mo, "
           ++ py "< 2 contributors"],
          [])
  /\ Packages.classify_body Sample.w ([], [], [])
       (py "express", JStr (py "^4.18.2"), ApiDict Sample.express)
     = Some ([], [], [py "  [ok] express ^4.18.2"]).
Proof. split; vm_compute; reflexivity. Qed.

Lemma classify_body_step (w : world) (all_results risky healthy : list str)
    (r : str * json * api_result) (st : Packages.report_state) :
  Packages.classify_body w (all_results, risky, healthy) r = Some st ->
  exists line,
    Spec.entry_of w r line
    /\ ((st = (all_results ++ [line], risky, healthy)
         /\ Spec.is_unknown_line line = true)
        \/ (st = (all_results, risky ++ [line], healthy)
            /\ Spec.is_risky_line line = true)
        \/ (st = (all_results, risky, healthy ++ [line])
            /\ Spec.is_healthy_line line = true)).
Proof.
  destruct r as [[pkg_name version] data].
  unfold Spec.entry_of, Packages.classify_body.
  destruct data as [msg | d | l]; [| |discriminate].
  - intros [= <-]. eexists. split; [left; reflexivity|].
    left. split; [reflexivity | apply startswith_app].
  - destruct (Packages.issues_of w d) as [|i0 issues]; intros [= <-].
    + eexists. split; [right; right; reflexivity|].
      right; right. split; [reflexivity | apply startswith_app].
    + eexists. split; [right; left; reflexivity|].
      right; left. split; [reflexivity | apply startswith_app].
Qed.

Lemma classify_body_total (w : world) (st : Packages.report_state)
    (r : str * json * api_result) :
  ~ Spec.answered_by_list r -> exists st', Packages.classify_body w st r = Some st'.
Proof.
  destruct st as [[all_results risky] healthy].
  destruct r as [[pkg_name version] data]. unfold Spec.answered_by_list.
  simpl. intros H. destruct data as [msg | d | l].
  - eexists. reflexivity.
  - destruct (Packages.issues_of w d); eexists; reflexivity.
  - exfalso. apply H. eexists. reflexivity.
Qed.

Lemma classify_loop_total (w : world)
    (fetched : list (str * json * api_result)) (st : Packages.report_state) :
  Forall (fun r => ~ Spec.answered_by_list r) fetched ->
  exists st',
    Packages.raising_loop (Packages.classify_body w) fetched st = Some st'.
Proof.
  revert st. induction fetched as [|r fetched IH]; intros st H;
    cbn [Packages.raising_loop].
  - eexists. reflexivity.
  - inversion H as [|? ? Hr Hrest]; subst.
    destruct (classify_body_total w st r Hr) as [st' ->].
    apply IH. exact Hrest.
Qed.

Lemma classify_loop_spec (w : world)
    (fetched : list (str * json * api_result))
    (all_results risky healthy : list str) (st : Packages.report_state) :
  Packages.raising_loop (Packages.classify_body w) fetched
    (all_results, risky, healthy) = Some st ->
  exists qs rs hs,
    st = (all_results ++ qs, risky ++ rs, healthy ++ hs)
    /\ Forall (fun l => Spec.is_unknown_line l = true) qs
    /\ Forall (fun l => Spec.is_risky_line l = true) rs
    /\ Forall (fun l => Spec.is_healthy_line l = true) hs
    /\ length qs + length rs + length hs = length fetched
    /\ Forall (fun l => exists r, In r fetched /\ Spec.entry_of w r l)
         (qs ++ rs ++ hs).
Proof.
  revert all_results risky healthy.
  induction fetched as [|r fetched IH]; intros all_results risky healthy;
    cbn [Packages.raising_loop].
  - intros [= <-]. exists [], [], []. rewrite !app_nil_r.
    repeat split; constructor.
  - destruct (Packages.classify_body w (all_results, risky, healthy) r)
      as [st1|] eqn:E; [|intros; discriminate].
    apply classify_body_step in E. destruct E as (line & Hentry & Hst).
    assert (Hw : forall ls,
               Forall (fun l => exists r0, In r0 fetched
                                           /\ Spec.entry_of w r0 l) ls ->
               Forall (fun l => exists r0, In r0 (r :: fetched)
                                           /\ Spec.entry_of w r0 l) ls).
    { intros ls. apply Forall_impl. intros l (r0 & Hin & He).
      exists r0. split; [right; exact Hin | exact He]. }
    assert (Hl : exists r0, In r0 (r :: fetched) /\ Spec.entry_of w r0 line).
    { exists r. split; [left; reflexivity | exact Hentry]. }
    destruct Hst as [[-> Hk] | [[-> Hk] | [-> Hk]]]; intros Hloop;
      apply IH in Hloop;
      destruct Hloop as (qs & rs & hs & -> & Hq & Hr & Hh & Hlen & Hall);
      apply Hw in Hall; apply Forall_app in Hall;
      destruct Hall as [Hall1 Hall2]; apply Forall_app in Hall2;
      destruct Hall2 as [Hall2 Hall3].
    + exists (line :: qs), rs, hs. rewrite <- app_assoc.
      repeat split; try assumption; try (constructor; assumption).
      * simpl. lia.
      * simpl. constructor; [exact Hl|].
        apply Forall_app. split; [assumption|].
        apply Forall_app. split; assumption.
    + exists qs, (line :: rs), hs. rewrite <- app_assoc.
      repeat split; try assumption; try (constructor; assumption).
      * simpl. lia.
      * apply Forall_app. split; [assumption|]. simpl.
        constructor; [exact Hl|]. apply Forall_app. split; assumption.
    + exists qs, rs, (line :: hs). rewrite <- app_assoc.
      repeat split; try assumption; try (constructor; assumption).
      * simpl. lia.
      * apply Forall_app. split; [assumption|].
        apply Forall_app. split; [assumption|].
        constructor; assumption.
Qed.

(** In a list made of a part without healthy lines and a part without
    risky lines, a risky line comes before a healthy one. *)
Lemma risky_before_healthy (front back : list str) (i j : nat) (a b : str) :
  Forall (fun l => Spec.is_healthy_line l = false) front ->
  Forall (fun l => Spec.is_risky_line l = false) back ->
  nth_error (front ++ back) i = Some a ->
  nth_error (front ++ back) j = Some b ->
  Spec.is_risky_line a = true -> Spec.is_healthy_line b = true ->
  i < j.
Proof.
  intros Hf Hb Ha Hbj Hra Hhb.
  rewrite Forall_forall in Hf, Hb.
  assert (Hi : i < length front).
  { destruct (Nat.lt_ge_cases i (length front)) as [|Hge]; [assumption|].
    rewrite nth_error_app2 in Ha by assumption.
    apply nth_error_In, Hb in Ha. congruence. }
  assert (Hj : length front <= j).
  { destruct (Nat.lt_ge_cases j (length front)) as [Hlt|]; [|assumption].
    rewrite nth_error_app1 in Hbj by assumption.
    apply nth_error_In, Hf in Hbj. congruence. }
  lia.
Qed.

Lemma unknown_line_kind (l : str) :
  Spec.is_unknown_line l = true ->
  Spec.is_risky_line l = false /\ Spec.is_healthy_line l = false.
Proof.
  unfold Spec.is_unknown_line. intros H. apply startswith_iff in H.
  destruct H as [t ->]. split; reflexivity.
Qed.

Lemma risky_line_kind (l : str) :
  Spec.is_risky_line l = true -> Spec.is_healthy_line l = false.
Proof.
  unfold Spec.is_risky_line. intros H. apply startswith_iff in H.
  destruct H as [t ->]. reflexivity.
Qed.

Lemma healthy_line_kind (l : str) :
  Spec.is_healthy_line l = true -> Spec.is_risky_line l = false.
Proof.
  unfold Spec.is_healthy_line. intros H. apply startswith_iff in H.
  destruct H as [t ->]. reflexivity.
Qed.

Lemma extract_packages_registry (w : world)
    (registry : str -> list (str * str) -> api_result)
    (filename content : str) :
  Packages._extract_packages (with_registry w registry) filename content
  = Packages._extract_packages w filename content.
Proof. reflexivity. Qed.

Lemma classify_body_registry (w : world)
    (registry : str -> list (str * str) -> api_result)
    (st : Packages.report_state) (r : str * json * api_result) :
  Packages.classify_body (with_registry w registry) st r
  = Packages.classify_body w st r.
Proof. reflexivity. Qed.

Lemma raising_loop_ext {S A : Type} (f g : S -> A -> option S)
    (l : list A) (st : S) :
  (forall s x, f s x = g s x) ->
  Packages.raising_loop f l st = Packages.raising_loop g l st.
Proof.
  intros H. revert st. induction l as [|x l IH]; intros st; simpl.
  - reflexivity.
  - rewrite H. destruct (g st x); [apply IH | reflexivity].
Qed.

(** The loop body asks the registry about the first 20 packages only. *)
Lemma manifest_body_registry (w : world)
    (registry : str -> list (str * str) -> api_result)
    (all_results : list str) (filename content : str) :
  (forall pkg,
      In pkg (firstn 20 (Packages._extract_packages w filename content)) ->
      registry (default [] (dict_get filename Packages.PACKAGE_FILES)
                ++ py "/" ++ fst pkg) []
      = _api_get w (default [] (dict_get filename Packages.PACKAGE_FILES)
                    ++ py "/" ++ fst pkg) []) ->
  Packages.manifest_body (with_registry w registry) all_results
    (filename, content)
  = Packages.manifest_body w all_results (filename, content).
Proof.
  intros Hsame. unfold Packages.manifest_body.
  rewrite extract_packages_registry.
  destruct (dict_get filename Packages.PACKAGE_FILES) as [[|p0 p]|];
    try reflexivity.
  cbn [default] in Hsame.
  destruct (Packages._extract_packages w filename content)
    as [|pkg packages]; [reflexivity|].
  rewrite (map_ext_in (Packages.fetch_package (with_registry w registry)
                         (p0 :: p))
             (Packages.fetch_package w (p0 :: p))).
  - rewrite (raising_loop_ext _ (Packages.classify_body w));
      [reflexivity | intros; apply classify_body_registry].
  - intros [name version] Hin. unfold Packages.fetch_package.
    f_equal. exact (Hsame _ Hin).
Qed.

(** C8.  For one manifest file, the registry is asked about the first 20
    parsed packages and no other: what the loop body returns is the same
    with any registry that answers alike on those packages.  When none
    of the answers is a list the section is written, and a written
    section has at most one line for each of those packages after its
    header, each line the entry of one of them, with every risky entry
    before every healthy one. *)
Theorem report_section (w : world) (all_results : list str)
    (filename content : str) :
  let platform := default [] (dict_get filename Packages.PACKAGE_FILES) in
  let fetched :=
    map (Packages.fetch_package w platform)
      (firstn 20 (Packages._extract_packages w filename content)) in
  length fetched <= 20
  /\ (forall registry,
         (forall pkg,
             In pkg (firstn 20
                       (Packages._extract_packages w filename content)) ->
             registry (platform ++ py "/" ++ fst pkg) []
             = _api_get w (platform ++ py "/" ++ fst pkg) []) ->
         Packages.manifest_body (with_registry w registry) all_results
           (filename, content)
         = Packages.manifest_body w all_results (filename, content))
  /\ (Forall (fun r => ~ Spec.answered_by_list r) fetched ->
      exists out,
        Packages.manifest_body w all_results (filename, content) = Some out)
  /\ (forall out,
         Packages.manifest_body w all_results (filename, content) = Some out ->
         exists section,
           out = all_results ++ section
           /\ length section <= 1 + length fetched
           /\ (forall line,
                  In line section ->
                  line = newline ++ filename ++ py " (" ++ platform ++ py "):"
                  \/ exists r, In r fetched /\ Spec.entry_of w r line)
           /\ (forall i j a b,
                  nth_error section i = Some a ->
                  nth_error section j = Some b ->
                  Spec.is_risky_line a = true ->
                  Spec.is_healthy_line b = true ->
                  i < j)).
Proof.
  intros platform fetched.
  assert (Hnil : forall out, out = all_results ->
            exists section,
              out = all_results ++ section
              /\ length section <= 1 + length fetched
              /\ (forall line,
                     In line section ->
                     line = newline ++ filename ++ py " (" ++ platform
                            ++ py "):"
                     \/ exists r, In r fetched /\ Spec.entry_of w r line)
              /\ (forall i j a b,
                     nth_error section i = Some a ->
                     nth_error section j = Some b ->
                     Spec.is_risky_line a = true ->
                     Spec.is_healthy_line b = true ->
                     i < j)).
  { intros out ->. exists []. rewrite app_nil_r.
    split; [reflexivity|]. split; [simpl; lia|].
    split; [intros line []|]. intros [|i] j a b; discriminate. }
  split.
  { unfold fetched. rewrite length_map, length_firstn. lia. }
  split.
  { intros registry Hsame. apply manifest_body_registry. exact Hsame. }
  unfold Packages.manifest_body. subst fetched platform.
  destruct (dict_get filename Packages.PACKAGE_FILES) as [[|p0 p]|];
    cbn [default].
  1,3: split; [intros _; eexists; reflexivity|];
       intros out [= <-]; apply Hnil; reflexivity.
  set (platform := p0 :: p) in *.
  destruct (Packages._extract_packages w filename content)
    as [|pkg packages] eqn:Epk.
  { split; [intros _; eexists; reflexivity|].
    intros out [= <-]. apply Hnil. reflexivity. }
  set (fetched := map (Packages.fetch_package w platform)
                    (firstn 20 (pkg :: packages))) in *.
  set (header := newline ++ filename ++ py " (" ++ platform ++ py "):").
  split.
  - intros Hok.
    destruct (classify_loop_total w fetched (all_results ++ [header], [], [])
                Hok) as [[[a r] h] ->].
    eexists. reflexivity.
  - intros out.
    destruct (Packages.raising_loop (Packages.classify_body w) fetched
                (all_results ++ [header], [], [])) as [[[a r] h]|] eqn:E;
      [|discriminate].
    intros [= <-]. apply classify_loop_spec in E.
    destruct E as (qs & rs & hs & [= -> -> ->] & Hq & Hr & Hh & Hlen & Hall).
    exists (header :: qs ++ rs ++ hs). split.
    { rewrite <- !app_assoc. reflexivity. }
    split.
    { cbn [length]. rewrite !length_app. lia. }
    split.
    { intros line [<- | Hin]; [left; reflexivity|]. right.
      rewrite Forall_forall in Hall. apply Hall. exact Hin. }
    intros i j a b Ha Hb Hra Hhb.
    apply (risky_before_healthy (header :: qs ++ rs) hs i j a b);
      try assumption.
    + constructor; [reflexivity|]. apply Forall_app. split.
      * revert Hq. apply Forall_impl. intros l Hl.
        apply unknown_line_kind in Hl. tauto.
      * revert Hr. apply Forall_impl. intros l Hl.
        apply risky_line_kind. exact Hl.
    + revert Hh. apply Forall_impl. intros l Hl.
      apply healthy_line_kind. exact Hl.
    + simpl. rewrite <- app_assoc. exact Ha.
    + simpl. rewrite <- app_assoc. exact Hb.
Qed.

Lemma report_section_witness :
  exists out,
    Packages.manifest_body Sample.w []
      (py "package.json", Sample.package_json) = Some out.
Proof.
  apply (proj1 (proj2 (proj2 (report_section Sample.w []
                                (py "package.json") Sample.package_json)))).
  vm_compute. repeat constructor; intros [l H]; discriminate.
Defined.

(** ** Alternatives to a package *)

Section SortDesc.

Variable A : Type.
Variable key : A -> Z.

#[local] Abbreviation desc := (Spec.desc_by key).

Lemma insert_desc_perm (x : A) (l : list A) :
  Permutation (Packages.insert_desc key x l) (x :: l).
Proof.
  induction l as [|y t IH]; simpl; [apply Permutation_refl|].
  destruct (key x <? key y)%Z; [|apply Permutation_refl].
  apply perm_trans with (y :: x :: t); [|apply perm_swap].
  apply perm_skip. exact IH.
Qed.

Lemma sort_desc_perm (l : list A) : Permutation (Packages.sort_desc key l) l.
Proof.
  induction l as [|x l IH]; simpl; [apply perm_nil|].
  apply perm_trans with (x :: Packages.sort_desc key l).
  - apply insert_desc_perm.
  - apply perm_skip. exact IH.
Qed.

Lemma insert_desc_sorted (x : A) (l : list A) :
  StronglySorted desc l -> StronglySorted desc (Packages.insert_desc key x l).
Proof.
  induction 1 as [|y t Hs IH Hy]; simpl.
  - constructor; constructor.
  - destruct (Z.ltb_spec (key x) (key y)) as [Hlt|Hge].
    + constructor; [exact IH|].
      eapply Permutation_Forall;
        [apply Permutation_sym, insert_desc_perm|].
      constructor; [unfold Spec.desc_by; lia | exact Hy].
    + constructor; [constructor; assumption|].
      constructor; [unfold Spec.desc_by; lia|].
      revert Hy. apply Forall_impl. unfold Spec.desc_by. intros z Hz. lia.
Qed.

Lemma sort_desc_sorted (l : list A) :
  StronglySorted desc (Packages.sort_desc key l).
Proof.
  induction l as [|x l IH]; simpl; [constructor|].
  apply insert_desc_sorted. exact IH.
Qed.

(** The sort is stable: the items of one key keep their order. *)
Lemma insert_desc_stable (k : Z) (x : A) (l : list A) :
  filter (fun y => (key y =? k)%Z) (Packages.insert_desc key x l)
  = filter (fun y => (key y =? k)%Z) (x :: l).
Proof.
  induction l as [|y t IH]; [reflexivity|].
  cbn [Packages.insert_desc].
  destruct (Z.ltb_spec (key x) (key y)) as [Hlt|Hge]; [|reflexivity].
  cbn [filter] in *. rewrite IH.
  destruct (Z.eqb_spec (key x) k), (Z.eqb_spec (key y) k);
    try reflexivity; lia.
Qed.

Lemma sort_desc_stable (k : Z) (l : list A) :
  filter (fun y => (key y =? k)%Z) (Packages.sort_desc key l)
  = filter (fun y => (key y =? k)%Z) l.
Proof.
  induction l as [|x l IH]; [reflexivity|].
  cbn [Packages.sort_desc fold_right].
  fold (Packages.sort_desc key l). rewrite insert_desc_stable.
  cbn [filter]. rewrite IH. reflexivity.
Qed.

Lemma strongly_sorted_app (l1 l2 : list A) :
  StronglySorted desc (l1 ++ l2) ->
  StronglySorted desc l1
  /\ Forall (fun b => Forall (fun a => desc a b) l1) l2.
Proof.
  induction l1 as [|x l1 IH]; simpl; intros H.
  - split; [constructor|]. apply Forall_forall. intros; constructor.
  - inversion H as [|? ? Hs Hx]; subst. destruct (IH Hs) as [H1 H2].
    apply Forall_app in Hx. destruct Hx as [Hx1 Hx2].
    split; [constructor; assumption|].
    rewrite Forall_forall in *. intros b Hb.
    constructor; [apply Hx2; exact Hb | apply H2; exact Hb].
Qed.

End SortDesc.

Lemma raising_map_total {A B : Type} (f : A -> option B) (l : list A) :
  Forall (fun x => f x <> None) l ->
  exists ys,
    Packages.raising_map f l = Some ys
    /\ Forall2 (fun x y => f x = Some y) l ys.
Proof.
  induction 1 as [|x l Hx _ (ys & IH & Hys)]; cbn [Packages.raising_map].
  - exists []. split; [reflexivity | constructor].
  - destruct (f x) as [y|] eqn:E; [|congruence].
    rewrite IH. exists (y :: ys). split; [reflexivity|].
    constructor; assumption.
Qed.

Lemma raising_map_raises {A B : Type} (f : A -> option B) (l : list A) :
  Exists (fun x => f x = None) l -> Packages.raising_map f l = None.
Proof.
  induction 1 as [x l Hx|x l _ IH]; cbn [Packages.raising_map].
  - rewrite Hx. reflexivity.
  - rewrite IH. destruct (f x); reflexivity.
Qed.

(** A line of [find_alternatives] raises exactly on a description that
    is [null]. *)
Lemma alternative_line_raises (w : world) (pkg : package_data) :
  Packages.alternative_line w pkg = None <-> pd_description pkg = Some None.
Proof.
  unfold Packages.alternative_line. cbv zeta.
  destruct (pd_description pkg) as [[d|]|]; cbn [default];
    split; (discriminate || reflexivity).
Qed.

(** C10.  On a search result that is a non-empty list,
    [find_alternatives] lists at most 6 packages; none of them has the
    name asked for, the case of letters apart; they are in order of
    non-increasing stars; and they are the first of the packages of
    other names in that order: a package of another name that is left
    out has no more stars than any listed one.  It returns the listing,
    one text for each of these packages under the header, when none of
    them has [null] for its description, and raises when one has. *)
Theorem find_alternatives_listing (w : world) (package_name : str)
    (language : option str) (data : list package_data) :
  data <> [] ->
  _api_get w (py "search") (Packages.search_params package_name language)
  = ApiList data ->
  exists listed left_out,
    length listed <= 6
    /\ Forall (fun p => ~ Spec.same_name package_name p) listed
    /\ StronglySorted Spec.no_fewer_stars listed
    /\ Permutation (listed ++ left_out)
         (filter (fun p => negb (str_eqb (lower (default [] (pd_name p)))
                                         (lower package_name))) data)
    /\ Forall (fun o => Forall (fun p => Spec.no_fewer_stars p o) listed)
         left_out
    /\ (Forall (fun p => pd_description p <> Some None) listed ->
        exists lines,
          Packages.find_alternatives w package_name language
          = Some (join newline
                    ((py "Alternatives to '" ++ package_name ++ py "':"
                      ++ newline) :: lines))
          /\ Forall2 (fun p line => Packages.alternative_line w p = Some line)
               listed lines)
    /\ (Exists (fun p => pd_description p = Some None) listed ->
        Packages.find_alternatives w package_name language = None).
Proof.
  intros Hne Hget.
  set (others := filter _ data).
  exists (firstn 6 (Packages.alternatives_of package_name data)),
         (skipn 6 (Packages.alternatives_of package_name data)).
  assert (Hperm : Permutation (Packages.alternatives_of package_name data)
                    others).
  { apply sort_desc_perm. }
  assert (Hsorted : StronglySorted Spec.no_fewer_stars
                      (firstn 6 (Packages.alternatives_of package_name data)
                       ++ skipn 6
                            (Packages.alternatives_of package_name data))).
  { rewrite firstn_skipn. apply sort_desc_sorted. }
  apply strongly_sorted_app in Hsorted. destruct Hsorted as [Hs1 Hs2].
  assert (Hfind : Packages.find_alternatives w package_name language
                  = option_map (join newline)
                      (Packages.alternatives_lines w package_name data)).
  { unfold Packages.find_alternatives. rewrite Hget.
    destruct data; [congruence | reflexivity]. }
  split; [|split; [|split; [|split; [|split; [|split]]]]].
  - rewrite length_firstn. lia.
  - apply Forall_forall. intros p Hp.
    assert (Hin : In p (Packages.alternatives_of package_name data)).
    { rewrite <- (firstn_skipn 6). apply in_or_app. left. exact Hp. }
    clear Hp. rename Hin into Hp.
    apply (Permutation_in _ Hperm) in Hp. apply filter_In in Hp.
    destruct Hp as [_ Hp]. apply negb_true_iff in Hp.
    unfold Spec.same_name. intros Heq. apply str_eqb_eq in Heq. congruence.
  - exact Hs1.
  - rewrite firstn_skipn. exact Hperm.
  - exact Hs2.
  - intros Hdesc.
    destruct (raising_map_total (Packages.alternative_line w)
                (firstn 6 (Packages.alternatives_of package_name data)))
      as (lines & Hl & Hf).
    { revert Hdesc. apply Forall_impl. intros p Hp Hraise.
      apply Hp. apply (proj1 (alternative_line_raises w p)). exact Hraise. }
    exists lines. split; [|exact Hf].
    rewrite Hfind. unfold Packages.alternatives_lines. rewrite Hl.
    reflexivity.
  - intros Hnull. rewrite Hfind. unfold Packages.alternatives_lines.
    rewrite raising_map_raises; [reflexivity|].
    revert Hnull. apply Exists_impl. intros p Hp.
    apply (proj2 (alternative_line_raises w p)). exact Hp.
Qed.

Lemma find_alternatives_listing_witness :
  exists listed left_out,
    length listed <= 6
    /\ Forall (fun p => ~ Spec.same_name (py "express") p) listed
    /\ StronglySorted Spec.no_fewer_stars listed
    /\ Permutation (listed ++ left_out)
         (filter (fun p => negb (str_eqb (lower (default [] (pd_name p)))
                                         (lower (py "express"))))
            [Sample.koa; Sample.a_package "Express" "NPM" 5 1 "" false;
             Sample.express; Sample.fastify;
             Sample.a_package "hapi" "NPM" 14000 90 "" false;
             Sample.a_package "restify" "NPM" 10000 80 "" false;
             Sample.a_package "polka" "NPM" 5000 20 "" false;
             Sample.a_package "micro" "NPM" 10000 40 "" false;
             Sample.a_package "sails" "NPM" 22000 150 "" false])
    /\ Forall (fun o => Forall (fun p => Spec.no_fewer_stars p o) listed)
         left_out
    /\ (Forall (fun p => pd_description p <> Some None) listed ->
        exists lines,
          Packages.find_alternatives Sample.w (py "express") None
          = Some (join newline
                    ((py "Alternatives to '" ++ py "express" ++ py "':"
                      ++ newline) :: lines))
          /\ Forall2
               (fun p line => Packages.alternative_line Sample.w p = Some line)
               listed lines)
    /\ (Exists (fun p => pd_description p = Some None) listed ->
        Packages.find_alternatives Sample.w (py "express") None = None).
Proof.
  apply (find_alternatives_listing Sample.w (py "express") None).
  - discriminate.
  - reflexivity.
Defined.

(** The listing of the sample registry, and a search result whose
    second package has [null] for its description. *)
Example find_alternatives_sample :
  (exists text,
      Packages.find_alternatives Sample.w (py "express") None = Some text)
  /\ Packages.find_alternatives
       (with_registry Sample.w
          (fun _ _ =>
             ApiList
               [Sample.koa;
                {| pd_name := Some (py "hapi"); pd_platform := Some (py "NPM");
                   pd_description := Some None;
                   pd_stars := Some 14000%Z; pd_forks := None;
                   pd_open_issues := None;
                   pd_latest_release_number := None;
                   pd_latest_release_published_at := None;
                   pd_deprecated := None; pd_contributions_count := None;
                   pd_homepage := None; pd_repository_url := None;
                   pd_other_keys := false |}]))
       (py "express") None
     = None.
Proof. split; [eexists|]; vm_compute; reflexivity. Qed.

(** ** The verdicts of a comparison *)

Lemma package_snapshot_kind (w : world) (name platform : str)
    (snap : Combined.snapshot) :
  Combined._package_snapshot w name platform = Some snap ->
  forall s, snap <> Combined.SnapRepo s.
Proof.
  unfold Combined._package_snapshot.
  destruct (_api_get w (platform ++ py "/" ++ name) []) as [msg|d|[|p l]];
    try destruct (dict_empty d);
    intros [= <-] s; discriminate.
Qed.

Lemma repo_snapshot_kind (w : world) (repo : str)
    (snap : Combined.snapshot) :
  Combined._repo_snapshot w repo = Some snap ->
  ~ Spec.is_package_snapshot snap.
Proof.
  unfold Combined._repo_snapshot.
  destruct (Github.get_repo_info w _) as [[msg|d]|];
    intros [= <-] [s Hs]; discriminate.
Qed.

(** The mode is "package" only when both snapshots were built as package
    snapshots, and in the other modes one of them was not. *)
Lemma resolve_kinds (w : world) (item1 item2 : str) (platform : option str)
    (snap1 snap2 : Combined.snapshot) (m : Combined.mode) :
  Combined.resolve w item1 item2 platform = Some (snap1, snap2, m) ->
  match m with
  | Combined.ModePackage =>
      (forall s, snap1 <> Combined.SnapRepo s)
      /\ (forall s, snap2 <> Combined.SnapRepo s)
  | _ => ~ (Spec.is_package_snapshot snap1 /\ Spec.is_package_snapshot snap2)
  end.
Proof.
  unfold Combined.resolve, Combined.bind.
  assert (Hpk : forall p1 p2,
             match Combined._package_snapshot w item1 p1 with
             | Some x =>
                 match Combined._package_snapshot w item2 p2 with
                 | Some x0 => Some (x, x0, Combined.ModePackage)
                 | None => None
                 end
             | None => None
             end = Some (snap1, snap2, m) ->
             match m with
             | Combined.ModePackage =>
                 (forall s, snap1 <> Combined.SnapRepo s)
                 /\ (forall s, snap2 <> Combined.SnapRepo s)
             | _ => ~ (Spec.is_package_snapshot snap1
                       /\ Spec.is_package_snapshot snap2)
             end).
  { intros p1 p2.
    destruct (Combined._package_snapshot w item1 p1) eqn:E1; [|discriminate].
    destruct (Combined._package_snapshot w item2 p2) eqn:E2; [|discriminate].
    intros [= <- <- <-]. split; eapply package_snapshot_kind; eassumption. }
  destruct platform as [[|c p]|].
  2: apply Hpk.
  all: destruct (Combined._is_repo item1), (Combined._is_repo item2);
    cbn [andb negb]; try apply Hpk.
  all: try (destruct (Combined._repo_snapshot w item1) eqn:E1;
            [|discriminate]).
  all: try (destruct (Combined._package_snapshot w item1 _) eqn:E1;
            [|discriminate]).
  all: try (destruct (Combined._repo_snapshot w item2) eqn:E2;
            [|discriminate]).
  all: try (destruct (Combined._package_snapshot w item2 _) eqn:E2;
            [|discriminate]).
  all: intros [= <- <- <-]; intros [H1 H2].
  all: try (apply repo_snapshot_kind in E1; contradiction).
  all: try (apply repo_snapshot_kind in E2; contradiction).
Qed.

Lemma formatted_stars (snap : Combined.snapshot) (block : str) :
  Combined._format_snapshot snap = Some block ->
  Combined.snap_stars snap = Some (Spec.stars_of snap).
Proof.
  unfold Spec.stars_of. destruct snap as [msg|s|s]; simpl; try reflexivity.
  destruct (Combined.rs_stars s); [reflexivity | discriminate].
Qed.

Lemma append_verdicts_spec (item1 item2 : str)
    (snap1 snap2 : Combined.snapshot) (m : Combined.mode) (out : list str) :
  Combined.snap_stars snap1 = Some (Spec.stars_of snap1) ->
  Combined.snap_stars snap2 = Some (Spec.stars_of snap2) ->
  match m with
  | Combined.ModePackage =>
      (forall s, snap1 <> Combined.SnapRepo s)
      /\ (forall s, snap2 <> Combined.SnapRepo s)
  | _ => ~ (Spec.is_package_snapshot snap1 /\ Spec.is_package_snapshot snap2)
  end ->
  Combined.append_verdicts item1 item2 snap1 snap2 m out
  = Some (out ++ Spec.verdicts item1 item2 snap1 snap2).
Proof.
  intros H1 H2 Hm. unfold Combined.append_verdicts.
  destruct snap1 as [e1|p1|r1]; cbn [Combined.has_error negb andb].
  { rewrite app_nil_r. reflexivity. }
  all: destruct snap2 as [e2|p2|r2]; cbn [Combined.has_error negb andb].
  all: try (rewrite app_nil_r; reflexivity).
  all: rewrite H1, H2; unfold Spec.verdicts, Spec.more_popular,
         Spec.more_recent, Combined.snap_months.
  all: destruct m; try reflexivity.
  - destruct (Combined.ps_months_since_release p1),
             (Combined.ps_months_since_release p2);
      try (rewrite <- app_assoc); reflexivity.
  - exfalso. apply Hm. split; eexists; reflexivity.
  - exfalso. apply Hm. split; eexists; reflexivity.
  - destruct (Combined.ps_months_since_release p1); reflexivity.
Qed.

Lemma format_snapshot_total (snap : Combined.snapshot) :
  Spec.counted snap -> exists block, Combined._format_snapshot snap = Some block.
Proof.
  destruct snap as [msg|s|s]; simpl.
  - intros _. eexists. reflexivity.
  - intros _. eexists. reflexivity.
  - intros (H1 & H2 & H3).
    destruct (Combined.rs_stars s); [|congruence].
    destruct (Combined.rs_forks s); [|congruence].
    destruct (Combined.rs_open_issues s); [|congruence].
    eexists. reflexivity.
Qed.

(** C5.  When the two items are resolved, and the counts of a repository
    snapshot are numbers, [compare] writes the five lines of the blocks
    and then the verdicts of section 4.5: none when a snapshot has an
    error; otherwise "more popular", naming the item with more stars and
    item1 on a tie, and, only when both are package snapshots whose
    months since release are known, "more recently updated", naming the
    item with fewer months and item1 on a tie. *)
Theorem compare_verdicts (w : world) (item1 item2 : str)
    (platform : option str) (snap1 snap2 : Combined.snapshot)
    (m : Combined.mode) :
  Combined.resolve w item1 item2 platform = Some (snap1, snap2, m) ->
  Spec.counted snap1 -> Spec.counted snap2 ->
  exists block1 block2,
    Combined._format_snapshot snap1 = Some block1
    /\ Combined._format_snapshot snap2 = Some block2
    /\ Combined.compare_out w item1 item2 platform
       = Some ([py "Comparing: " ++ item1 ++ py " vs " ++ item2 ++ newline
                ++ repeat_str (py "=") 40;
                block1; repeat_str (py "─") 40; block2;
                repeat_str (py "=") 40]
               ++ Spec.verdicts item1 item2 snap1 snap2).
Proof.
  intros Hr Hc1 Hc2.
  destruct (format_snapshot_total snap1 Hc1) as [block1 Hf1].
  destruct (format_snapshot_total snap2 Hc2) as [block2 Hf2].
  exists block1, block2. split; [exact Hf1|]. split; [exact Hf2|].
  unfold Combined.compare_out.
  rewrite Hr. cbn [Combined.bind]. rewrite Hf1, Hf2. cbn [Combined.bind].
  apply append_verdicts_spec.
  - eapply formatted_stars; eassumption.
  - eapply formatted_stars; eassumption.
  - eapply resolve_kinds; eassumption.
Qed.

Lemma compare_verdicts_witness :
  exists block1 block2,
    Combined._format_snapshot Sample.express_snapshot = Some block1
    /\ Combined._format_snapshot Sample.fastify_snapshot = Some block2
    /\ Combined.compare_out Sample.w (py "express") (py "fastify")
         (Some (py "npm"))
       = Some ([py "Comparing: " ++ py "express" ++ py " vs " ++ py "fastify"
                ++ newline ++ repeat_str (py "=") 40;
                block1; repeat_str (py "─") 40; block2;
                repeat_str (py "=") 40]
               ++ Spec.verdicts (py "express") (py "fastify")
                    Sample.express_snapshot Sample.fastify_snapshot).
Proof.
  apply (compare_verdicts Sample.w (py "express") (py "fastify")
           (Some (py "npm")) Sample.express_snapshot Sample.fastify_snapshot
           Combined.ModePackage).
  - vm_compute. reflexivity.
  - exact I.
  - exact I.
Defined.

Example verdicts_sample :
  Spec.verdicts (py "express") (py "fastify")
    Sample.express_snapshot Sample.fastify_snapshot
  = [py "More popular        : express";
     py "More recently updated: express"].
Proof. vm_compute. reflexivity. Qed.

(** Equal stars and equal months name item1 in both verdicts. *)
Example verdicts_tie :
  Spec.verdicts (py "fastify") (py "express")
    Sample.fastify_snapshot
    (match Sample.fastify_snapshot with
     | Combined.SnapPackage s =>
         Combined.SnapPackage
           {| Combined.ps_name := py "express";
              Combined.ps_platform := Combined.ps_platform s;
              Combined.ps_description := Combined.ps_description s;
              Combined.ps_stars := Combined.ps_stars s;
              Combined.ps_forks := Combined.ps_forks s;
              Combined.ps_open_issues := Combined.ps_open_issues s;
              Combined.ps_contributors := Combined.ps_contributors s;
              Combined.ps_latest_version := Combined.ps_latest_version s;
              Combined.ps_months_since_release :=
                Combined.ps_months_since_release s;
              Combined.ps_deprecated := Combined.ps_deprecated s;
              Combined.ps_homepage := Combined.ps_homepage s |}
     | other => other
     end)
  = [py "More popular        : fastify";
     py "More recently updated: fastify"].
Proof. vm_compute. reflexivity. Qed.

(** A registry that answers a package request with the dict [{}]: the
    snapshot is an error, and no verdict is written. *)
Example compare_empty_answer :
  Combined.compare
    (with_registry Sample.w
       (fun endpoint params =>
          if str_eqb endpoint (py "npm/ghost") then ApiDict Sample.no_package
          else Sample.registry endpoint params))
    (py "express") (py "ghost") (Some (py "npm"))
  = Some (join newline
            [py "Comparing: express vs ghost" ++ newline
             ++ repeat_str (py "=") 40;
             default [] (Combined._format_snapshot Sample.express_snapshot);
             repeat_str (py "─") 40;
             py "Error: Could not find 'ghost' on npm";
             repeat_str (py "=") 40]).
Proof. vm_compute. reflexivity. Qed.

(** ** The manifest files of a repository *)

Lemma dict_get_set_eq {A : Type} (k : str) (v : A) (d : list (str * A)) :
  dict_get k (dict_set k v d) = Some v.
Proof.
  induction d as [|[k' v'] d IH]; simpl.
  - rewrite str_eqb_refl. reflexivity.
  - destruct (str_eqb k k') eqn:E; simpl; rewrite E; [reflexivity | exact IH].
Qed.

Lemma dict_get_set_ne {A : Type} (k k0 : str) (v : A) (d : list (str * A)) :
  k0 <> k -> dict_get k0 (dict_set k v d) = dict_get k0 d.
Proof.
  intros Hne. induction d as [|[k' v'] d IH]; simpl.
  - destruct (str_eqb k0 k) eqn:E; [|reflexivity].
    apply str_eqb_eq in E. congruence.
  - destruct (str_eqb k k') eqn:E; simpl.
    + apply str_eqb_eq in E. subst k'.
      destruct (str_eqb k0 k) eqn:E0; [|reflexivity].
      apply str_eqb_eq in E0. congruence.
    + rewrite IH. reflexivity.
Qed.

Lemma package_files_loop_lookup (w : world) (repo : str) (files : list str) :
  NoDup files ->
  forall found out,
    Github.get_package_files_loop w repo files found = Some out ->
    (forall f, ~ In f files -> dict_get f out = dict_get f found)
    /\ (forall f, In f files ->
          exists c,
            Github.get_file_content w repo f = Some c
            /\ dict_get f out
               = if startswith (py "Error") c then dict_get f found
                 else Some c).
Proof.
  induction 1 as [|f0 rest Hnotin Hnodup IH]; intros found out;
    cbn [Github.get_package_files_loop].
  - intros [= <-]. split; [reflexivity | intros f []].
  - destruct (Github.get_file_content w repo f0) as [c0|] eqn:E0;
      [|discriminate].
    destruct (startswith (py "Error") c0) eqn:Eerr; cbn [negb];
      intros Hloop; apply IH in Hloop; destruct Hloop as [Ha Hb]; split.
    + intros f Hf. apply Ha. intros Hin. apply Hf. right. exact Hin.
    + intros f [<- | Hin].
      * exists c0. split; [exact E0|]. rewrite Eerr. apply Ha. exact Hnotin.
      * apply Hb. exact Hin.
    + intros f Hf. rewrite Ha by (intros Hin; apply Hf; right; exact Hin).
      apply dict_get_set_ne. intros ->. apply Hf. left. reflexivity.
    + intros f [<- | Hin].
      * exists c0. split; [exact E0|]. rewrite Eerr.
        rewrite Ha by exact Hnotin. apply dict_get_set_eq.
      * destruct (Hb f Hin) as (c & Hc & Hget). exists c.
        split; [exact Hc|]. rewrite Hget.
        rewrite dict_get_set_ne; [reflexivity|].
        intros ->. contradiction.
Qed.

Lemma package_files_loop_total (w : world) (repo : str) (files : list str) :
  (forall f, In f files -> Github.get_file_content w repo f <> None) ->
  forall found,
    exists out, Github.get_package_files_loop w repo files found = Some out.
Proof.
  induction files as [|f0 rest IH]; intros Hall found;
    cbn [Github.get_package_files_loop].
  - eexists. reflexivity.
  - destruct (Github.get_file_content w repo f0) as [c0|] eqn:E0.
    + destruct (negb (startswith (py "Error") c0)); apply IH;
        intros f Hf; apply Hall; right; exact Hf.
    + exfalso. apply (Hall f0); [left; reflexivity | exact E0].
Qed.

Lemma package_files_nodup : NoDup Github.package_files.
Proof.
  unfold Github.package_files. simpl.
  repeat (constructor;
          [simpl; intros H;
           repeat (destruct H as [H|H]; [discriminate H|]); exact H|]).
  constructor.
Qed.





(** ** More on the manifest parser *)

(** X1.  A manifest without a parsing branch (pom.xml, Gemfile,
    composer.json, any other name) gives no package whatever its content,
    and the loop of [check_dependencies] passes over it: no section, no
    request, the report as it was. *)
Theorem unparsed_manifest (w : world) (all_results : list str)
    (filename content : str) :
  mem filename Behaviour.parsed_names = false ->
  Packages._extract_packages w filename content = []
  /\ Packages.manifest_body w all_results (filename, content)
     = Some all_results.
Proof.
  intros Hmem. unfold Behaviour.parsed_names, mem in Hmem.
  cbn [existsb] in Hmem. rewrite !orb_false_iff in Hmem.
  destruct Hmem as (H1 & H2 & H3 & H4 & _).
  assert (E : Packages._extract_packages w filename content = []).
  { unfold Packages._extract_packages. rewrite H1, H2, H3, H4. reflexivity. }
  split; [exact E|].
  unfold Packages.manifest_body. rewrite E.
  destruct (dict_get filename Packages.PACKAGE_FILES) as [[|c p]|];
    reflexivity.
Qed.

Lemma unparsed_manifest_witness :
  Packages._extract_packages Sample.w (py "pom.xml") (py "<project/>") = []
  /\ Packages.manifest_body Sample.w [py "kept"]
       (py "pom.xml", py "<project/>") = Some [py "kept"].
Proof.
  apply (unparsed_manifest Sample.w [py "kept"] (py "pom.xml")
           (py "<project/>")).
  vm_compute. reflexivity.
Defined.

Lemma package_json_from_brace (w : world) (junk rest : str) :
  ~ In "{"%char junk ->
  Packages._extract_packages w (py "package.json") (junk ++ "{"%char :: rest)
  = match json_loads w ("{"%char :: rest) with
    | Some (JObj data) =>
        Packages.try_loop (Packages.package_json_body data)
          [py "dependencies"; py "devDependencies"] []
    | _ => []
    end.
Proof.
  intros Hjunk. unfold Packages._extract_packages. rewrite str_eqb_refl.
  unfold find. change (py "{") with ["{"%char].
  rewrite (index_of_char_first _ _ _ Hjunk).
  destruct (Z.eqb_spec (Z.of_nat (length junk)) (-1)) as [Hneg|_]; [lia|].
  rewrite Nat2Z.id, skipn_app, Nat.sub_diag, skipn_all. reflexivity.
Qed.

Lemma section_items_not_object (data : list (str * json)) (section : str)
    (v : json) :
  dict_get section data = Some v -> Behaviour.not_object v ->
  Packages.section_items data section = None.
Proof.
  unfold Packages.section_items, Behaviour.not_object. intros -> Hv.
  destruct v; try reflexivity. exfalso. exact (Hv items eq_refl).
Qed.

(** X2.  What a damaged package.json gives.  A text that [json.loads]
    rejects, or reads as something other than an object, gives nothing.
    When [dependencies] is a mapping and [devDependencies] is there but
    is not one, the [dependencies] entries are kept.  When
    [dependencies] itself is there and is not a mapping, nothing is
    given, whatever [devDependencies] holds. *)
Theorem package_json_damaged (w : world) (junk rest : str) :
  ~ In "{"%char junk ->
  let refs :=
    Packages._extract_packages w (py "package.json")
      (junk ++ "{"%char :: rest) in
  (json_loads w ("{"%char :: rest) = None -> refs = [])
  /\ (forall v, json_loads w ("{"%char :: rest) = Some v ->
                Behaviour.not_object v -> refs = [])
  /\ (forall data deps v,
         json_loads w ("{"%char :: rest) = Some (JObj data) ->
         Spec.mapping_of data (py "dependencies") deps ->
         dict_get (py "devDependencies") data = Some v ->
         Behaviour.not_object v ->
         refs = deps)
  /\ (forall data v,
         json_loads w ("{"%char :: rest) = Some (JObj data) ->
         dict_get (py "dependencies") data = Some v ->
         Behaviour.not_object v ->
         refs = []).
Proof.
  intros Hjunk refs. subst refs.
  rewrite (package_json_from_brace w junk rest Hjunk).
  split; [intros ->; reflexivity|]. split; [|split].
  - intros v -> Hv. destruct v; try reflexivity.
    exfalso. exact (Hv items eq_refl).
  - intros data deps v -> Hdeps Hdev Hv.
    cbn [Packages.try_loop]. unfold Packages.package_json_body.
    rewrite (section_items_of _ _ _ Hdeps). cbn [app].
    rewrite (section_items_not_object _ _ _ Hdev Hv). reflexivity.
  - intros data v -> Hdep Hv.
    cbn [Packages.try_loop]. unfold Packages.package_json_body.
    rewrite (section_items_not_object _ _ _ Hdep Hv). reflexivity.
Qed.

(** *** Line by line: go.mod and Cargo.toml *)

Lemma split_ws_go_tokens (cur s : str) :
  forallb (fun c => negb (isspace c)) cur = true ->
  Forall Behaviour.token (split_ws_go cur s).
Proof.
  assert (Hrev : forall l : str,
             l <> [] -> forallb (fun c => negb (isspace c)) l = true ->
             Behaviour.token (rev l)).
  { intros l Hl Hv. split.
    - intros H. apply (f_equal (@rev ascii)) in H.
      rewrite rev_involutive in H. exact (Hl H).
    - apply forallb_forall. intros c Hc. apply in_rev in Hc.
      rewrite forallb_forall in Hv. exact (Hv c Hc). }
  revert cur. induction s as [|c s IH]; intros cur Hcur; simpl.
  - destruct cur as [|a cur]; constructor; [|constructor].
    apply Hrev; [discriminate | exact Hcur].
  - destruct (isspace c) eqn:Ec.
    + destruct cur as [|a cur]; [apply IH; reflexivity|].
      constructor; [|apply IH; reflexivity].
      apply Hrev; [discriminate | exact Hcur].
    + apply IH. simpl. rewrite Ec. exact Hcur.
Qed.

(** Every token of [str.split()] is non-empty and free of whitespace. *)
Lemma split_ws_tokens (s : str) : Forall Behaviour.token (split_ws s).
Proof. apply split_ws_go_tokens. reflexivity. Qed.

(** A loop of the parser whose body adds at most one package for a line
    gives one package for each line it keeps, in the order of the lines. *)
Lemma try_loop_line_by_line
    (body : list Packages.package -> str -> option (list Packages.package))
    (keep : str -> bool) (R : str -> Packages.package -> Prop) :
  (forall packages raw,
      exists refs,
        body packages raw = Some (packages ++ refs)
        /\ ((keep (strip raw) = false /\ refs = [])
            \/ (keep (strip raw) = true
                /\ exists p, refs = [p] /\ R (strip raw) p))) ->
  forall lines packages,
    exists refs,
      Packages.try_loop body lines packages = packages ++ refs
      /\ Forall2 R (filter keep (map strip lines)) refs.
Proof.
  intros Hbody lines.
  induction lines as [|raw lines IH]; intros packages.
  - exists []. rewrite app_nil_r. split; [reflexivity | constructor].
  - cbn [Packages.try_loop].
    destruct (Hbody packages raw) as (r & -> & Hr).
    destruct (IH (packages ++ r)) as (refs & -> & Hrefs).
    exists (r ++ refs). rewrite app_assoc. split; [reflexivity|].
    cbn [map filter].
    destruct Hr as [[-> ->] | (-> & p & -> & Hp)]; simpl.
    + exact Hrefs.
    + constructor; assumption.
Qed.

Lemma go_mod_body_spec (packages : list Packages.package) (raw : str) :
  exists refs,
    Packages.go_mod_body packages raw = Some (packages ++ refs)
    /\ ((Behaviour.go_line (strip raw) = false /\ refs = [])
        \/ (Behaviour.go_line (strip raw) = true
            /\ exists p, refs = [p] /\ Behaviour.first_two (strip raw) p)).
Proof.
  unfold Packages.go_mod_body, Behaviour.go_line.
  destruct (negb (length (strip raw) =? 0)
            && negb (startswith (py "//") (strip raw))
            && negb (startswith (py "module") (strip raw))
            && negb (startswith (py "go ") (strip raw))) eqn:E;
    cbn [andb].
  2:{ exists []. rewrite app_nil_r. split; [reflexivity | left; auto]. }
  pose proof (split_ws_tokens (strip raw)) as Htok.
  destruct (split_ws (strip raw)) as [|p0 [|p1 rest]] eqn:Es.
  - exists []. rewrite app_nil_r. split; [reflexivity | left; auto].
  - exists []. rewrite app_nil_r. split; [reflexivity | left; auto].
  - eexists. split; [reflexivity|]. right. split; [reflexivity|].
    eexists. split; [reflexivity|].
    inversion Htok as [|? ? H0 Hrest]; subst.
    inversion Hrest as [|? ? H1 _]; subst.
    exists p1, rest. cbn [fst snd].
    split; [exact Es|]. split; [reflexivity|].
    split; assumption.
Qed.

(** X3.  On a go.mod the parser gives one package for each stripped line
    that is not blank, does not start with [//], [module] or [go ] and has
    at least two tokens, in the order of the lines; the package is the
    first two tokens of the line, neither empty nor holding whitespace.
    A line with one token gives nothing. *)
Theorem go_mod_refs (w : world) (content : str) :
  Forall2 Behaviour.first_two
    (filter Behaviour.go_line (map strip (split newline content)))
    (Packages._extract_packages w (py "go.mod") content).
Proof.
  unfold Packages._extract_packages.
  replace (str_eqb (py "go.mod") (py "package.json")) with false
    by (vm_compute; reflexivity).
  replace (str_eqb (py "go.mod") (py "requirements.txt")) with false
    by (vm_compute; reflexivity).
  replace (str_eqb (py "go.mod") (py "Cargo.toml")) with false
    by (vm_compute; reflexivity).
  rewrite str_eqb_refl.
  destruct (try_loop_line_by_line Packages.go_mod_body Behaviour.go_line
              Behaviour.first_two go_mod_body_spec
              (split newline content) []) as (refs & -> & H).
  exact H.
Qed.

Lemma cargo_body_spec (st : bool * list Packages.package) (raw : str) :
  exists st',
    Packages.cargo_body st raw = Some st'
    /\ ((Behaviour.cargo_header (strip raw) = true /\ st' = (true, snd st))
        \/ (Behaviour.cargo_header (strip raw) = false
            /\ startswith (py "[") (strip raw) = true
            /\ st' = (false, snd st))
        \/ (Behaviour.cargo_header (strip raw) = false
            /\ startswith (py "[") (strip raw) = false
            /\ (st' = st
                \/ (fst st = true
                    /\ exists p,
                         Behaviour.cargo_entry (strip raw) p
                         /\ st' = (true, snd st ++ [p]))))).
Proof.
  destruct st as [in_deps packages]. unfold Packages.cargo_body.
  fold (Behaviour.cargo_header (strip raw)).
  destruct (Behaviour.cargo_header (strip raw)) eqn:Eh.
  { eexists. split; [reflexivity|]. left. auto. }
  destruct (startswith (py "[") (strip raw)) eqn:Eb.
  { eexists. split; [reflexivity|]. right; left. auto. }
  destruct in_deps; cbn [andb].
  2:{ eexists. split; [reflexivity|]. right; right. auto. }
  destruct (contains (py "=") (strip raw)) eqn:Ec.
  2:{ eexists. split; [reflexivity|]. right; right. auto. }
  destruct (split_once_cut _ _ Ec) as (pre & post & -> & Hcut).
  eexists. split; [reflexivity|]. right; right.
  split; [reflexivity|]. split; [reflexivity|]. right.
  split; [reflexivity|]. eexists. split; [|reflexivity].
  exists pre, post. split; [exact Hcut | reflexivity].
Qed.

Lemma cargo_loop_idle (lines : list str) (packages : list Packages.package) :
  forallb (fun l => negb (Behaviour.cargo_header l)) (map strip lines) = true ->
  Packages.try_loop Packages.cargo_body lines (false, packages)
  = (false, packages).
Proof.
  induction lines as [|raw lines IH]; intros H; [reflexivity|].
  cbn [map forallb] in H. apply andb_true_iff in H. destruct H as [Hh Hrest].
  apply negb_true_iff in Hh. cbn [Packages.try_loop].
  destruct (cargo_body_spec (false, packages) raw) as (st' & -> & Hst).
  cbn [fst snd] in Hst.
  destruct Hst as [[Hc _] | [(_ & _ & ->) | (_ & _ & [-> | [Hf _]])]];
    try congruence; apply IH; exact Hrest.
Qed.

Lemma cargo_loop_entries (all_lines : list str) (lines : list str)
    (st : bool * list Packages.package) :
  incl (map strip lines) all_lines ->
  Forall (fun p => exists line,
              In line all_lines
              /\ Behaviour.cargo_header line = false
              /\ startswith (py "[") line = false
              /\ Behaviour.cargo_entry line p) (snd st) ->
  Forall (fun p => exists line,
              In line all_lines
              /\ Behaviour.cargo_header line = false
              /\ startswith (py "[") line = false
              /\ Behaviour.cargo_entry line p)
    (snd (Packages.try_loop Packages.cargo_body lines st)).
Proof.
  revert st. induction lines as [|raw lines IH]; intros st Hincl Hst;
    [exact Hst|].
  cbn [Packages.try_loop].
  destruct (cargo_body_spec st raw) as (st' & -> & Hcases).
  apply IH.
  - intros l Hl. apply Hincl. right. exact Hl.
  - destruct Hcases
      as [[_ ->] | [(_ & _ & ->) | (Hh & Hb & [-> | (_ & p & Hp & ->)])]];
      cbn [snd]; try exact Hst.
    apply Forall_app. split; [exact Hst|]. constructor; [|constructor].
    exists (strip raw). repeat split; try assumption.
    apply Hincl. left. reflexivity.
Qed.

(** X4.  On a Cargo.toml the parser gives packages only from inside a
    dependency section: a content none of whose stripped lines is
    [[dependencies]] or [[dev-dependencies]] gives nothing.  Every
    package it gives comes from a line that is not a section header and
    holds [=]: the name is what stands before the first [=], stripped,
    and the version what stands after it, stripped of whitespace and
    then of double quotes at both ends. *)
Theorem cargo_refs (w : world) (content : str) :
  let lines := map strip (split newline content) in
  (forallb (fun l => negb (Behaviour.cargo_header l)) lines = true ->
   Packages._extract_packages w (py "Cargo.toml") content = [])
  /\ Forall (fun p => exists line,
                 In line lines
                 /\ Behaviour.cargo_header line = false
                 /\ startswith (py "[") line = false
                 /\ Behaviour.cargo_entry line p)
       (Packages._extract_packages w (py "Cargo.toml") content).
Proof.
  intros lines.
  assert (E : Packages._extract_packages w (py "Cargo.toml") content
              = snd (Packages.try_loop Packages.cargo_body
                       (split newline content) (false, []))).
  { unfold Packages._extract_packages.
    replace (str_eqb (py "Cargo.toml") (py "package.json")) with false
      by (vm_compute; reflexivity).
    replace (str_eqb (py "Cargo.toml") (py "requirements.txt")) with false
      by (vm_compute; reflexivity).
    rewrite str_eqb_refl. reflexivity. }
  rewrite E. split.
  - intros H. rewrite (cargo_loop_idle _ _ H). reflexivity.
  - apply cargo_loop_entries; [apply incl_refl | constructor].
Qed.

(** ** More on the manifest files and the report *)

Lemma dict_set_absent {A : Type} (k : str) (v : A) (d : list (str * A)) :
  ~ In k (map fst d) -> dict_set k v d = d ++ [(k, v)].
Proof.
  induction d as [|[k' v'] d IH]; simpl; intros H; [reflexivity|].
  destruct (str_eqb k k') eqn:E.
  - apply str_eqb_eq in E. exfalso. apply H. left. congruence.
  - rewrite IH; [reflexivity|]. intros Hin. apply H. right. exact Hin.
Qed.

Lemma package_files_loop_keys (w : world) (repo : str) (files : list str) :
  NoDup files ->
  forall found out,
    (forall f, In f files -> ~ In f (map fst found)) ->
    Github.get_package_files_loop w repo files found = Some out ->
    map fst out
    = map fst found ++ filter (Behaviour.kept_file w repo) files.
Proof.
  induction 1 as [|f0 rest Hnotin Hnodup IH]; intros found out Hfresh;
    cbn [Github.get_package_files_loop filter].
  - intros [= <-]. rewrite app_nil_r. reflexivity.
  - unfold Behaviour.kept_file at 1.
    destruct (Github.get_file_content w repo f0) as [c0|]; [|discriminate].
    destruct (negb (startswith (py "Error") c0)); intros Hloop.
    + rewrite dict_set_absent in Hloop
        by (apply Hfresh; left; reflexivity).
      apply IH in Hloop.
      * rewrite Hloop, map_app, <- app_assoc. reflexivity.
      * intros f Hf. rewrite map_app. intros Hin.
        apply in_app_or in Hin. destruct Hin as [Hin | [<- | []]].
        -- apply (Hfresh f); [right; exact Hf | exact Hin].
        -- contradiction.
    + apply IH in Hloop; [exact Hloop|].
      intros f Hf. apply Hfresh. right. exact Hf.
Qed.

(** X5.  The mapping of [get_package_files] holds its file names in the
    fixed order of the seven names, each at most once: they are the
    names, in that order, whose text does not begin with "Error".  So
    the sections of a dependency report always come in the order
    package.json, requirements.txt, go.mod, Cargo.toml. *)
Theorem package_files_order (w : world) (repo : str)
    (found : list (str * str)) :
  Github.get_package_files w repo = Some found ->
  map fst found
  = filter (Behaviour.kept_file w repo) Github.package_files
  /\ NoDup (map fst found).
Proof.
  intros Hfound. unfold Github.get_package_files in Hfound.
  apply (package_files_loop_keys _ _ _ package_files_nodup) in Hfound.
  - cbn [map app] in Hfound. split; [exact Hfound|].
    rewrite Hfound. apply NoDup_filter. apply package_files_nodup.
  - intros f _ [].
Qed.

Lemma package_files_order_witness :
  map fst [(py "package.json", Sample.package_json);
           (py "requirements.txt", Sample.requirements_txt)]
  = filter (Behaviour.kept_file Sample.w (py "acme/app"))
      Github.package_files
  /\ NoDup (map fst [(py "package.json", Sample.package_json);
                     (py "requirements.txt", Sample.requirements_txt)]).
Proof.
  apply (package_files_order Sample.w (py "acme/app")).
  vm_compute. reflexivity.
Defined.

Lemma filter_none {A : Type} (f : A -> bool) (l : list A) :
  (forall x, In x l -> f x = false) -> filter f l = [].
Proof.
  induction l as [|a l IH]; intros H; [reflexivity|]. simpl.
  rewrite (H a (or_introl eq_refl)). apply IH.
  intros x Hx. apply H. right. exact Hx.
Qed.

(** X6.  When the request for each of the seven manifest names fails,
    [check_dependencies] returns the fixed text that no package file was
    found, with the seven supported names; the registry has no part in
    it. *)
Theorem no_package_files (w : world) (repo : str) :
  (forall f, In f Github.package_files ->
             exists msg,
               _get w (Spec.contents_endpoint repo f) = RespError msg) ->
  Packages.check_dependencies w repo
  = Packages.Report
      (py "No package files found in '" ++ repo ++ py "'." ++ newline
       ++ py "Supported: package.json, requirements.txt, go.mod, "
       ++ py "Cargo.toml, pom.xml, Gemfile, composer.json").
Proof.
  intros Hfail.
  assert (Hcontent : forall f, In f Github.package_files ->
            exists c, Github.get_file_content w repo f = Some c
                      /\ startswith (py "Error") c = true).
  { intros f Hf. destruct (Hfail f Hf) as [msg Hmsg].
    unfold Github.get_file_content.
    fold (Spec.contents_endpoint repo f). rewrite Hmsg.
    eexists. split; reflexivity. }
  destruct (package_files_loop_total w repo Github.package_files) with
    (found := @nil (str * str)) as [found Hfound].
  { intros f Hf. destruct (Hcontent f Hf) as (c & -> & _). discriminate. }
  fold (Github.get_package_files w repo) in Hfound.
  destruct (package_files_order w repo found Hfound) as [Hkeys _].
  rewrite filter_none in Hkeys.
  - unfold Packages.check_dependencies. rewrite Hfound.
    destruct found; [reflexivity | discriminate].
  - intros f Hf. unfold Behaviour.kept_file.
    destruct (Hcontent f Hf) as (c & -> & ->). reflexivity.
Qed.

Lemma no_package_files_witness :
  Packages.check_dependencies Sample.w (py "acme/none")
  = Packages.Report
      (py "No package files found in '" ++ py "acme/none" ++ py "'."
       ++ newline
       ++ py "Supported: package.json, requirements.txt, go.mod, "
       ++ py "Cargo.toml, pom.xml, Gemfile, composer.json").
Proof.
  apply (no_package_files Sample.w (py "acme/none")).
  intros f Hf. vm_compute in Hf.
  repeat (destruct Hf as [<- | Hf]; [eexists; vm_compute; reflexivity|]).
  contradiction.
Defined.

Lemma classify_loop_frame (w : world)
    (l : list (str * json * api_result))
    (a a' r h a1 r1 h1 : list str) :
  forallb (fun x => negb (Behaviour.failed x)) l = true ->
  Packages.raising_loop (Packages.classify_body w) l (a, r, h)
  = Some (a1, r1, h1) ->
  Packages.raising_loop (Packages.classify_body w) l (a', r, h)
  = Some (a', r1, h1).
Proof.
  revert r h. induction l as [|[[n v] d] l IH]; intros r h;
    cbn [forallb Packages.raising_loop].
  - intros _ [= <- <- <-]. reflexivity.
  - unfold Behaviour.failed at 1. cbn [snd].
    destruct d as [m | d | ll]; cbn [negb andb Packages.classify_body];
      try discriminate.
    intros Hl. destruct (Packages.issues_of w d); apply IH; exact Hl.
Qed.

Lemma forallb_filter_id {A : Type} (f : A -> bool) (l : list A) :
  forallb f (filter f l) = true.
Proof.
  apply forallb_forall. intros x Hx. apply filter_In in Hx. tauto.
Qed.

(** X7.  A failed lookup touches nothing but its own line.  The loop
    over the fetch results adds to [all_results] one "could not fetch"
    line for each failed lookup, in the order of the packages, and its
    risky and healthy lists are the ones it builds from the fetch
    results with the failed lookups taken out. *)
Theorem failed_fetch_isolated (w : world)
    (fetched : list (str * json * api_result))
    (all_results risky healthy all_results' risky' healthy' : list str) :
  Packages.raising_loop (Packages.classify_body w) fetched
    (all_results, risky, healthy) = Some (all_results', risky', healthy') ->
  all_results'
  = all_results
    ++ map Behaviour.could_not_fetch (filter Behaviour.failed fetched)
  /\ Packages.raising_loop (Packages.classify_body w)
       (filter (fun r => negb (Behaviour.failed r)) fetched)
       (all_results, risky, healthy)
     = Some (all_results, risky', healthy').
Proof.
  revert all_results risky healthy.
  induction fetched as [|[[name version] data] fetched IH];
    intros all_results risky healthy; cbn [Packages.raising_loop].
  - intros [= <- <- <-]. rewrite app_nil_r. split; reflexivity.
  - cbn [filter]. destruct data as [msg | d | l].
    + change (Behaviour.failed (name, version, ApiError msg)) with true.
      cbn [Packages.classify_body negb]. intros Hloop.
      apply IH in Hloop. destruct Hloop as [-> Hrest]. split.
      * cbn [map]. unfold Behaviour.could_not_fetch at 1. cbn [fst].
        rewrite <- app_assoc. reflexivity.
      * eapply classify_loop_frame; [apply forallb_filter_id | exact Hrest].
    + change (Behaviour.failed (name, version, ApiDict d)) with false.
      cbn [negb Packages.raising_loop Packages.classify_body].
      destruct (Packages.issues_of w d); cbv iota beta; apply IH.
    + cbn [Packages.classify_body]. discriminate.
Qed.

Lemma failed_fetch_isolated_witness :
  [py "  ? jest — could not fetch info"]
  = [] ++ map Behaviour.could_not_fetch
            (filter Behaviour.failed
               [(py "express", JStr (py "^4.18.2"), ApiDict Sample.express);
                (py "jest", JStr (py ">=29"), ApiError Sample.not_found);
                (py "left-pad", JStr (py "1.3.0"),
                 ApiDict Sample.left_pad)])
  /\ Packages.raising_loop (Packages.classify_body Sample.w)
       (filter (fun r => negb (Behaviour.failed r))
          [(py "express", JStr (py "^4.18.2"), ApiDict Sample.express);
           (py "jest", JStr (py ">=29"), ApiError Sample.not_found);
           (py "left-pad", JStr (py "1.3.0"), ApiDict Sample.left_pad)])
       ([], [], [])
     = Some ([],
             [py "  [!] left-pad 1.3.0 — DEPRECATED, no release in 82mo, "
              ++ py "< 2 contributors"],
             [py "  [ok] express ^4.18.2"]).
Proof.
  apply (failed_fetch_isolated Sample.w
           [(py "express", JStr (py "^4.18.2"), ApiDict Sample.express);
            (py "jest", JStr (py ">=29"), ApiError Sample.not_found);
            (py "left-pad", JStr (py "1.3.0"), ApiDict Sample.left_pad)]
           [] [] []).
  vm_compute. reflexivity.
Defined.

(** ** Repository or package: the shape of a name *)

Lemma dropwhile_stop (p : ascii -> bool) (a : str) (c : ascii) (r : str) :
  forallb p a = true -> p c = false -> dropwhile p (a ++ c :: r) = c :: r.
Proof.
  induction a as [|x a IH]; simpl; intros Ha Hc.
  - rewrite Hc. reflexivity.
  - apply andb_true_iff in Ha. destruct Ha as [-> Ha]. apply IH; assumption.
Qed.

Lemma match_slug_iff (name : str) :
  Combined.match_slug name = true <-> Behaviour.slug_shape name.
Proof.
  unfold Combined.match_slug, Behaviour.slug_shape. split.
  - destruct (dropwhile_suffix Combined.is_slug_char name) as (owner & Hn & Ho).
    destruct (dropwhile Combined.is_slug_char name) as [|c rest];
      [discriminate|].
    intros H. rewrite !andb_true_iff in H.
    destruct H as [[[Hc Hlen] Hrest] Hall].
    destruct (ascii_dec c "/") as [->|]; [|discriminate].
    exists owner, rest. split; [exact Hn|].
    apply negb_true_iff, Nat.eqb_neq in Hlen.
    apply negb_true_iff, Nat.eqb_neq in Hrest.
    repeat split; try assumption.
    + intros ->. apply Hlen. rewrite Hn at 1. reflexivity.
    + intros ->. apply Hrest. reflexivity.
  - intros (owner & repo & -> & Ho & Hr & Hao & Har).
    rewrite dropwhile_stop by (assumption || reflexivity).
    destruct (ascii_dec "/" "/") as [_|N]; [|congruence].
    rewrite Har, length_app. cbn [length andb].
    destruct owner; [congruence|]. destruct repo; [congruence|].
    cbn [length]. rewrite !andb_true_iff. repeat split.
    + apply negb_true_iff, Nat.eqb_neq. lia.
Qed.

(** X8.  [_is_repo] takes a name for a repository exactly when, once
    stripped, it holds the text "github.com" or has the shape
    [owner/name]: two non-empty runs of word characters, dots and
    hyphens around one slash.  So a name without a slash, or with two,
    or with a character outside that class, is a package name unless it
    mentions github.com. *)
Theorem is_repo_iff (name : str) :
  Combined._is_repo name = true
  <-> (Spec.occurs (py "github.com") (strip name)
       \/ Behaviour.slug_shape (strip name)).
Proof.
  unfold Combined._is_repo.
  destruct (contains (py "github.com") (strip name)) eqn:E.
  - apply contains_iff in E. split; [auto | reflexivity].
  - rewrite match_slug_iff. split; [auto|].
    intros [H | H]; [|exact H].
    apply contains_iff in H. congruence.
Qed.

Example is_repo_samples :
  map Combined._is_repo
    [py "expressjs/express"; py " fastify/fastify "; py "express";
     py "a/b/c"; py "/b"; py "a/"; py "my repo/x";
     py "https://github.com/a/b.git"]
  = [true; true; false; false; false; false; false; true].
Proof. vm_compute. reflexivity. Qed.

(** ** The age of a release *)

(** X9.  For a timestamp with an offset that is not in the future, the
    months of [_months_since] are never negative and count whole
    periods of 30 days: a result [m] says the release is at least
    [30 m] days and less than [30 (m + 1)] days old.  A release of the
    last 30 days has 0 months. *)
Theorem months_since_past (w : world) (s : str) (dt : datetime) (off : Z) :
  s <> [] ->
  fromisoformat w (replace (py "Z") (py "+00:00") s) = Some dt ->
  tzinfo dt = Some off ->
  (Calendar.wall_us dt - off <= now w)%Z ->
  exists m : Z,
    Packages._months_since w s = Some m
    /\ (0 <= m)%Z
    /\ (m * (30 * 86400000000) <= now w - (Calendar.wall_us dt - off)
        < (m + 1) * (30 * 86400000000))%Z.
Proof.
  intros Hs Hp Ht Hpast.
  rewrite (months_since_aware_eq w s dt off Hs Hp Ht).
  eexists. split; [reflexivity|].
  unfold Calendar.utc_us.
  set (age := (now w - (Calendar.wall_us dt - off))%Z).
  assert (Hage : (0 <= age)%Z) by (unfold age; lia).
  pose proof (timedelta_days_bounds age) as Hd.
  set (days := Calendar.timedelta_days age) in *.
  assert (Hdays : (0 <= days)%Z) by nia.
  unfold Calendar.int_div30. rewrite Z.quot_div_nonneg by lia.
  pose proof (Z.div_mod days 30 ltac:(lia)) as Hdm.
  pose proof (Z.mod_pos_bound days 30 ltac:(lia)) as Hmb.
  assert (Hq : (0 <= days / 30)%Z) by (apply Z.div_pos; lia).
  split; [exact Hq|]. nia.
Qed.

Lemma months_since_past_witness :
  exists m : Z,
    Packages._months_since Sample.w (py "2024-11-20T08:00:00+00:00") = Some m
    /\ (0 <= m)%Z
    /\ (m * (30 * 86400000000)
        <= now Sample.w
           - (Calendar.wall_us
                {| year := 2024; month := 11; day := 20; hour := 8;
                   minute := 0; second := 0; microsecond := 0;
                   tzinfo := Some 0%Z |} - 0)
        < (m + 1) * (30 * 86400000000))%Z.
Proof.
  apply (months_since_past Sample.w (py "2024-11-20T08:00:00+00:00")).
  - discriminate.
  - vm_compute. reflexivity.
  - reflexivity.
  - vm_compute. discriminate.
Defined.

(** ** The shape of a search term *)

Lemma lower_char_idem (c : ascii) : lower_char (lower_char c) = lower_char c.
Proof.
  destruct c as [[] [] [] [] [] [] [] []]; vm_compute; reflexivity.
Qed.

Lemma split_ws_go_chars (cur s : str) :
  Forall (fun t => forall c, In c t -> In c cur \/ In c s)
    (split_ws_go cur s).
Proof.
  revert cur. induction s as [|a s IH]; intros cur; simpl.
  - destruct cur as [|x cur]; constructor; [|constructor].
    intros c Hc. left. apply in_rev. exact Hc.
  - destruct (isspace a).
    + assert (Htail : Forall (fun t => forall c, In c t ->
                                 In c cur \/ In c (a :: s))
                        (split_ws_go [] s)).
      { eapply Forall_impl; [|apply (IH [])].
        intros t Ht c Hc. destruct (Ht c Hc) as [[] | H].
        right. right. exact H. }
      destruct cur as [|x cur]; [exact Htail|].
      constructor; [|exact Htail].
      intros c Hc. left. apply in_rev. exact Hc.
    + eapply Forall_impl; [|apply (IH (a :: cur))].
      intros t Ht c Hc. destruct (Ht c Hc) as [[<- | H] | H].
      * right. left. reflexivity.
      * left. exact H.
      * right. right. exact H.
Qed.

(** The characters of a token are characters of the text. *)
Lemma split_ws_chars (s t : str) (c : ascii) :
  In t (split_ws s) -> In c t -> In c s.
Proof.
  intros Ht Hc. pose proof (split_ws_go_chars [] s) as H.
  rewrite Forall_forall in H. destruct (H t Ht c Hc) as [[] | Hin].
  exact Hin.
Qed.

Lemma in_firstn {A : Type} (n : nat) (l : list A) (x : A) :
  In x (firstn n l) -> In x l.
Proof.
  intros H. rewrite <- (firstn_skipn n l). apply in_or_app. left. exact H.
Qed.

Lemma lower_fixed (k : str) :
  (forall c, In c k -> lower_char c = c) -> lower k = k.
Proof.
  unfold lower. induction k as [|a k IH]; intros H; [reflexivity|].
  simpl. rewrite (H a (or_introl eq_refl)). f_equal.
  apply IH. intros c Hc. apply H. right. exact Hc.
Qed.

(** X10.  A search term is of one of two kinds.  Either it is made of
    one to three keywords joined by single spaces, each keyword
    lowercase, of three characters or more, no stopword, without
    whitespace, question mark or comma; or no word of the question is
    such a keyword and the term is the first token of the question as it
    was typed. *)
Theorem search_term_shape (question term : str) :
  Github.extract_search_term question = Some term ->
  (exists kws,
      kws <> [] /\ length kws <= 3
      /\ Forall Behaviour.keyword kws
      /\ term = join (py " ") kws)
  \/ (hd_error (split_ws question) = Some term /\ Behaviour.token term).
Proof.
  unfold Github.extract_search_term. rewrite strip_punctuation.
  set (text := filter _ (lower question)).
  set (keep := fun w : str => negb (mem w Github.stopwords) && _).
  destruct (filter keep (split_ws text)) as [|k ks] eqn:E.
  - intros H. right. split; [exact H|].
    pose proof (split_ws_tokens question) as Htok.
    destruct (split_ws question) as [|t rest]; [discriminate|].
    injection H as <-. inversion Htok; assumption.
  - intros [= <-]. left. exists (firstn 3 (k :: ks)).
    split; [discriminate|]. split; [rewrite length_firstn; lia|].
    split; [|reflexivity].
    apply Forall_forall. intros x Hx. apply in_firstn in Hx.
    rewrite <- E in Hx. apply filter_In in Hx. destruct Hx as [Hin Hk].
    unfold keep in Hk. apply andb_true_iff in Hk. destruct Hk as [Hs Hl].
    apply negb_true_iff in Hs. apply Nat.ltb_lt in Hl.
    assert (Hchars : forall c, In c x ->
              (exists c0, c = lower_char c0)
              /\ Spec.is_punctuation c = false).
    { intros c Hc. apply (split_ws_chars text x c Hin) in Hc.
      unfold text in Hc. apply filter_In in Hc. destruct Hc as [Hc Hp].
      apply negb_true_iff in Hp. split; [|exact Hp].
      unfold lower in Hc. apply in_map_iff in Hc.
      destruct Hc as (c0 & <- & _). exists c0. reflexivity. }
    pose proof (split_ws_tokens text) as Htok.
    rewrite Forall_forall in Htok.
    repeat split.
    + lia.
    + exact Hs.
    + apply (Htok x Hin).
    + apply (Htok x Hin).
    + apply lower_fixed. intros c Hc.
      destruct (Hchars c Hc) as [[c0 ->] _]. apply lower_char_idem.
    + intros Hc. destruct (Hchars _ Hc) as [_ Hp]. discriminate.
    + intros Hc. destruct (Hchars _ Hc) as [_ Hp]. discriminate.
Qed.

Lemma search_term_shape_witness :
  (exists kws,
      kws <> [] /\ length kws <= 3
      /\ Forall Behaviour.keyword kws
      /\ py "jwt token validated" = join (py " ") kws)
  \/ (hd_error (split_ws
                  (py "Where is the JWT, token  validated and refreshed?"))
      = Some (py "jwt token validated")
      /\ Behaviour.token (py "jwt token validated")).
Proof.
  apply (search_term_shape
           (py "Where is the JWT, token  validated and refreshed?")).
  vm_compute. reflexivity.
Defined.

(** ** The HTTP wrappers under the tools *)

(** X11.  Without the registry credential no request is made, whatever
    the network would answer: [find_alternatives], [search_packages] and
    [get_package_info] return the one line naming the missing setting,
    and the dependency report writes "could not fetch info" for every
    package. *)
Theorem missing_credential (w : world)
    (requests_get :
       str -> list (str * str) -> Transport.http_result api_result) :
  let w' := with_registry w (Transport.registry_of [] requests_get) in
  (forall name language,
      Packages.find_alternatives w' name language
      = Some (py "Error: LIBRARIES_IO_API_KEY not set"))
  /\ (forall query language,
         PackageTools.search_packages w' query language
         = Some (py "Error: LIBRARIES_IO_API_KEY not set"))
  /\ (forall name platform,
         PackageTools.get_package_info w' name platform
         = Some (py "Error: LIBRARIES_IO_API_KEY not set"))
  /\ (forall all_results risky healthy platform name version,
         Packages.classify_body w' (all_results, risky, healthy)
           (Packages.fetch_package w' platform (name, version))
         = Some (all_results
                   ++ [py "  ? " ++ name ++ py " — could not fetch info"],
                 risky, healthy)).
Proof.
  intros w'. repeat split; intros; reflexivity.
Qed.

Lemma error_fetching_omitted (w : world) (repo f : str)
    (found : list (str * str)) (msg : str) :
  In f Github.package_files ->
  _get w (Spec.contents_endpoint repo f) = RespError msg ->
  Github.get_package_files w repo = Some found ->
  dict_get f found = None.
Proof.
  intros Hin Hresp Hfound. unfold Github.get_package_files in Hfound.
  apply (package_files_loop_lookup _ _ _ package_files_nodup) in Hfound.
  destruct Hfound as [_ Hb]. destruct (Hb f Hin) as (c & Hc & Hget).
  unfold Github.get_file_content in Hc.
  fold (Spec.contents_endpoint repo f) in Hc. rewrite Hresp in Hc.
  injection Hc as <-. exact Hget.
Qed.

(** X12.  A manifest whose request is not answered with the status 200
    (a 404, any other status, an exception of the transport) is left out
    of the mapping of [get_package_files]. *)
Theorem failed_request_omitted (w : world)
    (requests_get :
       str -> list (str * str) -> Transport.http_result response)
    (repo f : str) (found : list (str * str)) :
  In f Github.package_files ->
  Behaviour.answered_200
    (requests_get (Transport.GITHUB_BASE ++ py "/"
                   ++ Spec.contents_endpoint repo f) []) = false ->
  Github.get_package_files
    (with_hosting w (Transport.hosting_of requests_get)) repo
  = Some found ->
  dict_get f found = None.
Proof.
  intros Hin Hans Hfound.
  assert (Hresp : exists msg,
             Transport.hosting_of requests_get
               (Spec.contents_endpoint repo f) = RespError msg).
  { unfold Transport.hosting_of, Transport._get.
    unfold Behaviour.answered_200 in Hans.
    destruct (requests_get _ []) as [status text body | message].
    - rewrite Hans. eexists. reflexivity.
    - eexists. reflexivity. }
  destruct Hresp as [msg Hmsg].
  apply (error_fetching_omitted
           (with_hosting w (Transport.hosting_of requests_get))
           repo f found msg Hin); [exact Hmsg | exact Hfound].
Qed.

(** ** The manifest properties on concrete inputs *)

Lemma package_json_damaged_witness :
  Packages._extract_packages Fixtures.w (py "package.json")
    (py "// manifest" ++ newline ++ Fixtures.damaged_text)
  = [(py "express", JStr (py "^4.18.2"))].
Proof.
  apply (proj1 (proj2 (proj2 (package_json_damaged Fixtures.w
                                (py "// manifest" ++ newline)
                                (tl Fixtures.damaged_text)
                                ltac:(vm_compute; intuition discriminate))))
           Fixtures.damaged_object
           [(py "express", JStr (py "^4.18.2"))] (JArr [])).
  - vm_compute. reflexivity.
  - left. reflexivity.
  - reflexivity.
  - intros items. discriminate.
Defined.

Lemma cargo_refs_witness :
  Packages._extract_packages Sample.w (py "Cargo.toml") Fixtures.cargo_plain
  = [].
Proof.
  apply (proj1 (cargo_refs Sample.w Fixtures.cargo_plain)).
  vm_compute. reflexivity.
Defined.

Example cargo_sample :
  Packages._extract_packages Sample.w (py "Cargo.toml") Fixtures.cargo_toml
  = [(py "serde", JStr (py "1.0"));
     (py "tokio", JStr (py "{ version = " ++ Sample.dq ++ py "1"
                        ++ Sample.dq ++ py " }"))].
Proof. vm_compute. reflexivity. Qed.

Lemma failed_request_omitted_witness :
  dict_get (py "requirements.txt")
    [(py "package.json", Sample.package_json)] = None.
Proof.
  apply (failed_request_omitted Sample.w Fixtures.requests_get
           (py "acme/app") (py "requirements.txt")).
  - vm_compute. auto.
  - vm_compute. reflexivity.
  - vm_compute. reflexivity.
Defined.

(** ** The file tree and the list of files *)

Lemma blob_paths_spec (tree : list Hosting.tree_item) (paths : list str) :
  Hosting.blob_paths tree = Some paths ->
  paths = map (fun item => default [] (Hosting.ti_path item))
            (filter Behaviour.is_blob tree).
Proof.
  revert paths. induction tree as [|item tree IH]; intros paths;
    cbn [Hosting.blob_paths filter map].
  - intros [= <-]. reflexivity.
  - unfold Behaviour.is_blob at 1.
    destruct (Hosting.ti_type item) as [type|]; [|discriminate].
    destruct (str_eqb type (py "blob")); [|apply IH].
    destruct (Hosting.ti_path item) as [path|] eqn:Ep; [|discriminate].
    destruct (Hosting.blob_paths tree) as [rest|]; [|discriminate].
    intros [= <-]. cbn [map]. rewrite Ep. cbn [default].
    f_equal. apply IH. reflexivity.
Qed.

Lemma blob_paths_total (tree : list Hosting.tree_item) :
  Forall Behaviour.well_formed_item tree ->
  exists paths, Hosting.blob_paths tree = Some paths.
Proof.
  induction 1 as [|item tree (type & Ht & Hp) _ (rest & IH)];
    cbn [Hosting.blob_paths].
  - eexists. reflexivity.
  - rewrite Ht. destruct (str_eqb type (py "blob")) eqn:E.
    + apply str_eqb_eq in E. specialize (Hp E).
      destruct (Hosting.ti_path item); [|congruence].
      rewrite IH. eexists. reflexivity.
    + rewrite IH. eexists. reflexivity.
Qed.

(** X13.  [get_repo_tree] falls back on the branch master: when the
    request for the branch fails it returns what the call for master
    returns, and the empty list when that fails too.  From a tree whose
    entries have their type, and their path when they are blobs, it
    returns the paths of the blobs and nothing else, in the order of the
    tree. *)
Theorem repo_tree_fallback
    (_get : str -> list (str * str) -> str + Hosting.tree_data)
    (repo branch : str) :
  (forall e,
      _get (Hosting.tree_endpoint repo branch) [(py "recursive", py "1")]
      = inl e ->
      Hosting.get_repo_tree _get repo branch
      = Hosting.get_repo_tree _get repo (py "master"))
  /\ (forall e e',
         _get (Hosting.tree_endpoint repo branch) [(py "recursive", py "1")]
         = inl e ->
         _get (Hosting.tree_endpoint repo (py "master"))
           [(py "recursive", py "1")] = inl e' ->
         Hosting.get_repo_tree _get repo branch = Some [])
  /\ (forall tree,
         _get (Hosting.tree_endpoint repo branch) [(py "recursive", py "1")]
         = inr (Hosting.TreeDict tree) ->
         Forall Behaviour.well_formed_item tree ->
         Hosting.get_repo_tree _get repo branch
         = Some (map (fun item => default [] (Hosting.ti_path item))
                   (filter Behaviour.is_blob tree))).
Proof.
  split; [|split].
  - intros e He. unfold Hosting.get_repo_tree. rewrite He.
    destruct (_get (Hosting.tree_endpoint repo (py "master")) _) eqn:Em;
      reflexivity.
  - intros e e' He Hm. unfold Hosting.get_repo_tree. rewrite He, Hm.
    reflexivity.
  - intros tree Ht Hwf. unfold Hosting.get_repo_tree. rewrite Ht.
    destruct (blob_paths_total tree Hwf) as [paths Hp]. rewrite Hp.
    f_equal. apply blob_paths_spec. exact Hp.
Qed.

Lemma repo_tree_fallback_witness :
  Hosting.get_repo_tree Fixtures.tree_get (py "acme/app") (py "main")
  = Hosting.get_repo_tree Fixtures.tree_get (py "acme/app") (py "master")
  /\ Hosting.get_repo_tree Fixtures.tree_get (py "acme/app") (py "master")
     = Some (map (fun item => default [] (Hosting.ti_path item))
               (filter Behaviour.is_blob
                  [Fixtures.blob "README.md"; Fixtures.folder "src";
                   Fixtures.blob "src/app.py"; Fixtures.blob "src/util.py";
                   Fixtures.blob "src/app.pyc"; Fixtures.blob "setup.cfg"])).
Proof.
  split.
  - apply (proj1 (repo_tree_fallback Fixtures.tree_get (py "acme/app")
                    (py "main")) (py "GitHub API 404: Not Found")).
    vm_compute. reflexivity.
  - apply (proj2 (proj2 (repo_tree_fallback Fixtures.tree_get
                           (py "acme/app") (py "master")))).
    + vm_compute. reflexivity.
    + repeat constructor; eexists; (split; [reflexivity|]);
        intros _; discriminate.
Defined.

Lemma endswith_iff (suffix s : str) :
  Codebase.endswith suffix s = true <-> exists stem, s = stem ++ suffix.
Proof.
  unfold Codebase.endswith. rewrite startswith_iff. split.
  - intros [t Ht]. exists (rev t).
    apply (f_equal (@rev ascii)) in Ht.
    rewrite rev_involutive, rev_app_distr, rev_involutive in Ht. exact Ht.
  - intros [stem ->]. exists (rev stem). apply rev_app_distr.
Qed.

(** X14.  [list_files] reads an extension with or without its dot: "py"
    and ".py" give the same answer, and the empty extension is no
    filter.  When the tree of the repository is not empty, the text it
    returns for an extension counts the files that end with the dotted
    extension, and shows the first 50 of them in the order of the tree;
    a last line tells how many were left out, and is there exactly when
    there are more than 50. *)
Theorem list_files_extension (w : world)
    (_get : str -> list (str * str) -> str + Hosting.tree_data)
    (repo : str) :
  (forall ext,
      ext <> [] -> startswith (py ".") ext = false ->
      Codebase.list_files w _get repo (Some ext)
      = Codebase.list_files w _get repo (Some (py "." ++ ext)))
  /\ Codebase.list_files w _get repo (Some [])
     = Codebase.list_files w _get repo None
  /\ (forall info files ext,
         Github.get_repo_info w repo = Some info ->
         Hosting.get_repo_tree _get repo (Behaviour.branch_of info)
         = Some files ->
         files <> [] -> ext <> [] ->
         exists kept trailer,
           kept = filter (Codebase.endswith (Codebase.dotted ext)) files
           /\ (forall f,
                  In f kept
                  <-> In f files
                      /\ exists stem, f = stem ++ Codebase.dotted ext)
           /\ Codebase.list_files w _get repo (Some ext)
              = Codebase.Text
                  (join newline
                     ((py "Files in '" ++ repo ++ py "' ("
                       ++ str_of_Z (Z.of_nat (length kept))
                       ++ py " total):" ++ newline)
                      :: map (fun f => py "  " ++ f) (firstn 50 kept)
                      ++ trailer))
           /\ (length kept <= 50 -> trailer = [])
           /\ (50 < length kept ->
               trailer
               = [newline ++ py "  ... and "
                  ++ str_of_Z (Z.of_nat (length kept) - 50)
                  ++ py " more"])).
Proof.
  split; [|split; [reflexivity|]].
  - intros ext Hne Hdot. unfold Codebase.list_files.
    destruct ext as [|c ext]; [congruence|].
    assert (E : Codebase.dotted (c :: ext)
                = Codebase.dotted (py "." ++ c :: ext)).
    { unfold Codebase.dotted. rewrite Hdot. reflexivity. }
    cbn [app py list_ascii_of_string]. cbn [app py list_ascii_of_string] in E.
    rewrite E. reflexivity.
  - intros info files ext Hinfo Htree Hfiles Hext.
    set (kept := filter (Codebase.endswith (Codebase.dotted ext)) files).
    assert (Hlist : Codebase.list_files w _get repo (Some ext)
                    = Codebase.Text
                        (join newline (Codebase.files_lines repo kept))).
    { unfold Codebase.list_files. rewrite Hinfo.
      change (match info with
              | inl _ => py "main"
              | inr info0 => opt_str (Github.ri_default_branch info0)
              end) with (Behaviour.branch_of info).
      rewrite Htree.
      destruct files as [|f files]; [congruence|].
      destruct ext as [|c ext]; [congruence|]. reflexivity. }
    assert (Hin : forall f,
               In f kept
               <-> In f files
                   /\ exists stem, f = stem ++ Codebase.dotted ext).
    { intros f. unfold kept. rewrite filter_In, endswith_iff. tauto. }
    unfold Codebase.files_lines in Hlist.
    destruct (Nat.ltb_spec 50 (length kept)) as [Hgt|Hle].
    + exists kept. eexists. split; [reflexivity|]. split; [exact Hin|].
      split; [rewrite Hlist, <- app_assoc; reflexivity|].
      split; [lia | reflexivity].
    + exists kept, []. split; [reflexivity|]. split; [exact Hin|].
      split; [rewrite Hlist, app_nil_r; reflexivity|].
      split; [reflexivity | lia].
Qed.

Lemma list_files_extension_witness :
  Codebase.list_files Sample.w Fixtures.tree_get (py "acme/app")
    (Some (py "py"))
  = Codebase.list_files Sample.w Fixtures.tree_get (py "acme/app")
      (Some (py "." ++ py "py"))
  /\ exists kept trailer,
       kept = filter (Codebase.endswith (Codebase.dotted (py "py")))
                [py "README.md"; py "src/app.py"; py "src/util.py";
                 py "src/app.pyc"; py "setup.cfg"]
       /\ (forall f,
              In f kept
              <-> In f [py "README.md"; py "src/app.py"; py "src/util.py";
                        py "src/app.pyc"; py "setup.cfg"]
                  /\ exists stem, f = stem ++ Codebase.dotted (py "py"))
       /\ Codebase.list_files Sample.w Fixtures.tree_get (py "acme/app")
            (Some (py "py"))
          = Codebase.Text
              (join newline
                 ((py "Files in '" ++ py "acme/app" ++ py "' ("
                   ++ str_of_Z (Z.of_nat (length kept))
                   ++ py " total):" ++ newline)
                  :: map (fun f => py "  " ++ f) (firstn 50 kept)
                  ++ trailer))
       /\ (length kept <= 50 -> trailer = [])
       /\ (50 < length kept ->
           trailer
           = [newline ++ py "  ... and "
              ++ str_of_Z (Z.of_nat (length kept) - 50) ++ py " more"]).
Proof.
  split.
  - apply (proj1 (list_files_extension Sample.w Fixtures.tree_get
                    (py "acme/app")) (py "py")).
    + discriminate.
    + reflexivity.
  - apply (proj2 (proj2 (list_files_extension Sample.w Fixtures.tree_get
                           (py "acme/app")))
             (inl (py "GitHub API 404: Not Found"))).
    + vm_compute. reflexivity.
    + vm_compute. reflexivity.
    + discriminate.
    + discriminate.
Defined.

Example list_files_sample :
  Codebase.list_files Sample.w Fixtures.tree_get (py "acme/app")
    (Some (py "py"))
  = Codebase.Text
      (py "Files in 'acme/app' (2 total):" ++ newline ++ newline
       ++ py "  src/app.py" ++ newline ++ py "  src/util.py").
Proof. vm_compute. reflexivity. Qed.

(** ** Questions on a repository *)

Lemma search_term_blank (question : str) :
  forallb isspace question = true ->
  Github.extract_search_term question = None.
Proof.
  intros Hblank. unfold Github.extract_search_term.
  rewrite strip_punctuation, split_ws_blank.
  - cbn [filter]. rewrite (split_ws_blank question Hblank). reflexivity.
  - apply forallb_forall. intros c Hc. apply filter_In in Hc.
    destruct Hc as [Hc _]. unfold lower in Hc. apply in_map_iff in Hc.
    destruct Hc as (c0 & <- & Hc0). rewrite isspace_lower_char.
    rewrite forallb_forall in Hblank. apply Hblank. exact Hc0.
Qed.

(** X15.  How [ask_repo] fails.  On a question that is empty or made of
    whitespace it ends in its handler, whatever the hosting API would
    answer.  When the code search fails, its error is passed on in the
    line "Could not search repo"; a search without a hit gives the same
    line with "No results". *)
Theorem ask_repo_failures (w : world)
    (_get : str -> list (str * str) -> str + Hosting.code_search)
    (question repo : str) :
  (forallb isspace question = true ->
   Codebase.ask_repo w _get question repo = Codebase.Raised)
  /\ (forall term error,
         Github.extract_search_term question = Some term ->
         _get (py "search/code") (Behaviour.code_query repo term)
         = inl error ->
         Codebase.ask_repo w _get question repo
         = Codebase.Text
             (py "Could not search repo '" ++ repo ++ py "': " ++ error))
  /\ (forall term,
         Github.extract_search_term question = Some term ->
         _get (py "search/code") (Behaviour.code_query repo term)
         = inr (Hosting.SearchDict []) ->
         Codebase.ask_repo w _get question repo
         = Codebase.Text
             (py "Could not search repo '" ++ repo ++ py "': No results")).
Proof.
  split; [|split].
  - intros Hblank. unfold Codebase.ask_repo.
    rewrite (search_term_blank question Hblank). reflexivity.
  - intros term error Ht Hg. unfold Codebase.ask_repo, Hosting.search_code.
    rewrite Ht. unfold Behaviour.code_query in Hg. rewrite Hg. reflexivity.
  - intros term Ht Hg. unfold Codebase.ask_repo, Hosting.search_code.
    rewrite Ht. unfold Behaviour.code_query in Hg. rewrite Hg. reflexivity.
Qed.

Lemma ask_repo_failures_witness :
  Codebase.ask_repo Sample.w Fixtures.search_get (py "  ") (py "acme/app")
  = Codebase.Raised
  /\ Codebase.ask_repo Sample.w (fun _ _ => inl (py "GitHub API 403: limit"))
       (py "Where is the parser?") (py "acme/app")
     = Codebase.Text
         (py "Could not search repo 'acme/app': GitHub API 403: limit").
Proof.
  split.
  - apply (proj1 (ask_repo_failures Sample.w Fixtures.search_get (py "  ")
                    (py "acme/app"))).
    reflexivity.
  - apply (proj1 (proj2 (ask_repo_failures Sample.w
                           (fun _ _ => inl (py "GitHub API 403: limit"))
                           (py "Where is the parser?") (py "acme/app")))
             (py "parser")).
    + vm_compute. reflexivity.
    + reflexivity.
Defined.

Lemma truncated_length (content : str) :
  length (Codebase.truncated content) <= 3016
  /\ (length content <= 3000 -> Codebase.truncated content = content)
  /\ firstn 3000 (Codebase.truncated content) = firstn 3000 content.
Proof.
  unfold Codebase.truncated.
  destruct (Nat.ltb_spec 3000 (length content)) as [Hgt|Hle].
  - split; [|split].
    + rewrite !length_app, length_firstn.
      change (length newline) with 1.
      change (length (py "... (truncated)")) with 15. lia.
    + lia.
    + rewrite firstn_app, length_firstn.
      replace (3000 - Nat.min 3000 (length content)) with 0 by lia.
      rewrite firstn_firstn, firstn_O, app_nil_r.
      replace (Nat.min 3000 3000) with 3000 by lia. reflexivity.
  - split; [lia|]. split; reflexivity.
Qed.

Lemma context_parts_hits (w : world) (repo : str)
    (items : list Hosting.code_item) :
  (forall item,
      In item items ->
      Github.get_file_content w repo (opt_str (Hosting.ci_path item))
      <> None) ->
  exists parts,
    Codebase.context_parts w repo
      (map (fun item => inr (Behaviour.hit_of item)) items) = Some parts
    /\ Forall2 (Behaviour.context_part w repo) items parts.
Proof.
  induction items as [|item items IH]; intros Hall.
  - exists []. split; [reflexivity | constructor].
  - destruct IH as (parts & Hp & Hf).
    { intros i Hi. apply Hall. right. exact Hi. }
    cbn [map Codebase.context_parts].
    change (Hosting.file_path (Behaviour.hit_of item))
      with (Hosting.ci_path item).
    destruct (Github.get_file_content w repo
                (opt_str (Hosting.ci_path item))) as [content|] eqn:Ec.
    + rewrite Hp. eexists. split; [reflexivity|].
      constructor; [|exact Hf]. exists content. split; [exact Ec|reflexivity].
    + exfalso. apply (Hall item); [left; reflexivity | exact Ec].
Qed.

(** X16.  The context [ask_repo] returns.  When the search has hits and
    the content of each of the first four can be read, the answer holds
    one part for each of the first four hits and no other, in the order
    of the search: the path of the hit, a rule, and the text
    [get_file_content] gives for the path (also when that text is the
    line of a failed request), cut after 3000 characters.  A part never
    shows more than 3016 characters of a file. *)
Theorem ask_repo_context (w : world)
    (_get : str -> list (str * str) -> str + Hosting.code_search)
    (question repo term : str) (items : list Hosting.code_item) :
  Github.extract_search_term question = Some term ->
  _get (py "search/code") (Behaviour.code_query repo term)
  = inr (Hosting.SearchDict items) ->
  items <> [] ->
  (forall item,
      In item (firstn 4 items) ->
      Github.get_file_content w repo (opt_str (Hosting.ci_path item))
      <> None) ->
  exists parts,
    Codebase.ask_repo w _get question repo
    = Codebase.Text
        (py "Relevant code from '" ++ repo ++ py "' for: "
         ++ ["034"%char] ++ question ++ ["034"%char] ++ newline
         ++ py "Search term used: '" ++ term ++ py "'" ++ newline ++ newline
         ++ join (newline ++ newline) parts ++ newline ++ newline
         ++ py "Use the above code to answer the question "
         ++ py "with exact file citations.")
    /\ Forall2 (Behaviour.context_part w repo) (firstn 4 items) parts
    /\ length parts = Nat.min 4 (length items)
    /\ (forall content, length (Codebase.truncated content) <= 3016).
Proof.
  intros Ht Hg Hne Hall.
  destruct (context_parts_hits w repo (firstn 4 items) Hall)
    as (parts & Hp & Hf).
  exists parts. split; [|split; [exact Hf|split]].
  - unfold Codebase.ask_repo, Hosting.search_code. rewrite Ht.
    unfold Behaviour.code_query in Hg. rewrite Hg.
    destruct items as [|item items]; [congruence|].
    cbn [map].
    match goal with
    | |- context [firstn 4 ?l] =>
        change l
          with (map (fun i => @inr str Hosting.search_hit
                                (Behaviour.hit_of i)) (item :: items))
    end.
    rewrite firstn_map, Hp. reflexivity.
  - apply Forall2_length in Hf. rewrite <- Hf. apply length_firstn.
  - intros content. apply truncated_length.
Qed.

Lemma ask_repo_context_witness :
  exists parts,
    Codebase.ask_repo Sample.w Fixtures.search_get
      (py "Where is the parser?") (py "acme/app")
    = Codebase.Text
        (py "Relevant code from '" ++ py "acme/app" ++ py "' for: "
         ++ ["034"%char] ++ py "Where is the parser?" ++ ["034"%char]
         ++ newline
         ++ py "Search term used: '" ++ py "parser" ++ py "'" ++ newline
         ++ newline
         ++ join (newline ++ newline) parts ++ newline ++ newline
         ++ py "Use the above code to answer the question "
         ++ py "with exact file citations.")
    /\ Forall2 (Behaviour.context_part Sample.w (py "acme/app"))
         (firstn 4 [Fixtures.hit "package.json";
                    Fixtures.hit "requirements.txt";
                    Fixtures.hit "src/app.py"; Fixtures.hit "src/util.py";
                    Fixtures.hit "README.md"]) parts
    /\ length parts = Nat.min 4 5
    /\ (forall content, length (Codebase.truncated content) <= 3016).
Proof.
  apply (ask_repo_context Sample.w Fixtures.search_get
           (py "Where is the parser?") (py "acme/app") (py "parser")).
  - vm_compute. reflexivity.
  - reflexivity.
  - discriminate.
  - intros item Hin. cbn [firstn] in Hin.
    destruct Hin as [<-|[<-|[<-|[<-|[]]]]]; vm_compute; discriminate.
Defined.

(** ** The age of a release across the tools *)

Lemma flags_of_nil (w : world) (data : package_data) :
  PackageTools.flags_of w data = []
  <-> default false (pd_deprecated data) = false
      /\ forall m,
           Packages._months_since w
             (default [] (pd_latest_release_published_at data)) = Some m ->
           (m <= 12)%Z.
Proof.
  unfold PackageTools.flags_of. cbv zeta.
  destruct (default false (pd_deprecated data)).
  - split.
    + intros H. exfalso. revert H.
      destruct (Packages._months_since w _) as [m|];
        [destruct (12 <? m)%Z|]; discriminate.
    + intros [H _]. discriminate H.
  - destruct (Packages._months_since w _) as [m|].
    + destruct (Z.ltb_spec 12 m) as [Hgt|Hle].
      * split; [discriminate|]. intros [_ H].
        specialize (H m eq_refl). lia.
      * split; [|reflexivity]. intros _. split; [reflexivity|].
        intros m' [= <-]. exact Hle.
    + split; [|reflexivity]. intros _. split; [reflexivity|].
      intros m' H. discriminate H.
Qed.

Lemma issues_of_nil (w : world) (data : package_data) :
  Packages.issues_of w data = []
  <-> default false (pd_deprecated data) = false
      /\ (forall m,
             Packages._months_since w
               (default [] (pd_latest_release_published_at data)) = Some m ->
             (m <= 12)%Z)
      /\ (2 <= default 0 (pd_contributions_count data))%Z.
Proof.
  unfold Packages.issues_of. cbv zeta.
  destruct (Z.ltb_spec (default 0%Z (pd_contributions_count data)) 2)
    as [Hlt|Hge].
  - split; [|intros (_ & _ & H); lia]. intros H. exfalso. revert H.
    destruct (default false (pd_deprecated data));
      destruct (Packages._months_since w _) as [m|];
      try destruct (12 <? m)%Z; discriminate.
  - destruct (default false (pd_deprecated data)).
    + split; [|intros [H _]; discriminate H].
      intros H. exfalso. revert H.
      destruct (Packages._months_since w _) as [m|];
        try destruct (12 <? m)%Z; discriminate.
    + destruct (Packages._months_since w _) as [m|].
      * destruct (Z.ltb_spec 12 m) as [Hgt|Hle].
        -- split; [discriminate|]. intros (_ & H & _).
           specialize (H m eq_refl). lia.
        -- split; [|reflexivity]. intros _.
           split; [reflexivity|]. split; [|exact Hge].
           intros m' [= <-]. exact Hle.
      * split; [|reflexivity]. intros _.
        split; [reflexivity|]. split; [|exact Hge].
        intros m' H. discriminate H.
Qed.

(** A text that ends with a suffix ends with the last character of the
    suffix. *)
Lemma endswith_last (suffix s : str) (a b : ascii) :
  Codebase.endswith (suffix ++ [a]) (s ++ [b]) = true -> a = b.
Proof.
  intros H. apply endswith_iff in H. destruct H as [stem H].
  rewrite app_assoc in H. apply app_inj_tail in H. symmetry. apply H.
Qed.

(** The list of the flags, when it is not empty, does not end with the
    last letter of "Maintained". *)
Lemma flags_last (w : world) (data : package_data) :
  PackageTools.flags_of w data <> [] ->
  exists body c,
    join (py " | ") (PackageTools.flags_of w data) = body ++ [c]
    /\ c <> "d"%char.
Proof.
  unfold PackageTools.flags_of. cbv zeta.
  destruct (default false (pd_deprecated data));
    destruct (Packages._months_since w _) as [m|];
    try destruct (12 <? m)%Z; cbn [app join]; intros Hne;
    try congruence.
  - exists (py "DEPRECATED" ++ py " | " ++ py "No release in "
            ++ str_of_Z m ++ py " month"), "s"%char.
    split; [|discriminate]. rewrite <- !app_assoc. reflexivity.
  - exists (py "DEPRECATE"), "D"%char. split; [reflexivity|discriminate].
  - exists (py "DEPRECATE"), "D"%char. split; [reflexivity|discriminate].
  - exists (py "No release in " ++ str_of_Z m ++ py " month"), "s"%char.
    split; [|discriminate]. rewrite <- !app_assoc. reflexivity.
Qed.

(** X17.  Where the tools put the limit of a maintained package.  The
    text of [get_package_info] ends with "Status : Maintained" exactly
    for a package that is not deprecated and whose last release, when
    its age is known, is at most 12 months old.  The loop of
    [check_dependencies] writes the "[ok]" line exactly for such a
    package with two contributors or more.  [find_alternatives] puts
    the limit one month lower: a package released 12 months ago and not
    deprecated, "Maintained" for the first, is listed as "Outdated". *)
Theorem maintenance_thresholds (w : world) (data : package_data) :
  let months :=
    Packages._months_since w
      (default [] (pd_latest_release_published_at data)) in
  let deprecated := default false (pd_deprecated data) in
  (forall name platform,
      _api_get w (platform ++ py "/" ++ name) [] = ApiDict data ->
      dict_empty data = false ->
      exists text,
        PackageTools.get_package_info w name platform = Some text
        /\ (Codebase.endswith (py "Status       : Maintained") text = true
            <-> deprecated = false
                /\ forall m, months = Some m -> (m <= 12)%Z))
  /\ (forall all_results risky healthy name version,
         Packages.classify_body w (all_results, risky, healthy)
           (name, version, ApiDict data)
         = Some (all_results, risky,
                 healthy ++ [py "  [ok] " ++ name ++ py " "
                             ++ Packages.format_value w version])
         <-> deprecated = false
             /\ (forall m, months = Some m -> (m <= 12)%Z)
             /\ (2 <= default 0 (pd_contributions_count data))%Z)
  /\ (forall query language description,
         months = Some 12%Z ->
         default (Some []) (pd_description data) = Some description ->
         lower (default [] (pd_name data)) <> lower query ->
         _api_get w (py "search") (Packages.search_params query language)
         = ApiList [data] ->
         Packages.find_alternatives w query language
         = Some (join newline
                   [py "Alternatives to '" ++ query ++ py "':" ++ newline;
                    py "  " ++ opt_str (pd_name data) ++ py " ("
                    ++ default (py "?") (pd_platform data) ++ py ") — "
                    ++ py "Outdated" ++ newline
                    ++ py "    Stars: "
                    ++ format_commas (Packages.stars_key data)
                    ++ py " | Last release: " ++ py "12 months ago"
                    ++ newline
                    ++ py "    " ++ firstn 100 description])).
Proof.
  cbv zeta. split; [|split].
  - intros name platform Hget Hfull.
    unfold PackageTools.get_package_info. cbv zeta. rewrite Hget, Hfull.
    eexists. split; [reflexivity|].
    rewrite <- (flags_of_nil w data).
    match goal with
    | |- Codebase.endswith _ ?t = true <-> _ =>
        assert (Ht : exists prefix,
                   t = prefix ++ PackageTools.status_line w data)
          by (eexists; repeat rewrite app_assoc; reflexivity)
    end.
    destruct Ht as [prefix ->]. unfold PackageTools.status_line.
    destruct (PackageTools.flags_of w data) as [|f fs] eqn:Ef.
    + split; [reflexivity|]. intros _. apply endswith_iff.
      exists prefix. reflexivity.
    + split; [|discriminate]. intros H. exfalso.
      destruct (flags_last w data) as (body & c & Hj & Hc);
        [rewrite Ef; discriminate|].
      rewrite Ef in Hj. rewrite Hj in H.
      change (py "Status       : Maintained")
        with (py "Status       : Maintaine" ++ ["d"%char]) in H.
      rewrite !app_assoc in H. apply endswith_last in H. congruence.
  - intros all_results risky healthy name version.
    rewrite <- (issues_of_nil w data).
    unfold Packages.classify_body.
    destruct (Packages.issues_of w data) as [|issue rest].
    + split; reflexivity.
    + split; [|discriminate]. intros [= H]. exfalso.
      apply (f_equal (@length str)) in H.
      rewrite length_app in H. cbn [length] in H. lia.
  - intros query language description Hm Hd Hname Hget.
    unfold Packages.find_alternatives. cbv zeta. rewrite Hget.
    unfold Packages.alternatives_lines, Packages.alternatives_of.
    cbn [filter].
    destruct (str_eqb (lower (default [] (pd_name data))) (lower query))
      eqn:E; [apply str_eqb_eq in E; congruence|].
    cbn [negb Packages.sort_desc fold_right Packages.insert_desc firstn
         Packages.raising_map].
    unfold Packages.alternative_line. cbv zeta. rewrite Hm, Hd.
    reflexivity.
Qed.

Lemma maintenance_thresholds_witness :
  let data :=
    Sample.a_package "lodash" "NPM" 58000 300 "2024-01-01T00:00:00.000Z"
      false in
  let w :=
    with_registry Sample.w
      (fun endpoint _ =>
         if str_eqb endpoint (py "search") then ApiList [data]
         else ApiDict data) in
  (exists text,
      PackageTools.get_package_info w (py "lodash") (py "npm") = Some text
      /\ (Codebase.endswith (py "Status       : Maintained") text = true
          <-> default false (pd_deprecated data) = false
              /\ forall m,
                   Packages._months_since w
                     (default [] (pd_latest_release_published_at data))
                   = Some m ->
                   (m <= 12)%Z))
  /\ Packages.find_alternatives w (py "underscore") None
     = Some (join newline
               [py "Alternatives to '" ++ py "underscore" ++ py "':"
                ++ newline;
                py "  " ++ opt_str (pd_name data) ++ py " ("
                ++ default (py "?") (pd_platform data) ++ py ") — "
                ++ py "Outdated" ++ newline
                ++ py "    Stars: "
                ++ format_commas (Packages.stars_key data)
                ++ py " | Last release: " ++ py "12 months ago"
                ++ newline
                ++ py "    " ++ firstn 100 (py "A package.")]).
Proof.
  intros data w. split.
  - apply (proj1 (maintenance_thresholds w data) (py "lodash") (py "npm")).
    + reflexivity.
    + reflexivity.
  - apply (proj2 (proj2 (maintenance_thresholds w data))
             (py "underscore") None (py "A package.")).
    + vm_compute. reflexivity.
    + reflexivity.
    + vm_compute. discriminate.
    + reflexivity.
Defined.

Example get_package_info_sample :
  PackageTools.get_package_info
    (with_registry Sample.w (fun _ _ => ApiDict Sample.no_package))
    (py "ghost") (py "npm")
  = Some (py "Package 'ghost' not found on npm.").
Proof. vm_compute. reflexivity. Qed.

(** ** What a comparison asks for *)

Lemma months_since_frame (w w' : world) (s : str) :
  now w = now w' ->
  (forall t, fromisoformat w t = fromisoformat w' t) ->
  Packages._months_since w s = Packages._months_since w' s.
Proof.
  intros Hnow Hiso. unfold Packages._months_since.
  destruct s as [|c s]; [reflexivity|]. rewrite Hiso, Hnow. reflexivity.
Qed.

Lemma package_snapshot_frame (w w' : world) (name platform : str) :
  now w = now w' ->
  (forall t, fromisoformat w t = fromisoformat w' t) ->
  _api_get w (platform ++ py "/" ++ name) []
  = _api_get w' (platform ++ py "/" ++ name) [] ->
  Combined._package_snapshot w name platform
  = Combined._package_snapshot w' name platform.
Proof.
  intros Hnow Hiso Hget. unfold Combined._package_snapshot.
  rewrite Hget.
  destruct (_api_get w' _ []) as [msg|data|[|p l]]; try reflexivity.
  rewrite (months_since_frame w w' _ Hnow Hiso). reflexivity.
Qed.

(** X18.  With a platform given, [compare] takes both items for
    packages, also when they have the shape of a repository: it makes
    the two requests [platform/item] to the registry and no other, so
    that two worlds with the same clock and the same two answers give
    the same comparison, whatever their hosting API and their registry
    search answer.  An empty platform counts as none. *)
Theorem compare_with_platform (w w' : world) (item1 item2 platform : str) :
  (platform <> [] ->
   now w = now w' ->
   (forall t, fromisoformat w t = fromisoformat w' t) ->
   _api_get w (platform ++ py "/" ++ item1) []
   = _api_get w' (platform ++ py "/" ++ item1) [] ->
   _api_get w (platform ++ py "/" ++ item2) []
   = _api_get w' (platform ++ py "/" ++ item2) [] ->
   Combined.compare w item1 item2 (Some platform)
   = Combined.compare w' item1 item2 (Some platform))
  /\ Combined.compare w item1 item2 (Some [])
     = Combined.compare w item1 item2 None.
Proof.
  split; [|reflexivity].
  intros Hne Hnow Hiso H1 H2.
  unfold Combined.compare, Combined.compare_out, Combined.resolve.
  destruct platform as [|c platform]; [congruence|].
  rewrite (package_snapshot_frame w w' item1 _ Hnow Hiso H1).
  rewrite (package_snapshot_frame w w' item2 _ Hnow Hiso H2).
  reflexivity.
Qed.

Lemma compare_with_platform_witness :
  Combined.compare Sample.w (py "expressjs/express") (py "fastify")
    (Some (py "npm"))
  = Combined.compare
      (with_hosting
         (with_registry Sample.w
            (fun endpoint params =>
               if str_eqb endpoint (py "search") then ApiList []
               else Sample.registry endpoint params))
         (fun _ => RespOther))
      (py "expressjs/express") (py "fastify") (Some (py "npm")).
Proof.
  apply (proj1 (compare_with_platform Sample.w
                  (with_hosting
                     (with_registry Sample.w
                        (fun endpoint params =>
                           if str_eqb endpoint (py "search") then ApiList []
                           else Sample.registry endpoint params))
                     (fun _ => RespOther))
                  (py "expressjs/express") (py "fastify") (py "npm"))).
  - discriminate.
  - reflexivity.
  - intros t. reflexivity.
  - vm_compute. reflexivity.
  - vm_compute. reflexivity.
Defined.

Example compare_with_platform_sample :
  Combined.compare Sample.w (py "expressjs/express") (py "fastify")
    (Some (py "npm"))
  = Some (join newline
            [py "Comparing: expressjs/express vs fastify" ++ newline
             ++ repeat_str (py "=") 40;
             py "Error: Could not find 'expressjs/express' on npm";
             repeat_str (py "─") 40;
             default [] (Combined._format_snapshot Sample.fastify_snapshot);
             repeat_str (py "=") 40]).
Proof. vm_compute. reflexivity. Qed.

(** ** A repository given by its URL *)

Lemma split_max_none (n : nat) (sep s : str) :
  index_of sep s = None -> split_max n sep s = [s].
Proof.
  intros H. destruct n; simpl; [reflexivity|]. rewrite H. reflexivity.
Qed.

Lemma last_split_max (n : nat) (sep s x : str) :
  last (x :: split_max n sep s) [] = last (split_max n sep s) [].
Proof.
  destruct n; simpl; [reflexivity|].
  destruct (index_of sep s); reflexivity.
Qed.

Lemma unbordered_spec (sep : str) (k : nat) :
  Behaviour.unbordered sep = true ->
  0 < k < length sep ->
  firstn k sep <> skipn (length sep - k) sep.
Proof.
  unfold Behaviour.unbordered. rewrite forallb_forall. intros H Hk E.
  specialize (H k). rewrite in_seq in H.
  assert (Hb : negb (Behaviour.border sep k) = true) by (apply H; lia).
  unfold Behaviour.border in Hb. rewrite E, str_eqb_refl in Hb.
  discriminate Hb.
Qed.

(** Two occurrences of an unbordered [sep] do not overlap. *)
Lemma occurrences_apart (sep b p t : str) :
  Behaviour.unbordered sep = true ->
  sep ++ b = p ++ sep ++ t ->
  p = [] \/ length sep <= length p.
Proof.
  intros Hu E.
  destruct p as [|c p]; [left; reflexivity|]. right.
  destruct (Nat.le_gt_cases (length sep) (length (c :: p))) as [|Hlt];
    [assumption|exfalso].
  set (P := c :: p) in *.
  assert (HP : 0 < length P) by (unfold P; simpl; lia).
  apply (unbordered_spec sep (length sep - length P) Hu); [lia|].
  replace (length sep - (length sep - length P)) with (length P) by lia.
  apply (f_equal (firstn (length sep))) in E.
  rewrite firstn_app, Nat.sub_diag, firstn_O, app_nil_r, firstn_all in E.
  rewrite firstn_app in E.
  rewrite (firstn_all2 P) in E by lia.
  rewrite firstn_app in E.
  replace (length sep - length P - length sep) with 0 in E by lia.
  rewrite firstn_O, app_nil_r in E.
  transitivity (skipn (length P) (P ++ firstn (length sep - length P) sep)).
  - rewrite skipn_app, Nat.sub_diag, skipn_all. reflexivity.
  - rewrite <- E. reflexivity.
Qed.

(** When [sep] is unbordered and not in [tail], the last piece of the
    split of [prefix ++ sep ++ tail] is [tail]. *)
Lemma split_max_last (sep tail : str) :
  sep <> [] ->
  Behaviour.unbordered sep = true ->
  index_of sep tail = None ->
  forall n prefix,
    length (prefix ++ sep ++ tail) <= n ->
    last (split_max n sep (prefix ++ sep ++ tail)) [] = tail.
Proof.
  intros Hne Hu Htail.
  assert (Hlen : 0 < length sep) by (destruct sep; [congruence|simpl; lia]).
  induction n as [|n IH]; intros prefix Hn.
  - rewrite !length_app in Hn. lia.
  - cbn [split_max].
    destruct (index_of sep (prefix ++ sep ++ tail)) as [i|] eqn:Ei.
    + rewrite last_split_max.
      destruct (index_of_Some _ _ _ Ei) as [Hs Hmin].
      assert (Hi : i <= length prefix) by (apply (Hmin prefix tail eq_refl)).
      assert (Hcut : skipn i (prefix ++ sep ++ tail)
                     = sep ++ skipn (i + length sep) (prefix ++ sep ++ tail)).
      { rewrite Hs at 1. rewrite skipn_app.
        rewrite length_firstn.
        replace (Nat.min i (length (prefix ++ sep ++ tail))) with i
          by (rewrite !length_app; lia).
        rewrite Nat.sub_diag. cbn [skipn].
        rewrite skipn_all2; [reflexivity|].
        rewrite length_firstn. lia. }
      rewrite skipn_app in Hcut.
      replace (i - length prefix) with 0 in Hcut by lia.
      cbn [skipn] in Hcut. symmetry in Hcut.
      destruct (occurrences_apart sep _ _ _ Hu Hcut) as [Hp|Hp].
      * assert (Hi' : i = length prefix).
        { apply (f_equal (@length ascii)) in Hp.
          rewrite length_skipn in Hp. simpl in Hp. lia. }
        subst i. rewrite skipn_app.
        rewrite skipn_all2 by lia.
        replace (length prefix + length sep - length prefix)
          with (length sep) by lia.
        rewrite skipn_app, Nat.sub_diag, skipn_all. cbn [skipn app].
        rewrite split_max_none by exact Htail. reflexivity.
      * rewrite length_skipn in Hp.
        rewrite skipn_app.
        replace (i + length sep - length prefix) with 0 by lia.
        cbn [skipn]. apply IH.
        rewrite !length_app, length_skipn.
        rewrite !length_app in Hn. lia.
    + exfalso. exact (index_of_None _ _ Ei prefix tail eq_refl).
Qed.


Lemma head_kept_app (p : ascii -> bool) (a b : str) :
  a <> [] -> head_kept p a -> head_kept p (a ++ b).
Proof. destruct a; [congruence|]. simpl. auto. Qed.

Lemma strip_with_fixed_inv (p : ascii -> bool) (s : str) :
  strip_with p s = s -> head_kept p s /\ head_kept p (rev s).
Proof. intros H. rewrite <- H. apply strip_with_head_kept. Qed.

Lemma dropwhile_all (p : ascii -> bool) (a b : str) :
  forallb p a = true -> dropwhile p (a ++ b) = dropwhile p b.
Proof.
  induction a as [|c a IH]; simpl; [reflexivity|].
  intros H. apply andb_true_iff in H. destruct H as [Hc Ha].
  rewrite Hc. apply IH. exact Ha.
Qed.

Lemma forallb_rev {A : Type} (p : A -> bool) (l : list A) :
  forallb p l = true -> forallb p (rev l) = true.
Proof.
  rewrite !forallb_forall. intros H x Hx. apply H, in_rev. exact Hx.
Qed.

Lemma rev_nonempty {A : Type} (l : list A) : l <> [] -> rev l <> [].
Proof.
  intros H E. apply H. apply (f_equal (@rev A)) in E.
  rewrite rev_involutive in E. exact E.
Qed.

(** Slashes after a text that does not end with one are what
    [rstrip("/")] removes. *)
Lemma rstrip_slashes (p : ascii -> bool) (s slashes : str) :
  s <> [] -> head_kept p (rev s) -> forallb p slashes = true ->
  Audit.rstrip_with p (s ++ slashes) = s.
Proof.
  intros Hne Hs Hsl. unfold Audit.rstrip_with.
  rewrite rev_app_distr, dropwhile_all by (apply forallb_rev; exact Hsl).
  rewrite dropwhile_fixed by exact Hs. apply rev_involutive.
Qed.

Lemma strip_with_slashes (p : ascii -> bool) (s slashes : str) :
  s <> [] -> strip_with p s = s -> forallb p slashes = true ->
  strip_with p (s ++ slashes) = s.
Proof.
  intros Hne Hs Hsl. apply strip_with_fixed_inv in Hs.
  destruct Hs as [H1 H2]. unfold strip_with.
  rewrite (dropwhile_fixed p (s ++ slashes))
    by (apply head_kept_app; assumption).
  apply (rstrip_slashes p s slashes Hne H2 Hsl).
Qed.

Lemma is_slash_not_space (c : ascii) :
  Combined.is_slash c = true -> isspace c = false.
Proof.
  unfold Combined.is_slash. destruct (ascii_dec c "/") as [->|];
    [reflexivity | discriminate].
Qed.

(** A text between a prefix that does not start with whitespace and
    slashes is left as it is by [strip()]. *)
Lemma strip_url (prefix body slashes : str) :
  head_kept isspace prefix ->
  body <> [] -> head_kept isspace body -> head_kept isspace (rev body) ->
  forallb Combined.is_slash slashes = true ->
  strip (prefix ++ body ++ slashes) = prefix ++ body ++ slashes.
Proof.
  intros Hp Hne Hb1 Hb2 Hsl. apply strip_with_fixed.
  - destruct prefix as [|c prefix]; [|exact Hp].
    cbn [app]. apply head_kept_app; assumption.
  - rewrite !rev_app_distr.
    destruct (rev slashes) as [|c r] eqn:Er.
    + cbn [app]. apply head_kept_app; [apply rev_nonempty|]; assumption.
    + cbn [app head_kept]. apply is_slash_not_space.
      assert (Hin : In c (rev slashes)) by (rewrite Er; left; reflexivity).
      apply in_rev in Hin. rewrite forallb_forall in Hsl. apply Hsl, Hin.
Qed.

Lemma contains_false_app (sub s t : str) :
  contains sub (s ++ t) = false -> contains sub s = false.
Proof.
  intros H. destruct (contains sub s) eqn:E; [|reflexivity].
  apply contains_iff in E. destruct E as (pre & post & ->).
  assert (Hc : contains sub ((pre ++ sub ++ post) ++ t) = true).
  { apply contains_iff. exists pre, (post ++ t).
    rewrite <- !app_assoc. reflexivity. }
  congruence.
Qed.

Lemma contains_false_index (sub s : str) :
  contains sub s = false -> index_of sub s = None.
Proof.
  unfold contains. destruct (index_of sub s); [discriminate|reflexivity].
Qed.

Lemma split_last (sep prefix tail : str) :
  sep <> [] ->
  Behaviour.unbordered sep = true ->
  contains sep tail = false ->
  last (split sep (prefix ++ sep ++ tail)) [] = tail.
Proof.
  intros Hne Hu Ht. unfold split.
  apply split_max_last; [assumption|assumption| |lia].
  apply contains_false_index. exact Ht.
Qed.

Lemma contains_app (sep prefix tail : str) :
  contains sep (prefix ++ sep ++ tail) = true.
Proof. apply contains_iff. exists prefix, tail. reflexivity. Qed.

(** X19.  [compare] reads a repository URL as its slug: for a text
    that ends with "github.com/", a slug and any number of slashes, the
    snapshot is the one of the slug alone.  The slug is what follows the
    last "github.com/"; it is taken as it is, a final ".git" included. *)
Theorem repo_url_slug (w : world) (prefix slug slashes : str) :
  head_kept isspace prefix ->
  slug <> [] ->
  strip slug = slug ->
  strip_with Combined.is_slash slug = slug ->
  forallb Combined.is_slash slashes = true ->
  contains (py "github.com/") (slug ++ slashes) = false ->
  Combined._repo_snapshot w (prefix ++ py "github.com/" ++ slug ++ slashes)
  = Combined._repo_snapshot w slug.
Proof.
  intros Hp Hne Hstrip Hslash Hsl Hc.
  destruct (strip_with_fixed_inv _ _ Hstrip) as [Hs1 Hs2].
  unfold Combined._repo_snapshot.
  rewrite Hstrip, (contains_false_app _ _ _ Hc).
  replace (prefix ++ py "github.com/" ++ slug ++ slashes)
    with ((prefix ++ py "github.com/") ++ slug ++ slashes)
    by (rewrite <- app_assoc; reflexivity).
  rewrite strip_url; try assumption.
  - rewrite <- app_assoc. rewrite contains_app.
    rewrite split_last; [|discriminate|vm_compute; reflexivity|exact Hc].
    rewrite strip_with_slashes by assumption. reflexivity.
  - destruct prefix; [reflexivity | exact Hp].
Qed.

Lemma repo_url_slug_witness :
  Combined._repo_snapshot Sample.w
    (py "https://" ++ py "github.com/" ++ py "expressjs/express" ++ py "/")
  = Combined._repo_snapshot Sample.w (py "expressjs/express").
Proof.
  apply (repo_url_slug Sample.w (py "https://") (py "expressjs/express")
           (py "/")).
  - reflexivity.
  - discriminate.
  - vm_compute. reflexivity.
  - vm_compute. reflexivity.
  - reflexivity.
  - vm_compute. reflexivity.
Defined.

Lemma index_of_nil (sep : str) : sep <> [] -> index_of sep [] = None.
Proof. destruct sep; [congruence | reflexivity]. Qed.

(** More cuts allowed than the text has characters change nothing. *)
Lemma split_max_fuel (sep : str) (n m : nat) (s : str) :
  sep <> [] -> length s <= n -> length s <= m ->
  split_max n sep s = split_max m sep s.
Proof.
  intros Hne. revert m s.
  induction n as [|n IH]; intros m s Hn Hm.
  - destruct s; [|simpl in Hn; lia].
    destruct m; [reflexivity|]. cbn [split_max].
    rewrite index_of_nil by exact Hne. reflexivity.
  - destruct m as [|m].
    + destruct s; [|simpl in Hm; lia]. cbn [split_max].
      rewrite index_of_nil by exact Hne. reflexivity.
    + cbn [split_max]. destruct (index_of sep s) as [i|] eqn:Ei;
        [|reflexivity].
      f_equal.
      assert (Hlen : 0 < length sep)
        by (destruct sep; [congruence|simpl; lia]).
      assert (Hs : 0 < length s).
      { destruct s; [|simpl; lia].
        rewrite index_of_nil in Ei by exact Hne. discriminate Ei. }
      apply IH; rewrite length_skipn; lia.
Qed.

(** The first occurrence of an unbordered [sep] after a text without
    one. *)
Lemma index_of_first (sep a b : str) :
  sep <> [] ->
  Behaviour.unbordered sep = true ->
  contains sep a = false ->
  index_of sep (a ++ sep ++ b) = Some (length a).
Proof.
  intros Hne Hu Ha.
  destruct (index_of sep (a ++ sep ++ b)) as [i|] eqn:Ei.
  - f_equal.
    destruct (index_of_Some _ _ _ Ei) as [Hs Hmin].
    assert (Hi : i <= length a) by (apply (Hmin a b eq_refl)).
    assert (Hcut : skipn i (a ++ sep ++ b)
                   = sep ++ skipn (i + length sep) (a ++ sep ++ b)).
    { rewrite Hs at 1. rewrite skipn_app, length_firstn.
      replace (Nat.min i (length (a ++ sep ++ b))) with i
        by (rewrite !length_app; lia).
      rewrite Nat.sub_diag. cbn [skipn].
      rewrite skipn_all2; [reflexivity|].
      rewrite length_firstn. lia. }
    rewrite skipn_app in Hcut.
    replace (i - length a) with 0 in Hcut by lia.
    cbn [skipn] in Hcut. symmetry in Hcut.
    destruct (occurrences_apart sep _ _ _ Hu Hcut) as [Hp|Hp].
    + apply (f_equal (@length ascii)) in Hp.
      rewrite length_skipn in Hp. simpl in Hp. lia.
    + exfalso. rewrite length_skipn in Hp.
      assert (Hocc : contains sep a = true).
      { apply contains_iff. exists (firstn i a).
        exists (skipn (i + length sep) a).
        assert (E : firstn (length sep) (skipn i a) = sep).
        { assert (E2 : firstn (length sep) (skipn i a ++ sep ++ b)
                       = firstn (length sep) (skipn i a)).
          { rewrite firstn_app.
            replace (length sep - length (skipn i a)) with 0
              by (rewrite length_skipn; lia).
            rewrite firstn_O, app_nil_r. reflexivity. }
          rewrite <- E2, <- Hcut.
          rewrite firstn_app, Nat.sub_diag, firstn_O, app_nil_r.
          apply firstn_all. }
        transitivity (firstn i a ++ skipn i a);
          [symmetry; apply firstn_skipn|]. f_equal.
        transitivity (firstn (length sep) (skipn i a)
                      ++ skipn (length sep) (skipn i a));
          [symmetry; apply firstn_skipn|].
        rewrite E, skipn_skipn. do 2 f_equal. lia. }
      congruence.
  - exfalso. exact (index_of_None _ _ Ei a b eq_refl).
Qed.

(** Removing an unbordered [old]: its first occurrence goes, and the
    rest of the text is treated alike. *)
Lemma replace_first (old a b : str) :
  old <> [] ->
  Behaviour.unbordered old = true ->
  contains old a = false ->
  replace old [] (a ++ old ++ b) = a ++ replace old [] b.
Proof.
  intros Hne Hu Ha. unfold replace, split. rewrite !join_nil.
  assert (Hlen : 0 < length old) by (destruct old; [congruence|simpl; lia]).
  destruct (length (a ++ old ++ b)) as [|n] eqn:En.
  - rewrite !length_app in En. lia.
  - cbn [split_max]. rewrite index_of_first by assumption.
    rewrite firstn_app, Nat.sub_diag, firstn_O, app_nil_r, firstn_all.
    rewrite skipn_app.
    rewrite skipn_all2 by lia.
    replace (length a + length old - length a) with (length old) by lia.
    rewrite skipn_app, Nat.sub_diag, skipn_all. cbn [skipn app concat].
    f_equal. f_equal. apply split_max_fuel; [exact Hne| |lia].
    rewrite !length_app in En. lia.
Qed.

(** X20.  The repository [audit_repo] works on.  A slug is kept as it
    is, final slashes apart.  Of a URL it keeps what follows the last
    "github.com/", without the final slashes and without ".git": not
    only a final ".git" is removed but each one, so that a slug made of
    [a], ".git" and [b] is audited as [a] followed by [b] without its
    own ".git". *)
Theorem audit_target_url (prefix slug slashes : str) :
  head_kept isspace prefix ->
  slug <> [] ->
  strip slug = slug ->
  head_kept Combined.is_slash (rev slug) ->
  forallb Combined.is_slash slashes = true ->
  contains (py "github.com/") slug = false ->
  Audit.audit_target (slug ++ slashes) = slug
  /\ Audit.audit_target (prefix ++ py "github.com/" ++ slug ++ slashes)
     = replace (py ".git") [] slug
  /\ (forall a b,
         slug = a ++ py ".git" ++ b ->
         contains (py ".git") a = false ->
         Audit.audit_target (prefix ++ py "github.com/" ++ slug ++ slashes)
         = a ++ replace (py ".git") [] b).
Proof.
  intros Hp Hne Hstrip Hslash Hsl Hc.
  destruct (strip_with_fixed_inv _ _ Hstrip) as [Hs1 Hs2].
  assert (Hurl : Audit.audit_target
                   (prefix ++ py "github.com/" ++ slug ++ slashes)
                 = replace (py ".git") [] slug).
  { unfold Audit.audit_target.
    replace (prefix ++ py "github.com/" ++ slug ++ slashes)
      with ((prefix ++ py "github.com/") ++ slug ++ slashes)
      by (rewrite <- app_assoc; reflexivity).
    rewrite strip_url; try assumption;
      [|destruct prefix; [reflexivity | exact Hp]].
    rewrite app_assoc, rstrip_slashes; try assumption.
    - rewrite <- app_assoc, contains_app.
      rewrite split_last;
        [reflexivity|discriminate|vm_compute; reflexivity|exact Hc].
    - intros E. apply app_eq_nil in E. destruct E as [_ E]. congruence.
    - rewrite rev_app_distr. apply head_kept_app;
        [apply rev_nonempty|]; assumption. }
  split; [|split].
  - unfold Audit.audit_target.
    pose proof (strip_url [] slug slashes I Hne Hs1 Hs2 Hsl) as Hst.
    cbn [app] in Hst. rewrite Hst.
    rewrite rstrip_slashes by assumption. rewrite Hc. reflexivity.
  - exact Hurl.
  - intros a b -> Ha. rewrite Hurl.
    apply replace_first; [discriminate|vm_compute; reflexivity|exact Ha].
Qed.

Lemma audit_target_url_witness :
  Audit.audit_target
    (py "https://" ++ py "github.com/" ++ py "acme/acme.github.io"
     ++ py "/")
  = py "acme/acme" ++ replace (py ".git") [] (py "hub.io").
Proof.
  apply (proj2 (proj2 (audit_target_url (py "https://")
                         (py "acme/acme.github.io") (py "/")
                         ltac:(reflexivity) ltac:(discriminate)
                         ltac:(vm_compute; reflexivity)
                         ltac:(reflexivity) ltac:(reflexivity)
                         ltac:(vm_compute; reflexivity)))
           (py "acme/acme") (py "hub.io")).
  - reflexivity.
  - vm_compute. reflexivity.
Defined.

Example audit_repo_sample :
  Audit.audit_repo (fun repo => py "info of " ++ repo)
    (fun _ repo => py "overview of " ++ repo)
    (fun repo => py "health of " ++ repo)
    (py " https://github.com/acme/app.git/ ")
  = join newline
      [py "CodeLens Audit: acme/app" ++ newline ++ repeat_str (py "=") 40;
       newline ++ py "Repo Info:"; py "info of acme/app";
       newline ++ py "Codebase Overview:"; py "overview of acme/app";
       newline ++ py "Dependency Health:"; py "health of acme/app";
       newline ++ repeat_str (py "=") 40; py "Audit complete."].
Proof. vm_compute. reflexivity. Qed.

(** ** The metadata of a repository *)

(** X21.  [repo_info] and the block [compare] prints for a repository
    fail together.  For a slug, when the request for the repository
    fails both give the same line, "Error: " and the message; and
    [repo_info] ends in its handler exactly when [compare] raises: the
    answer is not a dict, or a count of stars, forks or open issues is
    missing. *)
Theorem repo_info_and_block (w : world) (repo : str) :
  strip repo = repo ->
  contains (py "github.com/") repo = false ->
  (forall msg,
      _get w (py "repos/" ++ repo) = RespError msg ->
      Codebase.repo_info w repo = Codebase.Text (py "Error: " ++ msg)
      /\ Behaviour.repo_block w repo = Some (py "Error: " ++ msg))
  /\ (Codebase.repo_info w repo = Codebase.Raised
      <-> Behaviour.repo_block w repo = None)
  /\ (Codebase.repo_info w repo = Codebase.Raised
      <-> _get w (py "repos/" ++ repo) = RespOther
          \/ exists d,
               _get w (py "repos/" ++ repo) = RespDict d
               /\ (rd_stars d = None \/ rd_forks d = None
                   \/ rd_open_issues d = None)).
Proof.
  intros Hstrip Hc.
  unfold Behaviour.repo_block, Combined._repo_snapshot, Codebase.repo_info.
  rewrite Hstrip, Hc. unfold Github.get_repo_info.
  split; [|split].
  - intros msg ->. split; reflexivity.
  - destruct (_get w (py "repos/" ++ repo)) as [msg|d|].
    + split; discriminate.
    + cbn [Combined.bind Combined._format_snapshot Combined.format_commas_opt
           Github.ri_stars Github.ri_forks Github.ri_open_issues
           Combined.rs_stars Combined.rs_forks Combined.rs_open_issues].
      destruct (rd_stars d), (rd_forks d), (rd_open_issues d);
        cbn [option_map]; split; (discriminate || reflexivity).
    + split; reflexivity.
  - destruct (_get w (py "repos/" ++ repo)) as [msg|d|].
    + split; [discriminate|]. intros [H|(d & H & _)]; discriminate H.
    + cbn [Github.ri_stars Github.ri_forks Github.ri_open_issues].
      split.
      * intros H. right. exists d. split; [reflexivity|].
        destruct (rd_stars d); [|left; reflexivity].
        destruct (rd_forks d); [|right; left; reflexivity].
        destruct (rd_open_issues d); [|right; right; reflexivity].
        discriminate H.
      * intros [H|(d' & [= <-] & H)]; [discriminate H|].
        destruct H as [-> | [-> | ->]]; cbn [option_map];
          [reflexivity
          |destruct (option_map format_commas (rd_stars d)); reflexivity
          |destruct (option_map format_commas (rd_stars d));
           [destruct (option_map format_commas (rd_forks d))|];
           reflexivity].
    + split; [intros _; left; reflexivity | reflexivity].
Qed.

Lemma repo_info_and_block_witness :
  Codebase.repo_info Sample.w (py "acme/none")
  = Codebase.Text (py "Error: " ++ py "GitHub API 404: Not Found")
  /\ Behaviour.repo_block Sample.w (py "acme/none")
     = Some (py "Error: " ++ py "GitHub API 404: Not Found").
Proof.
  apply (proj1 (repo_info_and_block Sample.w (py "acme/none")
                  ltac:(vm_compute; reflexivity)
                  ltac:(vm_compute; reflexivity))).
  vm_compute. reflexivity.
Defined.

Example repo_info_sample :
  Codebase.repo_info Sample.w (py "expressjs/express")
  = Codebase.Text
      (py "expressjs/express" ++ newline
       ++ py "Description : A framework." ++ newline
       ++ py "Language    : JavaScript" ++ newline
       ++ py "Stars       : 60,000" ++ newline
       ++ py "Forks       : 100" ++ newline
       ++ py "Open issues : 12" ++ newline
       ++ py "License     : MIT" ++ newline
       ++ py "Topics      : web, http").
Proof. vm_compute. reflexivity. Qed.

(** ** The search and the file tools *)

Lemma numbered_hits (i : nat) (items : list Hosting.code_item) :
  Codebase.numbered i
    (map (fun item => inr (Behaviour.hit_of item)) items)
  = Some (map Behaviour.listed (combine (seq i (length items)) items)).
Proof.
  revert i. induction items as [|item items IH]; intros i.
  - reflexivity.
  - cbn [map Codebase.numbered length seq combine]. rewrite IH.
    reflexivity.
Qed.

(** X22.  [search_code] lists each hit of the search, numbered from 1
    in the order of the answer, with its path and its URL.  It ends in
    its handler only when the hosting API answers the search with a
    list, and an empty language is no filter. *)
Theorem search_code_listing
    (_get : str -> list (str * str) -> str + Hosting.code_search)
    (query repo : str) :
  (forall items,
      _get (py "search/code") (Behaviour.code_query repo query)
      = inr (Hosting.SearchDict items) ->
      items <> [] ->
      Codebase.search_code _get query repo None
      = Codebase.Text
          (join newline
             ((py "Search results for '" ++ query ++ py "' in '" ++ repo
               ++ py "':" ++ newline)
              :: map Behaviour.listed
                   (combine (seq 1 (length items)) items))))
  /\ (Codebase.search_code _get query repo None = Codebase.Raised
      <-> _get (py "search/code") (Behaviour.code_query repo query)
          = inr Hosting.SearchList)
  /\ Codebase.search_code _get query repo (Some [])
     = Codebase.search_code _get query repo None.
Proof.
  assert (Hfold : forall items : list Hosting.code_item,
             map (fun item =>
                    @inr str Hosting.search_hit
                      {| Hosting.file_path := Hosting.ci_path item;
                         Hosting.hit_repo := Hosting.ci_repository item;
                         Hosting.url := Hosting.ci_html_url item;
                         Hosting.sha := Hosting.ci_sha item |}) items
             = map (fun item => inr (Behaviour.hit_of item)) items)
    by reflexivity.
  split; [|split; [|reflexivity]].
  - intros items Hg Hne.
    unfold Codebase.search_code, Hosting.search_code.
    unfold Behaviour.code_query in Hg. rewrite Hg, Hfold.
    pose proof (numbered_hits 1 items) as Hn.
    destruct items as [|item items]; [congruence|].
    cbn [map] in *. rewrite Hn. reflexivity.
  - unfold Codebase.search_code, Hosting.search_code, Behaviour.code_query.
    destruct (_get (py "search/code") _) as [error|[items|]].
    + split; discriminate.
    + rewrite Hfold. pose proof (numbered_hits 1 items) as Hn.
      destruct items as [|item items]; [split; discriminate|].
      cbn [map] in *. rewrite Hn. split; discriminate.
    + split; reflexivity.
Qed.

Lemma search_code_listing_witness :
  Codebase.search_code Fixtures.search_get (py "parser") (py "acme/app") None
  = Codebase.Text
      (join newline
         ((py "Search results for '" ++ py "parser" ++ py "' in '"
           ++ py "acme/app" ++ py "':" ++ newline)
          :: map Behaviour.listed
               (combine (seq 1 5)
                  [Fixtures.hit "package.json";
                   Fixtures.hit "requirements.txt";
                   Fixtures.hit "src/app.py"; Fixtures.hit "src/util.py";
                   Fixtures.hit "README.md"]))).
Proof.
  apply (proj1 (search_code_listing Fixtures.search_get (py "parser")
                  (py "acme/app"))
           [Fixtures.hit "package.json"; Fixtures.hit "requirements.txt";
            Fixtures.hit "src/app.py"; Fixtures.hit "src/util.py";
            Fixtures.hit "README.md"]).
  - reflexivity.
  - discriminate.
Defined.

(** X23.  What [get_file] returns for a file it cannot show.  A request
    that is answered with another status than 200 gives one line: "Error
    fetching", the path, the status and the first 200 characters of the
    answer.  An answer that is not encoded in base64 (a directory, a file
    too large) is not an error for it: the line "Could not decode" comes
    under the header of a file, as its content. *)
Theorem get_file_failures (w : world)
    (requests_get :
       str -> list (str * str) -> Transport.http_result response)
    (repo file_path : str) :
  let w' := with_hosting w (Transport.hosting_of requests_get) in
  (forall status text body,
      requests_get (Transport.GITHUB_BASE ++ py "/"
                    ++ Spec.contents_endpoint repo file_path) []
      = Transport.HttpResponse status text body ->
      status <> 200%Z ->
      Codebase.get_file w' repo file_path
      = Codebase.Text
          (py "Error fetching " ++ file_path ++ py ": GitHub API "
           ++ str_of_Z status ++ py ": " ++ firstn 200 text))
  /\ (forall text d,
         requests_get (Transport.GITHUB_BASE ++ py "/"
                       ++ Spec.contents_endpoint repo file_path) []
         = Transport.HttpResponse 200 text (inr (RespDict d)) ->
         rd_encoding d <> Some (py "base64") ->
         Codebase.get_file w' repo file_path
         = Codebase.Text
             (repo ++ py "/" ++ file_path ++ newline ++ Codebase.rule
              ++ newline ++ py "Could not decode " ++ file_path)).
Proof.
  intros w'. split.
  - intros status text body Hr Hs.
    unfold Codebase.get_file, Github.get_file_content.
    fold (Spec.contents_endpoint repo file_path).
    unfold w'. cbn [with_hosting _get].
    unfold Transport.hosting_of, Transport._get. rewrite Hr.
    destruct (Z.eqb_spec status 200) as [E|_]; [congruence|].
    reflexivity.
  - intros text d Hr He.
    unfold Codebase.get_file, Github.get_file_content.
    fold (Spec.contents_endpoint repo file_path).
    unfold w'. cbn [with_hosting _get].
    unfold Transport.hosting_of, Transport._get. rewrite Hr.
    cbn [Z.eqb Pos.eqb].
    destruct (rd_encoding d) as [enc|]; [|reflexivity].
    destruct (str_eqb enc (py "base64")) eqn:E; [|reflexivity].
    apply str_eqb_eq in E. congruence.
Qed.

Lemma get_file_failures_witness :
  Codebase.get_file
    (with_hosting Sample.w (Transport.hosting_of Fixtures.requests_get))
    (py "acme/app") (py "setup.py")
  = Codebase.Text
      (py "Error fetching " ++ py "setup.py" ++ py ": GitHub API "
       ++ str_of_Z 404 ++ py ": " ++ firstn 200 (py "Not Found")).
Proof.
  apply (proj1 (get_file_failures Sample.w Fixtures.requests_get
                  (py "acme/app") (py "setup.py"))
           404%Z (py "Not Found") (inl (py "no body"))).
  - vm_compute. reflexivity.
  - discriminate.
Defined.

(** ** A report is whole or not at all *)

Lemma raising_loop_raises {S A : Type} (body : S -> A -> option S)
    (l : list A) (x : A) :
  In x l -> (forall st, body st x = None) ->
  forall st, Packages.raising_loop body l st = None.
Proof.
  intros Hin Hx. induction l as [|a l IH]; intros st; [destruct Hin|].
  cbn [Packages.raising_loop]. destruct Hin as [->|Hin].
  - rewrite Hx. reflexivity.
  - destruct (body st a) as [st'|]; [apply IH; exact Hin | reflexivity].
Qed.

Lemma platform_nonempty (filename platform : str) :
  dict_get filename Packages.PACKAGE_FILES = Some platform ->
  platform <> [].
Proof.
  unfold Packages.PACKAGE_FILES. cbn [dict_get].
  repeat (destruct (str_eqb filename _);
          [intros [= <-]; discriminate|]).
  discriminate.
Qed.

(** X24.  [check_dependencies] gives no partial report.  When the
    registry answers the request for one of the first 20 packages of one
    manifest with a list, the loop over the fetch results raises, and
    the function returns the line of its handler: the sections built
    before, and the lines of the other packages, are lost. *)
Theorem report_all_or_nothing (w : world) (repo : str)
    (docs : list (str * str)) (filename content platform name : str)
    (version : json) (answer : list package_data) :
  Github.get_package_files w repo = Some docs ->
  In (filename, content) docs ->
  dict_get filename Packages.PACKAGE_FILES = Some platform ->
  In (name, version)
    (firstn 20 (Packages._extract_packages w filename content)) ->
  _api_get w (platform ++ py "/" ++ name) [] = ApiList answer ->
  Packages.check_dependencies w repo = Packages.ErrorChecking.
Proof.
  intros Hdocs Hin Hplat Hpkg Hans.
  assert (Hbody : forall st,
             Packages.manifest_body w st (filename, content) = None).
  { intros st. unfold Packages.manifest_body. rewrite Hplat.
    pose proof (platform_nonempty _ _ Hplat) as Hne.
    destruct platform as [|c platform]; [congruence|].
    destruct (Packages._extract_packages w filename content)
      as [|p packages] eqn:Ep.
    - rewrite firstn_nil in Hpkg. destruct Hpkg.
    - rewrite (raising_loop_raises (Packages.classify_body w) _
                 (Packages.fetch_package w (c :: platform) (name, version))).
      + reflexivity.
      + apply in_map. exact Hpkg.
      + intros [[all_results risky] healthy].
        unfold Packages.fetch_package, Packages.classify_body.
        rewrite Hans. reflexivity. }
  unfold Packages.check_dependencies. rewrite Hdocs.
  destruct docs as [|doc docs]; [destruct Hin|].
  rewrite (raising_loop_raises (Packages.manifest_body w) _
             (filename, content) Hin Hbody).
  reflexivity.
Qed.

Lemma report_all_or_nothing_witness :
  Packages.check_dependencies
    (with_registry Sample.w
       (fun endpoint params =>
          if str_eqb endpoint (py "npm/left-pad") then ApiList []
          else Sample.registry endpoint params))
    (py "acme/app")
  = Packages.ErrorChecking.
Proof.
  apply (report_all_or_nothing
           (with_registry Sample.w
              (fun endpoint params =>
                 if str_eqb endpoint (py "npm/left-pad") then ApiList []
                 else Sample.registry endpoint params))
           (py "acme/app")
           [(py "package.json", Sample.package_json);
            (py "requirements.txt", Sample.requirements_txt)]
           (py "package.json") Sample.package_json (py "npm")
           (py "left-pad") (JStr (py "1.3.0")) []).
  - vm_compute. reflexivity.
  - left. reflexivity.
  - vm_compute. reflexivity.
  - vm_compute. right. left. reflexivity.
  - vm_compute. reflexivity.
Defined.

(** ** The platform of a package *)

Lemma lower_idem (s : str) : lower (lower s) = lower s.
Proof.
  unfold lower. rewrite map_map. apply map_ext. apply lower_char_idem.
Qed.

(** X25.  The platform [compare] guesses.  [_guess_platform] gives the
    platform of the first hit of a registry search in lowercase, "npm"
    when that hit names no platform, and "npm" when the answer is not a
    list with a hit; so its result is always in lowercase.  Two names
    that are no repositories and for which the same platform is guessed
    are compared as if that platform had been given. *)
Theorem guessed_platform (w : world) :
  (forall name p l,
      _api_get w (py "search") [(py "q", name); (py "per_page", py "1")]
      = ApiList (p :: l) ->
      Combined._guess_platform w name
      = lower (default (py "npm") (pd_platform p)))
  /\ (forall name,
         (forall p l,
             _api_get w (py "search") [(py "q", name); (py "per_page", py "1")]
             <> ApiList (p :: l)) ->
         Combined._guess_platform w name = py "npm")
  /\ (forall name,
         lower (Combined._guess_platform w name)
         = Combined._guess_platform w name)
  /\ (forall item1 item2 platform,
         Combined._is_repo item1 = false ->
         Combined._is_repo item2 = false ->
         Combined._guess_platform w item1 = platform ->
         Combined._guess_platform w item2 = platform ->
         platform <> [] ->
         Combined.compare w item1 item2 None
         = Combined.compare w item1 item2 (Some platform)).
Proof.
  split; [|split; [|split]].
  - intros name p l H. unfold Combined._guess_platform. rewrite H.
    reflexivity.
  - intros name H. unfold Combined._guess_platform.
    destruct (_api_get w (py "search") _) as [msg|d|[|p l]];
      try reflexivity.
    exfalso. apply (H p l). reflexivity.
  - intros name. unfold Combined._guess_platform.
    destruct (_api_get w (py "search") _) as [msg|d|[|p l]];
      try reflexivity.
    apply lower_idem.
  - intros item1 item2 platform H1 H2 G1 G2 Hne.
    unfold Combined.compare, Combined.compare_out, Combined.resolve.
    rewrite H1, H2, G1, G2.
    destruct platform as [|c platform]; [congruence|]. reflexivity.
Qed.

Lemma guessed_platform_witness :
  Combined._guess_platform
    (with_registry Sample.w (fun _ _ => ApiList [Sample.requests]))
    (py "requests")
  = lower (default (py "npm") (pd_platform Sample.requests))
  /\ Combined._guess_platform
       (with_registry Sample.w (fun _ _ => ApiError Sample.not_found))
       (py "express")
     = py "npm"
  /\ Combined.compare Sample.w (py "express") (py "fastify") None
     = Combined.compare Sample.w (py "express") (py "fastify")
         (Some (py "npm")).
Proof.
  split; [|split].
  - apply (proj1 (guessed_platform
                    (with_registry Sample.w
                       (fun _ _ => ApiList [Sample.requests])))
             (py "requests") Sample.requests []).
    reflexivity.
  - apply (proj1 (proj2 (guessed_platform
                           (with_registry Sample.w
                              (fun _ _ => ApiError Sample.not_found))))).
    intros p l H. discriminate H.
  - apply (proj2 (proj2 (proj2 (guessed_platform Sample.w)))).
    + vm_compute. reflexivity.
    + vm_compute. reflexivity.
    + vm_compute. reflexivity.
    + vm_compute. reflexivity.
    + discriminate.
Defined.

Example guess_platform_sample :
  Combined._guess_platform
    (with_registry Sample.w (fun _ _ => ApiList [Sample.requests]))
    (py "requests")
  = py "pypi".
Proof. vm_compute. reflexivity. Qed.
